(** * The literature viewer of the report chat component

    A shallow embedding of the search and paging handlers of the
    [ReportChat] React component ([searchLiterature],
    [findNextLiterature], [findPrevLiterature], [nextLinesLiterature],
    the two [onChange] handlers of the control bar, and the handlers
    that select or drop the literature file), followed by the
    properties of the "Literature Navigator" that the specification
    states about them.

    Conventions of the embedding:
    - a JavaScript string is a [string]; each [ascii] stands for one
      UTF-16 code unit below 256 (the Latin-1 range), on which
      [toLowerCase] and [trim] are modelled exactly;
    - a JavaScript number that holds an integer is a [Z];
    - [null] and [undefined] are [None];
    - the component state is a record and every handler is a function
      from the state of the current render to an [Outcome]: the next
      state, the [alert] it raised (if any) and its return value, or an
      uncaught [TypeError];
    - the [setTimeout] that scrolls the content pane touches the DOM
      only and is left out. *)

From Stdlib Require Import ZArith Ascii String Lia.
From stdpp Require Import gmap strings list.

Local Open Scope Z_scope.

(** ** JavaScript primitives used by the handlers *)

Module JS.

(** Code unit of a character. *)
Definition code (c : ascii) : Z := Z.of_N (N_of_ascii c).

(** White space and line terminators of ECMAScript below U+0100:
    TAB, LF, VT, FF, CR, SP and NBSP. *)
Definition isWhiteSpace (c : ascii) : bool :=
  let n := code c in
  ((9 <=? n) && (n <=? 13)) || (n =? 32) || (n =? 160).

(** Upper-case letters below U+0100: A-Z and U+00C0-U+00DE except the
    multiplication sign U+00D7; each has its lower-case form 32 above. *)
Definition isUpper (c : ascii) : bool :=
  let n := code c in
  ((65 <=? n) && (n <=? 90)) ||
  ((192 <=? n) && (n <=? 222) && negb (n =? 215)).

Definition toLowerChar (c : ascii) : ascii :=
  if isUpper c then ascii_of_N (N_of_ascii c + 32) else c.

(** [String.prototype.toLowerCase] *)
Fixpoint toLowerCase (s : string) : string :=
  match s with
  | EmptyString => EmptyString
  | String c r => String (toLowerChar c) (toLowerCase r)
  end.

(** [String.prototype.trimStart] *)
Fixpoint trimStart (s : string) : string :=
  match s with
  | EmptyString => EmptyString
  | String c r => if isWhiteSpace c then trimStart r else s
  end.

(** [String.prototype.trimEnd] *)
Fixpoint trimEnd (s : string) : string :=
  match s with
  | EmptyString => EmptyString
  | String c r =>
      match trimEnd r with
      | EmptyString => if isWhiteSpace c then EmptyString else String c EmptyString
      | r' => String c r'
      end
  end.

(** [String.prototype.trim] *)
Definition trim (s : string) : string := trimStart (trimEnd s).

(** A string of white space only. *)
Fixpoint blank (s : string) : bool :=
  match s with
  | EmptyString => true
  | String c r => isWhiteSpace c && blank r
  end.

(** [String.prototype.startsWith] *)
Fixpoint startsWith (s t : string) : bool :=
  match t, s with
  | EmptyString, _ => true
  | String _ _, EmptyString => false
  | String b t', String a s' => if Ascii.eqb a b then startsWith s' t' else false
  end.

(** [String.prototype.includes]: literal substring containment. *)
Fixpoint includes (s t : string) : bool :=
  startsWith s t ||
  match s with
  | EmptyString => false
  | String _ s' => includes s' t
  end.

(** The line feed, ['\n']. *)
Definition LF : ascii := ascii_of_N 10.

(** [String.prototype.split] with a one-character separator. *)
Fixpoint split (sep : ascii) (s : string) : list string :=
  match s with
  | EmptyString => [EmptyString]
  | String c r =>
      if Ascii.eqb c sep then EmptyString :: split sep r
      else match split sep r with
           | l :: ls => String c l :: ls
           | [] => [String c EmptyString]
           end
  end.

(** A string in which the separator does not occur. *)
Fixpoint free (sep : ascii) (s : string) : Prop :=
  match s with
  | EmptyString => True
  | String c r => Ascii.eqb c sep = false /\ free sep r
  end.

(** [Array.prototype.join] *)
Fixpoint join (sep : string) (l : list string) : string :=
  match l with
  | [] => EmptyString
  | [x] => x
  | x :: r => String.append x (String.append sep (join sep r))
  end.

(** [a[i]]: [undefined] outside the array. *)
Definition at_index {A} (l : list A) (i : Z) : option A :=
  if i <? 0 then None else l !! Z.to_nat i.

(** [Array.prototype.slice(start, end)]: negative arguments count from
    the end, both are clamped to the array. *)
Definition slice {A} (l : list A) (start end_ : Z) : list A :=
  let len := Z.of_nat (length l) in
  let k := if start <? 0 then Z.max (len + start) 0 else Z.min start len in
  let final := if end_ <? 0 then Z.max (len + end_) 0 else Z.min end_ len in
  take (Z.to_nat (final - k)) (drop (Z.to_nat k) l).

(** Truthiness of a string: every string but the empty one. *)
Definition truthy (s : string) : bool :=
  match s with EmptyString => false | String _ _ => true end.

(** Value of a digit in radix 36. *)
Definition digitValue (c : ascii) : option Z :=
  let n := code c in
  if (48 <=? n) && (n <=? 57) then Some (n - 48)
  else if (97 <=? n) && (n <=? 122) then Some (n - 87)
  else if (65 <=? n) && (n <=? 90) then Some (n - 55)
  else None.

(** The longest prefix of digits of the radix, read as a number;
    [acc] is [None] until a digit has been read. *)
Fixpoint parseDigits (radix : Z) (s : string) (acc : option Z) : option Z :=
  match s with
  | EmptyString => acc
  | String c r =>
      match digitValue c with
      | Some d =>
          if d <? radix
          then parseDigits radix r (Some (default 0 acc * radix + d))
          else acc
      | None => acc
      end
  end.

(** [parseInt(s)] without a radix: leading white space, a sign, an
    optional [0x] prefix, then digits; [None] is [NaN].  Integers are
    exact here, where a double rounds above 2^53. *)
Definition parseInt (s : string) : option Z :=
  let s1 := trimStart s in
  let '(sign, s2) :=
    match s1 with
    | String c r =>
        if code c =? 45 then (-1, r)
        else if code c =? 43 then (1, r)
        else (1, s1)
    | EmptyString => (1, s1)
    end in
  let '(radix, s3) :=
    match s2 with
    | String z (String x r) =>
        if (code z =? 48) && ((code x =? 120) || (code x =? 88))
        then (16, r) else (10, s2)
    | _ => (10, s2)
    end in
  Z.mul sign <$> parseDigits radix s3 None.

End JS.

(** ** Component state

    The literature fields of the component, with the map of loaded
    reports they read.  [loadedReports] is filled by the asynchronous
    folder handlers ([handleFolderSelect], [handlePreloadedFolderSelect]),
    which read files or fetch them; they are modelled further down, on
    what the reads or the fetch came to.  Its keys are file names; the properties a
    JavaScript object inherits from [Object.prototype] are not keys of
    the map.  The remaining [useState] cells (chat, viewer, modal
    flags) are neither read nor written by the handlers below. *)

Record State : Type := mkState {
  loadedReports : gmap string string;          (* {filename: content} *)
  literatureFile : option string;              (* filename or null *)
  literatureSearchTerm : string;
  literatureNumLines : Z;
  literatureFoundLine : option Z;              (* 1-indexed, or null *)
  literatureDisplayContent : option string     (* or null *)
}.

(** The [useState] initial values. *)
Definition initialState : State :=
  mkState ∅ None EmptyString 500 None None.

Definition setLoadedReports (m : gmap string string) (s : State) : State :=
  mkState m (literatureFile s) (literatureSearchTerm s)
    (literatureNumLines s) (literatureFoundLine s) (literatureDisplayContent s).

Definition setLiteratureFile (f : option string) (s : State) : State :=
  mkState (loadedReports s) f (literatureSearchTerm s)
    (literatureNumLines s) (literatureFoundLine s) (literatureDisplayContent s).

Definition setLiteratureSearchTerm (t : string) (s : State) : State :=
  mkState (loadedReports s) (literatureFile s) t
    (literatureNumLines s) (literatureFoundLine s) (literatureDisplayContent s).

Definition setLiteratureNumLines (n : Z) (s : State) : State :=
  mkState (loadedReports s) (literatureFile s) (literatureSearchTerm s)
    n (literatureFoundLine s) (literatureDisplayContent s).

Definition setLiteratureFoundLine (n : option Z) (s : State) : State :=
  mkState (loadedReports s) (literatureFile s) (literatureSearchTerm s)
    (literatureNumLines s) n (literatureDisplayContent s).

Definition setLiteratureDisplayContent (c : option string) (s : State) : State :=
  mkState (loadedReports s) (literatureFile s) (literatureSearchTerm s)
    (literatureNumLines s) (literatureFoundLine s) c.

(** ** Alerts and outcomes *)

(** The messages the literature handlers pass to [alert]. *)
Inductive Alert : Type :=
| NoLiteratureFileSelected          (* 'No literature file selected' *)
| PleaseEnterSearchTerm             (* 'Please enter a search term' *)
| NotFoundInText (term : string)    (* `"${literatureSearchTerm}" not found in the text` *)
| NoMoreOccurrences                 (* `No more occurrences found. Reached end of text.` *)
| NoPreviousOccurrences             (* `No previous occurrences found. Reached beginning of text.` *)
| PleaseSearchFirst                 (* 'Please search for something first' *)
| ReachedEndOfText.                 (* 'Reached end of text.' *)

(** The failure kinds of the specification. *)
Inductive Failure : Type :=
| NoDocument | EmptyTerm | NotFound | NoCursor | EndOfText.

(** The failure kind each alert stands for. *)
Definition failureOf (a : Alert) : Failure :=
  match a with
  | NoLiteratureFileSelected => NoDocument
  | PleaseEnterSearchTerm => EmptyTerm
  | NotFoundInText _ => NotFound
  | NoMoreOccurrences => NotFound
  | NoPreviousOccurrences => NotFound
  | PleaseSearchFirst => NoCursor
  | ReachedEndOfText => EndOfText
  end.

(** Result of evaluating an expression that may throw. *)
Inductive Completion (A : Type) : Type :=
| Normal (a : A)
| Throw.                            (* TypeError: reading a property of undefined *)
Arguments Normal {A} a.
Arguments Throw {A}.

(** Result of running a handler on the state of the current render. *)
Inductive Outcome (R : Type) : Type :=
| Return (next : State) (shown : option Alert) (r : R)
| Uncaught.                         (* the TypeError escapes; no setter had run *)
Arguments Return {R} next shown r.
Arguments Uncaught {R}.

(** ** Handlers that select or drop the literature file *)

Definition toggleLiterature (filename : string) (s : State) : State :=
  if decide (literatureFile s = Some filename) then
    setLiteratureFoundLine None
      (setLiteratureDisplayContent None (setLiteratureFile None s))
  else
    setLiteratureSearchTerm EmptyString
      (setLiteratureFoundLine None
         (setLiteratureDisplayContent None (setLiteratureFile (Some filename) s))).

Definition removeReport (filename : string) (s : State) : State :=
  let s1 :=
    if decide (Some filename = literatureFile s) then
      setLiteratureFoundLine None
        (setLiteratureDisplayContent None (setLiteratureFile None s))
    else s in
  setLoadedReports (delete filename (loadedReports s)) s1.

Definition clearAllReports (s : State) : State :=
  setLiteratureFoundLine None
    (setLiteratureDisplayContent None
       (setLiteratureFile None (setLoadedReports ∅ s))).

(** ** The control bar's [onChange] handlers *)

(** [onChange={(e) => setLiteratureSearchTerm(e.target.value)}] *)
Definition onChangeSearchTerm (value : string) (s : State) : State :=
  setLiteratureSearchTerm value s.

(** [parseInt(e.target.value) || 500]: [NaN] and [0] are falsy. *)
Definition parseIntOr500 (value : string) : Z :=
  match JS.parseInt value with
  | Some n => if n =? 0 then 500 else n
  | None => 500
  end.

(** [onChange={(e) => setLiteratureNumLines(parseInt(e.target.value) || 500)}] *)
Definition onChangeNumLines (value : string) (s : State) : State :=
  setLiteratureNumLines (parseIntOr500 value) s.

(** ** Search and paging *)

(** The guard [!literatureFile || !loadedReports[literatureFile]] and
    the read [loadedReports[literatureFile]] that follows it: [None]
    when the guard fires (no file name, an empty one, no such report,
    or a report whose text is the empty string), else the text. *)
Definition literatureContent (s : State) : option string :=
  match literatureFile s with
  | None => None
  | Some f =>
      if JS.truthy f then
        match loadedReports s !! f with
        | None => None
        | Some content => if JS.truthy content then Some content else None
        end
      else None
  end.

(** [Math.max(1, Math.min(5000, literatureNumLines))] *)
Definition numLines (s : State) : Z :=
  Z.max 1 (Z.min 5000 (literatureNumLines s)).

(** [lines[i].toLowerCase().includes(searchLower)]; [lines[i]] outside
    the array is [undefined], whose [toLowerCase] throws. *)
Definition lineIncludes (lines : list string) (searchLower : string) (i : Z)
  : Completion bool :=
  match JS.at_index lines i with
  | None => Throw
  | Some line => Normal (JS.includes (JS.toLowerCase line) searchLower)
  end.

(** [for (let i = startFromLine; i < lines.length; i++)] with the body
    of [searchLiterature]; [n] counts the iterations left before the
    test [i < lines.length] fails, which is [lines.length - i]. *)
Fixpoint forwardFrom (lines : list string) (searchLower : string)
    (n : nat) (i : Z) : Completion Z :=
  match n with
  | O => Normal (-1)
  | S n' =>
      match lineIncludes lines searchLower i with
      | Throw => Throw
      | Normal true => Normal i
      | Normal false => forwardFrom lines searchLower n' (i + 1)
      end
  end.

Definition forwardLoop (lines : list string) (searchLower : string)
    (startFromLine : Z) : Completion Z :=
  forwardFrom lines searchLower
    (Z.to_nat (Z.of_nat (length lines) - startFromLine)) startFromLine.

(** [for (let i = startLine; i >= 0; i--)] with the body of
    [findPrevLiterature]; [n] counts the iterations left before the
    test [i >= 0] fails, which is [i + 1]. *)
Fixpoint backwardFrom (lines : list string) (searchLower : string)
    (n : nat) (i : Z) : Completion Z :=
  match n with
  | O => Normal (-1)
  | S n' =>
      match lineIncludes lines searchLower i with
      | Throw => Throw
      | Normal true => Normal i
      | Normal false => backwardFrom lines searchLower n' (i - 1)
      end
  end.

Definition backwardLoop (lines : list string) (searchLower : string)
    (startLine : Z) : Completion Z :=
  backwardFrom lines searchLower (Z.to_nat (startLine + 1)) startLine.

(** The tail shared by the three handlers: extract [numLines] lines
    from [start], record the 1-indexed line and the joined text. *)
Definition showFrom (lines : list string) (start : Z) (s : State) : State :=
  let extractedLines := JS.slice lines start (start + numLines s) in
  setLiteratureDisplayContent (Some (JS.join (String JS.LF EmptyString) extractedLines))
    (setLiteratureFoundLine (Some (start + 1)) s).

Definition searchLiterature (startFromLine : Z) (s : State) : Outcome Z :=
  match literatureContent s with
  | None => Return s (Some NoLiteratureFileSelected) (-1)
  | Some content =>
      if negb (JS.truthy (JS.trim (literatureSearchTerm s))) then
        Return s (Some PleaseEnterSearchTerm) (-1)
      else
        let lines := JS.split JS.LF content in
        let searchLower := JS.trim (JS.toLowerCase (literatureSearchTerm s)) in
        match forwardLoop lines searchLower startFromLine with
        | Throw => Uncaught
        | Normal foundLineIndex =>
            if foundLineIndex =? -1 then
              if startFromLine =? 0 then
                Return s (Some (NotFoundInText (literatureSearchTerm s))) (-1)
              else
                Return s (Some NoMoreOccurrences) (-1)
            else
              Return (showFrom lines foundLineIndex s) None foundLineIndex
        end
  end.

(** [!literatureFoundLine]: [null] and [0] are falsy. *)
Definition foundLineTruthy (s : State) : option Z :=
  match literatureFoundLine s with
  | Some n => if n =? 0 then None else Some n
  | None => None
  end.

Definition findNextLiterature (s : State) : Outcome unit :=
  let run (start : Z) :=
    match searchLiterature start s with
    | Return s' a _ => Return s' a tt
    | Uncaught => Uncaught
    end in
  match foundLineTruthy s with
  | None => run 0
  | Some foundLine => run foundLine
  end.

Definition findPrevLiterature (s : State) : Outcome unit :=
  match literatureContent s with
  | None => Return s (Some NoLiteratureFileSelected) tt
  | Some content =>
      if negb (JS.truthy (JS.trim (literatureSearchTerm s))) then
        Return s (Some PleaseEnterSearchTerm) tt
      else
        let lines := JS.split JS.LF content in
        let searchLower := JS.trim (JS.toLowerCase (literatureSearchTerm s)) in
        let startLine :=
          match foundLineTruthy s with
          | Some foundLine => foundLine - 2
          | None => Z.of_nat (length lines) - 1
          end in
        match backwardLoop lines searchLower startLine with
        | Throw => Uncaught
        | Normal foundLineIndex =>
            if foundLineIndex =? -1 then
              Return s (Some NoPreviousOccurrences) tt
            else
              Return (showFrom lines foundLineIndex s) None tt
        end
  end.

Definition nextLinesLiterature (s : State) : Outcome unit :=
  match literatureContent s with
  | None => Return s (Some NoLiteratureFileSelected) tt
  | Some content =>
      match foundLineTruthy s with
      | None => Return s (Some PleaseSearchFirst) tt
      | Some foundLine =>
          let lines := JS.split JS.LF content in
          let newStartLine := foundLine - 1 + numLines s in
          if Z.of_nat (length lines) <=? newStartLine then
            Return s (Some ReachedEndOfText) tt
          else
            Return (showFrom lines newStartLine s) None tt
      end
  end.

(** ** Notions of the specification, read off the state *)

(** The 0-based cursor: the found line, which is 1-indexed, less one. *)
Definition cursor (s : State) : option Z :=
  (fun foundLine => foundLine - 1) <$> foundLineTruthy s.

(** The lines of the literature text. *)
Definition linesOf (content : string) : list string := JS.split JS.LF content.

(** The needle the two searches look for. *)
Definition needleOf (term : string) : string := JS.trim (JS.toLowerCase term).

(** Whether line [i] exists and its lower-case form contains [needle]. *)
Definition lineMatches (lines : list string) (needle : string) (i : Z) : bool :=
  match JS.at_index lines i with
  | Some line => JS.includes (JS.toLowerCase line) needle
  | None => false
  end.

(** The display window [[start, start + pageSize)], cut at the end. *)
Definition window (lines : list string) (start pageSize : Z) : list string :=
  take (Z.to_nat pageSize) (drop (Z.to_nat start) lines).

Definition joinLines (w : list string) : string := JS.join (String JS.LF EmptyString) w.

(** What the forward scan returns: [-1] when no line from [i] on
    matches, else the first index from [i] on that does. *)
Definition firstFrom (lines : list string) (needle : string) (i r : Z) : Prop :=
  (r = -1 /\ forall j, i <= j -> lineMatches lines needle j = false) \/
  (i <= r < Z.of_nat (length lines) /\ lineMatches lines needle r = true /\
   forall j, i <= j < r -> lineMatches lines needle j = false).

(** What the backward scan returns: [-1] when no line from [i] down to
    0 matches, else the last index up to [i] that does. *)
Definition lastUpTo (lines : list string) (needle : string) (i r : Z) : Prop :=
  (r = -1 /\ forall j, 0 <= j <= i -> lineMatches lines needle j = false) \/
  (0 <= r <= i /\ lineMatches lines needle r = true /\
   forall j, r < j <= i -> lineMatches lines needle j = false).

(** The state positioned at line [start]: the found line is [start + 1]
    and the display shows the window that starts there. *)
Definition positioned (lines : list string) (start : Z) (s : State) : State :=
  setLiteratureDisplayContent
    (Some (joinLines (window lines start (numLines s))))
    (setLiteratureFoundLine (Some (start + 1)) s).

(** The cursor invariant: a set cursor is an index of the loaded text. *)
Definition cursorInRange (s : State) : Prop :=
  match literatureFoundLine s with
  | None => True
  | Some foundLine =>
      exists content, literatureContent s = Some content /\
        0 <= foundLine - 1 < Z.of_nat (length (linesOf content))
  end.

(** The operations of the literature viewer: each handler with its
    argument. *)
Inductive Action : Type :=
| Toggle (filename : string)      (* the Literature / Unset button of a report *)
| Remove (filename : string)
| ClearAll
| TypeTerm (value : string)
| TypeNumLines (value : string)
| SearchFrom (startFromLine : Z)  (* searchLiterature(startFromLine); Go is SearchFrom 0 *)
| Next                            (* findNextLiterature *)
| Prev                            (* findPrevLiterature *)
| NextLines.                      (* nextLinesLiterature *)

Definition stateAfter {R} (o : Outcome R) (s : State) : State :=
  match o with
  | Return s' _ _ => s'
  | Uncaught => s
  end.

Definition perform (a : Action) (s : State) : State :=
  match a with
  | Toggle f => toggleLiterature f s
  | Remove f => removeReport f s
  | ClearAll => clearAllReports s
  | TypeTerm v => onChangeSearchTerm v s
  | TypeNumLines v => onChangeNumLines v s
  | SearchFrom startFromLine => stateAfter (searchLiterature startFromLine s) s
  | Next => stateAfter (findNextLiterature s) s
  | Prev => stateAfter (findPrevLiterature s) s
  | NextLines => stateAfter (nextLinesLiterature s) s
  end.

Definition performAll (actions : list Action) (s : State) : State :=
  foldl (fun st a => perform a st) s actions.

(** [nextLinesLiterature] pressed until it alerts: the states after
    each successful press, and the alert that ended the run.  [fuel]
    bounds the number of presses. *)
Fixpoint pressNextLines (fuel : nat) (s : State) : option (list State * Alert) :=
  match fuel with
  | O => None
  | S fuel' =>
      match nextLinesLiterature s with
      | Return s' None _ =>
          match pressNextLines fuel' s' with
          | Some (visited, a) => Some (s' :: visited, a)
          | None => None
          end
      | Return _ (Some a) _ => Some ([], a)
      | Uncaught => None
      end
  end.

(** The cursors [c + p, c + 2p, ...] of [k] page advances from [c]. *)
Fixpoint cursorsFrom (c p : Z) (k : nat) : list Z :=
  match k with
  | O => []
  | S k' => (c + p) :: cursorsFrom (c + p) p k'
  end.

(** Two outcomes that agree on everything but the term as typed: the
    same return value, the same failure kind, and states that agree on
    every field other than [literatureSearchTerm]. *)
Definition sameBehaviour {R} (o1 o2 : Outcome R) : Prop :=
  match o1, o2 with
  | Return s1 a1 r1, Return s2 a2 r2 =>
      r1 = r2 /\ failureOf <$> a1 = failureOf <$> a2 /\
      loadedReports s1 = loadedReports s2 /\
      literatureFile s1 = literatureFile s2 /\
      literatureNumLines s1 = literatureNumLines s2 /\
      literatureFoundLine s1 = literatureFoundLine s2 /\
      literatureDisplayContent s1 = literatureDisplayContent s2
  | Uncaught, Uncaught => True
  | _, _ => False
  end.

(** The start line of the backward scan under the cursor invariant. *)
Definition backwardStart (lines : list string) (s : State) : Z :=
  match cursor s with
  | Some c => c - 1
  | None => Z.of_nat (length lines) - 1
  end.

(** The failure kinds of the two searches and of the page advance. *)
Definition searchFailure (a : Alert) : Prop :=
  failureOf a = NoDocument \/ failureOf a = EmptyTerm \/ failureOf a = NotFound.

Definition pageFailure (a : Alert) : Prop :=
  failureOf a = NoDocument \/ failureOf a = NoCursor \/ failureOf a = EndOfText.

(** Any of the three handlers producing a display from [s]. *)
Definition displays (s s' : State) : Prop :=
  (exists k r, searchLiterature k s = Return s' None r) \/
  findPrevLiterature s = Return s' None tt \/
  nextLinesLiterature s = Return s' None tt.

(** A state whose literature file is [name] with text [content]. *)
Definition withLiterature (name content term : string) (pageSize : Z)
    (foundLine : option Z) : State :=
  mkState {[ name := content ]} (Some name) term pageSize foundLine None.

(** The four-line text of the specification's scenarios. *)
Definition greek : string :=
  joinLines ["alpha"; "beta"; "gamma"; "beta again"]%string.

(** ** Reports: the chat selection and the folder handlers *)

Module JSArray.

(** [String.prototype.endsWith]: some suffix of [s] is [t]. *)
Fixpoint endsWith (s t : string) : bool :=
  String.eqb s t ||
  match s with
  | EmptyString => false
  | String _ r => endsWith r t
  end.

(** [s.length], in code units. *)
Definition strLength (s : string) : Z := Z.of_nat (String.length s).

(** Insertion of [x] into a list sorted by [compareFn], ahead of the
    elements it does not have to follow. *)
Fixpoint insertBy {A} (compareFn : A -> A -> Z) (x : A) (l : list A) : list A :=
  match l with
  | [] => [x]
  | y :: r => if compareFn x y <=? 0 then x :: y :: r else y :: insertBy compareFn x r
  end.

(** [Array.prototype.sort(compareFn)]: the sort is stable, so for a
    comparison that orders by a key its result is the one of this
    insertion sort. *)
Fixpoint sort {A} (compareFn : A -> A -> Z) (l : list A) : list A :=
  match l with
  | [] => []
  | x :: r => insertBy compareFn x (sort compareFn r)
  end.

(** [o[k] = v] on an object with string keys, kept as the list of its
    entries in insertion order: an existing key keeps its place. *)
Fixpoint objSet (o : list (string * string)) (k v : string) : list (string * string) :=
  match o with
  | [] => [(k, v)]
  | (k', v') :: r =>
      if String.eqb k' k then (k', v) :: r else (k', v') :: objSet r k v
  end.

(** [o[k] = v] on an object literal [{}], for a string [v] and a key
    that is any string.  The key [__proto__] is the accessor the
    object inherits from [Object.prototype]: the assignment calls its
    setter, which ignores a value that is neither an object nor
    [null], so no entry is made.  Every other key is set as by
    [objSet]. *)
Definition objAssign (o : list (string * string)) (k v : string) : list (string * string) :=
  if String.eqb k "__proto__" then o else objSet o k v.

End JSArray.

(** [const MAX_CHARS_FOR_CHAT = 100000] *)
Definition MAX_CHARS_FOR_CHAT : Z := 100000.

(** [!literatureFile]: [null] and the empty name are falsy. *)
Definition literatureFileTruthy (s : State) : bool :=
  match literatureFile s with
  | Some f => JS.truthy f
  | None => false
  end.

(** The callback of [getReportsForChat]:
    [filename !== literatureFile && content.length <= MAX_CHARS_FOR_CHAT]. *)
Definition sentToChat (s : State) (entry : string * string) : bool :=
  negb (bool_decide (Some entry.1 = literatureFile s)) &&
  (JSArray.strLength entry.2 <=? MAX_CHARS_FOR_CHAT).

(** The callback of [getExcludedFilesCount]:
    [filename === literatureFile || content.length > MAX_CHARS_FOR_CHAT]. *)
Definition excludedFromChat (s : State) (entry : string * string) : bool :=
  bool_decide (Some entry.1 = literatureFile s) ||
  (MAX_CHARS_FOR_CHAT <? JSArray.strLength entry.2).

(** [getReportsForChat]; [entries] is [Object.entries(loadedReports)],
    whose order (that of insertion) the map does not record: it is
    passed in, and is any enumeration of the map. *)
Definition getReportsForChat (entries : list (string * string)) (s : State)
  : list (string * string) :=
  List.filter (sentToChat s) entries.

(** [getExcludedFilesCount], on the same enumeration. *)
Definition getExcludedFilesCount (entries : list (string * string)) (s : State) : Z :=
  Z.of_nat (length (List.filter (excludedFromChat s) entries)).

(** [Object.entries(newReports).filter(...).sort(...)] of the two
    folder handlers: the entries over [MAX_CHARS_FOR_CHAT], longest
    first. *)
Definition largeFiles (newReports : list (string * string)) : list (string * string) :=
  JSArray.sort
    (fun a b => JSArray.strLength b.2 - JSArray.strLength a.2)
    (List.filter (fun e => MAX_CHARS_FOR_CHAT <? JSArray.strLength e.2) newReports).

(** The opening of the reports context, a template literal of two
    paragraphs. *)
Definition reportsHeader : string :=
  String.append
    "You have access to the following report files. Use them to answer questions and provide analysis."
    (String JS.LF (String JS.LF
       (String.append "Here are the loaded reports:"
          (String JS.LF (String JS.LF EmptyString))))).

(** [`--- FILE: ${filename} ---\n${content}\n\n`] *)
Definition fileBlock (entry : string * string) : string :=
  String.append "--- FILE: "
    (String.append entry.1
       (String.append " ---"
          (String JS.LF
             (String.append entry.2 (String JS.LF (String JS.LF EmptyString)))))).

(** [excludedFiles.map(([name]) => name).join(', ')] *)
Definition excludedNames (excludedFiles : list (string * string)) : string :=
  JS.join ", " (map fst excludedFiles).

(** The note that closes the reports context when files are left out. *)
Definition notIncludedNote (names : string) : string :=
  String.append
    "Note: The following file(s) are loaded but not included in context due to size: "
    (String.append names
       (String.append
          ". You can help the user find specific sections or chapters to read in them."
          (String JS.LF EmptyString))).

(** The note that stands alone when every file is left out. *)
Definition readingOnlyNote (names : string) : string :=
  String.append "Note: The user has file(s) loaded for reading: "
    (String.append names
       (String.append
          ". These are not included in context due to size, but you can help the user find specific sections or chapters to read based on your knowledge."
          (String JS.LF EmptyString))).

(** [buildSystemPrompt]; [rolePrompt] is [roles[selectedRole]?.prompt],
    [None] when it is [null] or [undefined], and [entries] is
    [Object.entries(loadedReports)] as for [getReportsForChat]. *)
Definition buildSystemPrompt (rolePrompt : option string)
    (entries : list (string * string)) (s : State) : option string :=
  let parts0 :=
    match rolePrompt with
    | Some p => if JS.truthy p then [p] else []
    | None => []
    end in
  let reportEntries := getReportsForChat entries s in
  let excludedFiles := List.filter (excludedFromChat s) entries in
  let parts :=
    match reportEntries with
    | _ :: _ =>
        let reportsContext :=
          foldl (fun acc entry => String.append acc (fileBlock entry))
            reportsHeader reportEntries in
        match excludedFiles with
        | _ :: _ =>
            parts0 ++ [String.append reportsContext
                         (notIncludedNote (excludedNames excludedFiles))]
        | [] => parts0 ++ [reportsContext]
        end
    | [] =>
        match excludedFiles with
        | _ :: _ => parts0 ++ [readingOnlyNote (excludedNames excludedFiles)]
        | [] => parts0
        end
    end in
  match parts with
  | [] => None
  | _ :: _ => Some (JS.join (String JS.LF (String JS.LF EmptyString)) parts)
  end.

(** The alerts of the two folder handlers. *)
Inductive FolderAlert : Type :=
| NoTextFilesFound                  (* 'No .txt or .md files found in selected folder' *)
| ErrorLoadingFolder.               (* `Error loading folder: ${err.message}` *)

(** [newReports[filename] = content] for each entry of the parsed
    JSON in turn.  The parsed object can own any key, [__proto__]
    too, and [newReports] is an object literal: that entry is not
    copied. *)
Definition collectReports (entries : list (string * string)) : list (string * string) :=
  foldl (fun o e => JSArray.objAssign o e.1 e.2) [] entries.

(** The entries of a parsed JSON that the copy keeps. *)
Definition copied (entries : list (string * string)) : list (string * string) :=
  List.filter (fun e => negb (String.eqb e.1 "__proto__")) entries.

(** [handlePreloadedFolderSelect] on the literature cells and the
    reports.  [fetched] is what the [fetch] of the folder's JSON came
    to: [Some] of the entries of the parsed object, file name and
    text, or [None] when the request or the parse failed, which the
    handler catches and alerts; the values of the object are taken to
    be strings.  The handler awaits the response
    before it sets any cell, and sets them from the response alone; the
    cells it sets besides these ([selectedReportKey], the modal and
    loading flags) are not part of [State]. *)
Definition handlePreloadedFolderSelect (folderName : string)
    (fetched : option (list (string * string))) (s : State)
  : State * option FolderAlert :=
  if negb (JS.truthy folderName) then (s, None)
  else
    match fetched with
    | None => (s, Some ErrorLoadingFolder)
    | Some filesData =>
        let newReports := collectReports filesData in
        let chosen :=
          match largeFiles newReports with
          | e :: _ => Some e.1
          | [] => None
          end in
        (setLiteratureFoundLine None
           (setLiteratureDisplayContent None
              (setLiteratureFile chosen
                 (setLoadedReports (list_to_map newReports) s))), None)
    end.

(** A file of the chosen folder: its name, and what [file.text()]
    resolved to, [None] when it rejected. *)
Record File : Type := mkFile {
  fileName : string;
  fileText : option string
}.

(** [name.endsWith('.txt') || name.endsWith('.md')] on the lower-cased name. *)
Definition isTextFile (f : File) : bool :=
  let name := JS.toLowerCase (fileName f) in
  JSArray.endsWith name ".txt" || JSArray.endsWith name ".md".

(** The reading loop of [handleFolderSelect]: a file whose [text()]
    rejects is skipped.  The names are those of the text files, which
    end in [.txt] or [.md]: none is [__proto__], and the assignment is
    [objSet]. *)
Definition readReports (textFiles : list File) : list (string * string) :=
  foldl (fun o f =>
           match fileText f with
           | Some content => JSArray.objSet o (fileName f) content
           | None => o
           end) [] textFiles.

(** [{ ...prev, ...newReports }] *)
Definition mergeReports (prev : gmap string string)
    (newReports : list (string * string)) : gmap string string :=
  foldl (fun m e => <[e.1 := e.2]> m) prev newReports.

(** [handleFolderSelect] on the literature cells and the reports.
    [localeSort] is the in-place
    [sort((a, b) => a.name.localeCompare(b.name, undefined, {numeric, sensitivity}))],
    whose collation is the browser's.  The files are read before any
    cell is set, and no other handler runs meanwhile: the state the
    closure reads [literatureFile] from is the one the update of the
    reports receives.  [selectedReportKey] and the modal flag, which
    it also sets, are not part of [State]. *)
Definition handleFolderSelect (localeSort : list File -> list File)
    (files : list File) (s : State) : State * option FolderAlert :=
  match List.filter isTextFile files with
  | [] => (s, Some NoTextFilesFound)
  | textFiles =>
      let newReports := readReports (localeSort textFiles) in
      let s1 := setLoadedReports (mergeReports (loadedReports s) newReports) s in
      match largeFiles newReports with
      | e :: _ =>
          if literatureFileTruthy s then (s1, None)
          else (setLiteratureFile (Some e.1) s1, None)
      | [] => (s1, None)
      end
  end.

(** ** Find next, pressed again and again *)

(** [findNextLiterature] pressed until it alerts: the states after
    each successful press and the alert that ended the run. *)
Fixpoint pressNext (fuel : nat) (s : State) : option (list State * Alert) :=
  match fuel with
  | O => None
  | S fuel' =>
      match findNextLiterature s with
      | Return s' None _ =>
          match pressNext fuel' s' with
          | Some (visited, a) => Some (s' :: visited, a)
          | None => None
          end
      | Return _ (Some a) _ => Some ([], a)
      | Uncaught => None
      end
  end.

(** The line [findNextLiterature] starts its search from: 0 when no
    line is found yet, else the found line, which being 1-indexed is
    the index after the cursor. *)
Definition nextStart (s : State) : Z :=
  match foundLineTruthy s with
  | Some foundLine => foundLine
  | None => 0
  end.

(** The indices from [start] on of the lines that match, in order. *)
Definition matchingFrom (lines : list string) (needle : string) (start : Z) : list Z :=
  List.filter (lineMatches lines needle)
    (seqZ start (Z.of_nat (length lines) - start)).

(** A text of [n] letters ["a"]. *)
Fixpoint lettersA (n : nat) : string :=
  match n with
  | O => EmptyString
  | S k => String "a" (lettersA k)
  end.

(** A text one code unit over [MAX_CHARS_FOR_CHAT]. *)
Definition longText : string := lettersA (Z.to_nat (MAX_CHARS_FOR_CHAT + 1)).

(** A file of the folder that [handleFolderSelect] reads into the
    reports: its name ends in [.txt] or [.md] and its [text()]
    resolved. *)
Definition readable (files : list File) (file : File) : Prop :=
  file ∈ files /\ isTextFile file = true /\ is_Some (fileText file).

(** The lines on display. *)
Definition shownLines (s : State) : list string :=
  match literatureDisplayContent s with
  | Some text => linesOf text
  | None => []
  end.

(** The literature file, if set, is one of the reports. *)
Definition literatureListed (s : State) : Prop :=
  forall f, literatureFile s = Some f -> is_Some (loadedReports s !! f).

(** ** The primitives and the handlers on examples *)

Example toLowerCase_ex : JS.toLowerCase "CHAPTER viii" = "chapter viii"%string.
Proof. reflexivity. Qed.

Example trim_ex : JS.trim "  beta again  " = "beta again"%string.
Proof. reflexivity. Qed.

Example split_ex :
  JS.split JS.LF (String "a" (String JS.LF (String "b" (String JS.LF EmptyString)))) =
  ["a"; "b"; EmptyString]%string.
Proof. reflexivity. Qed.

Example split_empty_ex : JS.split JS.LF EmptyString = [EmptyString].
Proof. reflexivity. Qed.

Example slice_ex : JS.slice [10; 20; 30; 40] 3 5 = [40].
Proof. reflexivity. Qed.

Example parseInt_ex :
  JS.parseInt "99999" = Some 99999 /\ JS.parseInt " -12px" = Some (-12) /\
  JS.parseInt "0x1F" = Some 31 /\ JS.parseInt EmptyString = None /\
  JS.parseInt "1e3" = Some 1.
Proof. repeat split; reflexivity. Qed.

(** The scenarios of the specification on the four-line text, with a
    page of two lines. *)
Example scenario_search_beta :
  searchLiterature 0 (withLiterature "t.txt" greek "beta" 2 None) =
  Return (setLiteratureDisplayContent (Some (joinLines ["beta"; "gamma"]%string))
            (withLiterature "t.txt" greek "beta" 2 (Some 2)))
         None 1.
Proof. vm_compute. reflexivity. Qed.

Example scenario_find_next :
  searchLiterature 2 (withLiterature "t.txt" greek "beta" 2 (Some 2)) =
  Return (setLiteratureDisplayContent (Some "beta again"%string)
            (withLiterature "t.txt" greek "beta" 2 (Some 4)))
         None 3.
Proof. vm_compute. reflexivity. Qed.

Example scenario_prev_unset :
  findPrevLiterature (withLiterature "t.txt" greek "beta" 2 None) =
  Return (setLiteratureDisplayContent (Some "beta again"%string)
            (withLiterature "t.txt" greek "beta" 2 (Some 4)))
         None tt.
Proof. vm_compute. reflexivity. Qed.

Example scenario_next_page_end :
  let s := withLiterature "t.txt" (joinLines ["alpha"; "beta"; "gamma"]%string)
             "gamma" 10 (Some 3) in
  nextLinesLiterature s = Return s (Some ReachedEndOfText) tt.
Proof. vm_compute. reflexivity. Qed.

Example scenario_negative_start_throws :
  searchLiterature (-1) (withLiterature "t.txt" greek "beta" 2 None) = Uncaught.
Proof. vm_compute. reflexivity. Qed.

(** ** Facts about the primitives *)

Module JSFacts.
Import JS.

Lemma isWhiteSpace_toLowerChar (c : ascii) :
  isWhiteSpace (toLowerChar c) = isWhiteSpace c.
Proof. destruct c as [[] [] [] [] [] [] [] []]; reflexivity. Qed.

Lemma trimStart_toLowerCase (s : string) :
  trimStart (toLowerCase s) = toLowerCase (trimStart s).
Proof.
  induction s as [|c r IH]; [reflexivity|].
  cbn [toLowerCase trimStart]. rewrite isWhiteSpace_toLowerChar.
  destruct (isWhiteSpace c); [exact IH | reflexivity].
Qed.

Lemma trimEnd_toLowerCase (s : string) :
  trimEnd (toLowerCase s) = toLowerCase (trimEnd s).
Proof.
  induction s as [|c r IH]; [reflexivity|].
  cbn [toLowerCase trimEnd]. rewrite IH, isWhiteSpace_toLowerChar.
  destruct (trimEnd r); cbn [toLowerCase]; [|reflexivity].
  destruct (isWhiteSpace c); reflexivity.
Qed.

Lemma trim_toLowerCase (s : string) :
  trim (toLowerCase s) = toLowerCase (trim s).
Proof. unfold trim. rewrite trimEnd_toLowerCase. apply trimStart_toLowerCase. Qed.

Lemma trimStart_idem (s : string) : trimStart (trimStart s) = trimStart s.
Proof.
  induction s as [|c r IH]; [reflexivity|].
  cbn [trimStart]. destruct (isWhiteSpace c) eqn:E; [exact IH|].
  cbn [trimStart]. rewrite E. reflexivity.
Qed.

Lemma trimEnd_idem (s : string) : trimEnd (trimEnd s) = trimEnd s.
Proof.
  induction s as [|c r IH]; [reflexivity|].
  cbn [trimEnd]. destruct (trimEnd r) as [|c' r'] eqn:E.
  - destruct (isWhiteSpace c) eqn:W; [reflexivity|].
    cbn [trimEnd]. rewrite W. reflexivity.
  - change (trimEnd (String c (String c' r')))
      with (match trimEnd (String c' r') with
            | EmptyString =>
                if isWhiteSpace c then EmptyString else String c EmptyString
            | r0 => String c r0
            end).
    rewrite IH. reflexivity.
Qed.

(** Trimming the two ends commutes. *)
Lemma trimStart_trimEnd (s : string) :
  trimStart (trimEnd s) = trimEnd (trimStart s).
Proof.
  induction s as [|c r IH]; [reflexivity|].
  cbn [trimStart trimEnd]. destruct (isWhiteSpace c) eqn:W.
  - rewrite <- IH. destruct (trimEnd r) as [|c' r'] eqn:E; [reflexivity|].
    cbn [trimStart]. rewrite W. reflexivity.
  - change (trimEnd (String c r))
      with (match trimEnd r with
            | EmptyString =>
                if isWhiteSpace c then EmptyString else String c EmptyString
            | r0 => String c r0
            end).
    rewrite W. destruct (trimEnd r); cbn [trimStart]; rewrite W; reflexivity.
Qed.

Lemma trim_idem (s : string) : trim (trim s) = trim s.
Proof.
  unfold trim.
  rewrite (trimStart_trimEnd (trimStart (trimEnd s))), trimStart_idem.
  rewrite <- (trimStart_trimEnd (trimEnd s)), trimEnd_idem. reflexivity.
Qed.

Lemma trimEnd_blank (s : string) : blank s = true -> trimEnd s = EmptyString.
Proof.
  induction s as [|c r IH]; [reflexivity|].
  cbn [blank trimEnd]. intros H. apply andb_prop in H as [W B].
  rewrite (IH B), W. reflexivity.
Qed.

Lemma blank_trimEnd (s : string) : trimEnd s = EmptyString -> blank s = true.
Proof.
  induction s as [|c r IH]; [reflexivity|].
  cbn [blank trimEnd]. destruct (trimEnd r); [|discriminate].
  destruct (isWhiteSpace c); [|discriminate]. intros _. apply IH. reflexivity.
Qed.

Lemma blank_trimStart (s : string) : blank (trimStart s) = true -> blank s = true.
Proof.
  induction s as [|c r IH]; [reflexivity|].
  cbn [trimStart]. destruct (isWhiteSpace c) eqn:W.
  - intros H. cbn [blank]. rewrite W, (IH H). reflexivity.
  - tauto.
Qed.

(** A term trims to the empty string exactly when it is white space. *)
Lemma trim_blank (s : string) : trim s = EmptyString <-> blank s = true.
Proof.
  split.
  - unfold trim. rewrite trimStart_trimEnd. intros H.
    apply blank_trimStart, blank_trimEnd, H.
  - intros H. unfold trim. rewrite (trimEnd_blank s H). reflexivity.
Qed.

Lemma truthy_true (s : string) : truthy s = true <-> s <> EmptyString.
Proof. destruct s; cbn; split; congruence. Qed.

(** [split] always yields at least one line. *)
Lemma split_length (sep : ascii) (s : string) :
  (1 <= length (split sep s))%nat.
Proof.
  induction s as [|c r IH]; cbn [split length]; [lia|].
  destruct (Ascii.eqb c sep); cbn [length]; [lia|].
  destruct (split sep r); cbn [length] in *; lia.
Qed.

Lemma split_free (sep : ascii) (s : string) : Forall (free sep) (split sep s).
Proof.
  induction s as [|c r IH]; cbn [split].
  - constructor; [exact I | constructor].
  - destruct (Ascii.eqb c sep) eqn:E.
    + constructor; [exact I | exact IH].
    + destruct (split sep r) as [|l ls].
      * constructor; [cbn; auto | constructor].
      * inversion IH; subst. constructor; [cbn; auto | assumption].
Qed.

Lemma split_of_free (sep : ascii) (x : string) :
  free sep x -> split sep x = [x].
Proof.
  induction x as [|c r IH]; [reflexivity|].
  intros [E F]. cbn [split]. rewrite E, (IH F). reflexivity.
Qed.

Lemma append_nil (s : string) : String.append EmptyString s = s.
Proof. reflexivity. Qed.

Lemma append_cons (c : ascii) (r s : string) :
  String.append (String c r) s = String c (String.append r s).
Proof. reflexivity. Qed.

Lemma split_cons (sep c : ascii) (r : string) :
  split sep (String c r) =
  if Ascii.eqb c sep then EmptyString :: split sep r
  else match split sep r with
       | l :: ls => String c l :: ls
       | [] => [String c EmptyString]
       end.
Proof. reflexivity. Qed.

Lemma split_append (sep : ascii) (x rest : string) :
  free sep x ->
  split sep (String.append x (String sep rest)) = x :: split sep rest.
Proof.
  induction x as [|c r IH]; intros F.
  - rewrite append_nil, split_cons, Ascii.eqb_refl. reflexivity.
  - destruct F as [E F]. rewrite append_cons, split_cons, E, (IH F).
    reflexivity.
Qed.

(** Splitting what [join] glued gives the lines back. *)
Lemma split_join (sep : ascii) (w : list string) :
  w <> [] -> Forall (free sep) w ->
  split sep (join (String sep EmptyString) w) = w.
Proof.
  induction w as [|x w IH]; [congruence|].
  intros _ F. inversion F as [|? ? Fx Fw]; subst.
  destruct w as [|y w].
  - cbn [join]. apply split_of_free, Fx.
  - change (join (String sep EmptyString) (x :: y :: w))
      with (String.append x (String.append (String sep EmptyString) (join (String sep EmptyString) (y :: w)))).
    rewrite append_cons, append_nil, (split_append _ _ _ Fx).
    f_equal. apply IH; [congruence | exact Fw].
Qed.

Lemma split_join_length (sep : ascii) (w : list string) :
  Forall (free sep) w ->
  length (split sep (join (String sep EmptyString) w)) = Nat.max 1 (length w).
Proof.
  intros F. destruct w as [|x w]; [reflexivity|].
  rewrite split_join by (congruence || assumption). cbn [length]. lia.
Qed.

(** [slice] on an index of the array is the window of the given width. *)
Lemma slice_window {A} (l : list A) (start width : Z) :
  0 <= start -> 0 <= width ->
  slice l start (start + width) = take (Z.to_nat width) (drop (Z.to_nat start) l).
Proof.
  intros Hs Hw. unfold slice.
  destruct (Z.ltb_spec start 0); [lia|].
  destruct (Z.ltb_spec (start + width) 0); [lia|].
  destruct (Z_lt_le_dec start (Z.of_nat (length l))) as [Hin|Hout].
  - rewrite (Z.min_l start) by lia.
    destruct (Z_le_gt_dec (start + width) (Z.of_nat (length l))).
    + rewrite Z.min_l by lia. f_equal. lia.
    + rewrite Z.min_r by lia.
      rewrite !take_ge; [reflexivity | |]; rewrite length_drop; lia.
  - rewrite !drop_ge by lia. rewrite !take_nil. reflexivity.
Qed.

(** [slice] never returns more than the distance of its bounds. *)
Lemma slice_length {A} (l : list A) (start width : Z) :
  0 <= width -> Z.of_nat (length (slice l start (start + width))) <= width.
Proof.
  intros Hw. unfold slice. rewrite length_take, length_drop.
  destruct (Z.ltb_spec start 0), (Z.ltb_spec (start + width) 0); lia.
Qed.

Lemma slice_sublist {A} (P : A -> Prop) (l : list A) (start end_ : Z) :
  Forall P l -> Forall P (slice l start end_).
Proof. intros F. unfold slice. apply Forall_take, Forall_drop, F. Qed.

Lemma at_index_Some {A} (l : list A) (i : Z) :
  0 <= i < Z.of_nat (length l) -> exists x, at_index l i = Some x.
Proof.
  intros H. unfold at_index. destruct (Z.ltb_spec i 0); [lia|].
  destruct (lookup_lt_is_Some_2 l (Z.to_nat i)) as [x Hx]; [lia|]. eauto.
Qed.

End JSFacts.

(** ** The two scanning loops *)

Section Loops.
Variable lines : list string.
Variable needle : string.

Local Abbreviation len := (Z.of_nat (length lines)).

Lemma lineIncludes_in (i : Z) :
  0 <= i < len ->
  lineIncludes lines needle i = Normal (lineMatches lines needle i).
Proof.
  intros H. unfold lineIncludes, lineMatches.
  destruct (JSFacts.at_index_Some lines i H) as [x ->]. reflexivity.
Qed.

Lemma lineIncludes_out (i : Z) :
  i < 0 \/ len <= i -> lineIncludes lines needle i = Throw.
Proof.
  intros H. unfold lineIncludes, JS.at_index.
  destruct (Z.ltb_spec i 0); [reflexivity|].
  rewrite lookup_ge_None_2; [reflexivity|]. lia.
Qed.

Lemma lineMatches_out (i : Z) :
  i < 0 \/ len <= i -> lineMatches lines needle i = false.
Proof.
  intros H. unfold lineMatches, JS.at_index.
  destruct (Z.ltb_spec i 0); [reflexivity|].
  rewrite lookup_ge_None_2; [reflexivity|]. lia.
Qed.

(** The loop of [searchLiterature], as the source writes it. *)
Lemma forwardLoop_unfold (i : Z) :
  forwardLoop lines needle i =
  if i <? len then
    match lineIncludes lines needle i with
    | Throw => Throw
    | Normal true => Normal i
    | Normal false => forwardLoop lines needle (i + 1)
    end
  else Normal (-1).
Proof.
  unfold forwardLoop. destruct (Z.ltb_spec i len).
  - replace (Z.to_nat (len - i)) with (S (Z.to_nat (len - (i + 1)))) by lia.
    reflexivity.
  - replace (Z.to_nat (len - i)) with O by lia. reflexivity.
Qed.

(** The loop of [findPrevLiterature], as the source writes it. *)
Lemma backwardLoop_unfold (i : Z) :
  backwardLoop lines needle i =
  if 0 <=? i then
    match lineIncludes lines needle i with
    | Throw => Throw
    | Normal true => Normal i
    | Normal false => backwardLoop lines needle (i - 1)
    end
  else Normal (-1).
Proof.
  unfold backwardLoop. destruct (Z.leb_spec 0 i).
  - replace (Z.to_nat (i + 1)) with (S (Z.to_nat (i - 1 + 1))) by lia.
    reflexivity.
  - replace (Z.to_nat (i + 1)) with O by lia. reflexivity.
Qed.

Lemma forwardFrom_result (n : nat) (i : Z) :
  0 <= i -> Z.of_nat n = len - i ->
  exists r, forwardFrom lines needle n i = Normal r /\ firstFrom lines needle i r.
Proof.
  revert i. induction n as [|n IH]; intros i Hi Hn.
  - exists (-1). split; [reflexivity|]. left. split; [reflexivity|].
    intros j Hj. apply lineMatches_out. lia.
  - cbn [forwardFrom]. rewrite lineIncludes_in by lia.
    destruct (lineMatches lines needle i) eqn:M.
    + exists i. split; [reflexivity|]. right.
      split; [lia | split; [exact M|]]. intros j Hj. lia.
    + destruct (IH (i + 1)) as (r & -> & Hr); [lia..|].
      exists r. split; [reflexivity|].
      destruct Hr as [[-> Hr]|(Hin & Hm & Hr)].
      * left. split; [reflexivity|]. intros j Hj.
        destruct (Z.eq_dec j i) as [->|]; [exact M | apply Hr; lia].
      * right. split; [lia | split; [exact Hm|]]. intros j Hj.
        destruct (Z.eq_dec j i) as [->|]; [exact M | apply Hr; lia].
Qed.

(** From a non-negative start the forward scan completes. *)
Lemma forwardLoop_result (i : Z) :
  0 <= i -> exists r, forwardLoop lines needle i = Normal r /\ firstFrom lines needle i r.
Proof.
  intros Hi. unfold forwardLoop.
  destruct (Z_le_gt_dec i len).
  - apply forwardFrom_result; lia.
  - replace (Z.to_nat (len - i)) with O by lia.
    exists (-1). split; [reflexivity|]. left. split; [reflexivity|].
    intros j Hj. apply lineMatches_out. lia.
Qed.

(** From a negative start the first read is outside the array. *)
Lemma forwardLoop_negative (i : Z) :
  i < 0 -> forwardLoop lines needle i = Throw.
Proof.
  intros Hi. rewrite forwardLoop_unfold.
  destruct (Z.ltb_spec i len); [|lia].
  rewrite lineIncludes_out by lia. reflexivity.
Qed.

Lemma backwardFrom_result (n : nat) (i : Z) :
  i < len -> Z.of_nat n = i + 1 ->
  exists r, backwardFrom lines needle n i = Normal r /\ lastUpTo lines needle i r.
Proof.
  revert i. induction n as [|n IH]; intros i Hi Hn.
  - exists (-1). split; [reflexivity|]. left. split; [reflexivity|].
    intros j Hj. lia.
  - cbn [backwardFrom]. rewrite lineIncludes_in by lia.
    destruct (lineMatches lines needle i) eqn:M.
    + exists i. split; [reflexivity|]. right.
      split; [lia | split; [exact M|]]. intros j Hj. lia.
    + destruct (IH (i - 1)) as (r & -> & Hr); [lia..|].
      exists r. split; [reflexivity|].
      destruct Hr as [[-> Hr]|(Hin & Hm & Hr)].
      * left. split; [reflexivity|]. intros j Hj.
        destruct (Z.eq_dec j i) as [->|]; [exact M | apply Hr; lia].
      * right. split; [lia | split; [exact Hm|]]. intros j Hj.
        destruct (Z.eq_dec j i) as [->|]; [exact M | apply Hr; lia].
Qed.

(** From a start below the length the backward scan completes. *)
Lemma backwardLoop_result (i : Z) :
  i < len -> exists r, backwardLoop lines needle i = Normal r /\ lastUpTo lines needle i r.
Proof.
  intros Hi. unfold backwardLoop.
  destruct (Z_le_gt_dec (-1) i).
  - apply backwardFrom_result; lia.
  - replace (Z.to_nat (i + 1)) with O by lia.
    exists (-1). split; [reflexivity|]. left. split; [reflexivity|].
    intros j Hj. lia.
Qed.

End Loops.

(** ** The handlers on a loaded text *)

Lemma showFrom_positioned (lines : list string) (start : Z) (s : State) :
  0 <= start -> showFrom lines start s = positioned lines start s.
Proof.
  intros H. unfold showFrom, positioned, joinLines, window.
  rewrite JSFacts.slice_window; [reflexivity | exact H |].
  unfold numLines. lia.
Qed.

Lemma numLines_bounds (s : State) : 1 <= numLines s <= 5000.
Proof. unfold numLines. lia. Qed.

Lemma cursor_positioned (lines : list string) (start : Z) (s : State) :
  0 <= start -> cursor (positioned lines start s) = Some start.
Proof.
  intros H. unfold cursor, foundLineTruthy, positioned. cbn.
  destruct (Z.eqb_spec (start + 1) 0); [lia|]. cbn. f_equal. lia.
Qed.

Lemma termGuard_passes (s : State) :
  JS.trim (literatureSearchTerm s) <> EmptyString ->
  negb (JS.truthy (JS.trim (literatureSearchTerm s))) = false.
Proof. intros H. apply JSFacts.truthy_true in H. rewrite H. reflexivity. Qed.

(** [searchLiterature] once its two guards have passed. *)
Lemma searchLiterature_scan (start : Z) (s : State) (content : string) :
  literatureContent s = Some content ->
  JS.trim (literatureSearchTerm s) <> EmptyString ->
  searchLiterature start s =
  match forwardLoop (linesOf content) (needleOf (literatureSearchTerm s)) start with
  | Throw => Uncaught
  | Normal foundLineIndex =>
      if foundLineIndex =? -1 then
        Return s (Some (if start =? 0
                        then NotFoundInText (literatureSearchTerm s)
                        else NoMoreOccurrences)) (-1)
      else Return (showFrom (linesOf content) foundLineIndex s) None foundLineIndex
  end.
Proof.
  intros Hc Ht. unfold searchLiterature. rewrite Hc, (termGuard_passes s Ht).
  fold (linesOf content). fold (needleOf (literatureSearchTerm s)).
  destruct (forwardLoop _ _ _) as [r|]; [|reflexivity].
  destruct (r =? -1); [|reflexivity]. destruct (start =? 0); reflexivity.
Qed.

(** [findPrevLiterature] once its two guards have passed. *)
Lemma findPrevLiterature_scan (s : State) (content : string) :
  literatureContent s = Some content ->
  JS.trim (literatureSearchTerm s) <> EmptyString ->
  findPrevLiterature s =
  match backwardLoop (linesOf content) (needleOf (literatureSearchTerm s))
          (match foundLineTruthy s with
           | Some foundLine => foundLine - 2
           | None => Z.of_nat (length (linesOf content)) - 1
           end) with
  | Throw => Uncaught
  | Normal foundLineIndex =>
      if foundLineIndex =? -1 then Return s (Some NoPreviousOccurrences) tt
      else Return (showFrom (linesOf content) foundLineIndex s) None tt
  end.
Proof.
  intros Hc Ht. unfold findPrevLiterature. rewrite Hc, (termGuard_passes s Ht).
  reflexivity.
Qed.

(** The outcome of a forward search from a non-negative line. *)
Lemma searchLiterature_outcome (start : Z) (s : State) (content : string) :
  literatureContent s = Some content ->
  JS.trim (literatureSearchTerm s) <> EmptyString ->
  0 <= start ->
  exists r,
    firstFrom (linesOf content) (needleOf (literatureSearchTerm s)) start r /\
    searchLiterature start s =
    if r =? -1 then
      Return s (Some (if start =? 0
                      then NotFoundInText (literatureSearchTerm s)
                      else NoMoreOccurrences)) (-1)
    else Return (positioned (linesOf content) r s) None r.
Proof.
  intros Hc Ht Hs. rewrite (searchLiterature_scan start s content Hc Ht).
  destruct (forwardLoop_result (linesOf content)
              (needleOf (literatureSearchTerm s)) start Hs) as (r & -> & Hr).
  exists r. split; [exact Hr|].
  destruct (Z.eqb_spec r (-1)); [reflexivity|].
  rewrite showFrom_positioned; [reflexivity|].
  destruct Hr as [[? _]|[? _]]; lia.
Qed.

Lemma backwardStart_code (lines : list string) (s : State) :
  match foundLineTruthy s with
  | Some foundLine => foundLine - 2
  | None => Z.of_nat (length lines) - 1
  end = backwardStart lines s.
Proof.
  unfold backwardStart, cursor. destruct (foundLineTruthy s); cbn; lia.
Qed.

Lemma backwardStart_in_range (s : State) (content : string) :
  literatureContent s = Some content -> cursorInRange s ->
  backwardStart (linesOf content) s < Z.of_nat (length (linesOf content)).
Proof.
  intros Hc Hin. unfold backwardStart, cursor, foundLineTruthy.
  unfold cursorInRange in Hin.
  destruct (literatureFoundLine s) as [n|]; cbn; [|lia].
  destruct Hin as (content' & Hc' & Hn).
  rewrite Hc in Hc'. inversion Hc'; subst content'.
  destruct (n =? 0); cbn; lia.
Qed.

(** The outcome of a backward search under the cursor invariant. *)
Lemma findPrevLiterature_outcome (s : State) (content : string) :
  literatureContent s = Some content ->
  JS.trim (literatureSearchTerm s) <> EmptyString ->
  cursorInRange s ->
  exists r,
    lastUpTo (linesOf content) (needleOf (literatureSearchTerm s))
      (backwardStart (linesOf content) s) r /\
    findPrevLiterature s =
    if r =? -1 then Return s (Some NoPreviousOccurrences) tt
    else Return (positioned (linesOf content) r s) None tt.
Proof.
  intros Hc Ht Hin. rewrite (findPrevLiterature_scan s content Hc Ht).
  rewrite backwardStart_code.
  destruct (backwardLoop_result (linesOf content)
              (needleOf (literatureSearchTerm s))
              (backwardStart (linesOf content) s)
              (backwardStart_in_range s content Hc Hin)) as (r & -> & Hr).
  exists r. split; [exact Hr|].
  destruct (Z.eqb_spec r (-1)); [reflexivity|].
  rewrite showFrom_positioned; [reflexivity|].
  destruct Hr as [[? _]|[? _]]; lia.
Qed.

(** ** Forward search *)

(** C1, as amended: on a loaded text (one whose content string is not
    empty), with a term that is not blank and a start line [fromLine >= 0],
    the forward search scans from [fromLine] upwards for the first line
    whose lower-case form contains the lower-cased term trimmed of
    surrounding white space.  If some line from [fromLine] on matches,
    it succeeds at the smallest such index [m]: it returns [m], the
    cursor is [m], the found line is [m + 1] and the display holds the
    window that starts at line [m]; if none matches it alerts with a
    [NotFound] failure, returns [-1] and leaves the state as it was. *)
Theorem searchForward_first_match (s : State) (content : string) (fromLine : Z) :
  literatureContent s = Some content ->
  JS.trim (literatureSearchTerm s) <> EmptyString ->
  0 <= fromLine ->
  let lines := linesOf content in
  let needle := JS.trim (JS.toLowerCase (literatureSearchTerm s)) in
  (forall i, fromLine <= i -> lineMatches lines needle i = true ->
     exists m,
       fromLine <= m <= i /\ lineMatches lines needle m = true /\
       (forall j, fromLine <= j < m -> lineMatches lines needle j = false) /\
       searchLiterature fromLine s =
         Return (setLiteratureDisplayContent
                   (Some (joinLines (window lines m (numLines s))))
                   (setLiteratureFoundLine (Some (m + 1)) s)) None m /\
       cursor (positioned lines m s) = Some m) /\
  ((forall i, fromLine <= i -> lineMatches lines needle i = false) ->
     exists a, searchLiterature fromLine s = Return s (Some a) (-1) /\
               failureOf a = NotFound).
Proof.
  intros Hc Ht Hs lines needle.
  destruct (searchLiterature_outcome fromLine s content Hc Ht Hs)
    as (r & Hr & Hrun).
  fold lines in Hr, Hrun. change (needleOf (literatureSearchTerm s)) with needle in Hr.
  split.
  - intros i Hi Mi. destruct Hr as [[-> Hnone]|(Hin & Hm & Hmin)].
    + rewrite Hnone in Mi by exact Hi. discriminate.
    + exists r. destruct (Z.eqb_spec r (-1)); [lia|].
      assert (r <= i).
      { destruct (Z_le_gt_dec r i); [assumption|].
        rewrite Hmin in Mi by lia. discriminate. }
      repeat split; try assumption; try lia.
      apply cursor_positioned. lia.
  - intros Hnone. destruct Hr as [[-> _]|(Hin & Hm & _)].
    + rewrite Hrun. cbn. destruct (fromLine =? 0); eexists; split; reflexivity.
    + rewrite Hnone in Hm by lia. discriminate.
Qed.

(** ** Backward search *)

(** C2, as amended: on a loaded text that is not empty, with a term
    that is not blank and a cursor that is unset or an index of the
    text, the backward search starts at [cursor - 1] when the cursor is
    set and at the last line when it is not, scans downwards to line 0
    included for a line whose lower-cased form contains the lower-cased
    and trimmed term, and succeeds at the first match it meets, the
    highest matching index not above the start; with no match in that
    range, and so whenever the start is negative, it alerts with
    [NotFound] and leaves the state as it was.  A cursor past the end
    of the text, which only [handleFolderSelect] can leave behind, is
    outside this statement. *)
Theorem searchBackward_last_match (s : State) (content : string) :
  literatureContent s = Some content ->
  JS.trim (literatureSearchTerm s) <> EmptyString ->
  cursorInRange s ->
  let lines := linesOf content in
  let needle := JS.trim (JS.toLowerCase (literatureSearchTerm s)) in
  let start := match cursor s with
               | Some c => c - 1
               | None => Z.of_nat (length lines) - 1
               end in
  (forall i, 0 <= i <= start -> lineMatches lines needle i = true ->
     exists m,
       i <= m <= start /\ lineMatches lines needle m = true /\
       (forall j, m < j <= start -> lineMatches lines needle j = false) /\
       findPrevLiterature s =
         Return (setLiteratureDisplayContent
                   (Some (joinLines (window lines m (numLines s))))
                   (setLiteratureFoundLine (Some (m + 1)) s)) None tt /\
       cursor (positioned lines m s) = Some m) /\
  ((forall i, 0 <= i <= start -> lineMatches lines needle i = false) ->
     findPrevLiterature s = Return s (Some NoPreviousOccurrences) tt /\
     failureOf NoPreviousOccurrences = NotFound) /\
  (start < 0 ->
     findPrevLiterature s = Return s (Some NoPreviousOccurrences) tt).
Proof.
  intros Hc Ht Hin lines needle start.
  destruct (findPrevLiterature_outcome s content Hc Ht Hin) as (r & Hr & Hrun).
  change (backwardStart (linesOf content) s) with start in Hr.
  fold lines in Hr, Hrun. change (needleOf (literatureSearchTerm s)) with needle in Hr.
  assert (Hnone : (forall i, 0 <= i <= start -> lineMatches lines needle i = false) ->
                  findPrevLiterature s = Return s (Some NoPreviousOccurrences) tt).
  { intros Hno. destruct Hr as [[-> _]|(Hr & Hm & _)].
    - exact Hrun.
    - rewrite Hno in Hm by lia. discriminate. }
  split; [|split].
  - intros i Hi Mi. destruct Hr as [[-> Hno]|(Hr & Hm & Hmax)].
    + rewrite Hno in Mi by exact Hi. discriminate.
    + exists r. destruct (Z.eqb_spec r (-1)); [lia|].
      assert (i <= r).
      { destruct (Z_le_gt_dec i r); [assumption|].
        rewrite Hmax in Mi by lia. discriminate. }
      repeat split; try assumption; try lia.
      apply cursor_positioned. lia.
  - intros Hno. split; [apply Hnone, Hno | reflexivity].
  - intros Hneg. apply Hnone. intros i Hi. lia.
Qed.

(** ** Paging *)

Lemma foundLineTruthy_index (s : State) (c : Z) :
  literatureFoundLine s = Some (c + 1) -> 0 <= c ->
  foundLineTruthy s = Some (c + 1).
Proof.
  intros Hf Hc. unfold foundLineTruthy. rewrite Hf.
  destruct (Z.eqb_spec (c + 1) 0); [lia | reflexivity].
Qed.

(** [nextLinesLiterature] once its two guards have passed. *)
Lemma nextLinesLiterature_at (s : State) (content : string) (c : Z) :
  literatureContent s = Some content ->
  literatureFoundLine s = Some (c + 1) ->
  0 <= c ->
  nextLinesLiterature s =
  if Z.of_nat (length (linesOf content)) <=? c + numLines s
  then Return s (Some ReachedEndOfText) tt
  else Return (positioned (linesOf content) (c + numLines s) s) None tt.
Proof.
  intros Hc Hf Hpos. unfold nextLinesLiterature.
  rewrite Hc, (foundLineTruthy_index s c Hf Hpos).
  replace (c + 1 - 1 + numLines s) with (c + numLines s) by lia.
  fold (linesOf content). destruct (_ <=? _); [reflexivity|].
  pose proof (numLines_bounds s).
  rewrite showFrom_positioned by lia. reflexivity.
Qed.

(** C3: on a loaded text with the cursor set at [c], the next page
    starts at [newStart = c + pageSize]; when [newStart] is not below
    the number of lines the handler alerts with [EndOfText] and leaves
    the state, the cursor with it, as it was; otherwise the cursor
    becomes [newStart], the found line [newStart + 1], and the display
    holds the window that starts at [newStart]. *)
Theorem nextPage_advances (s : State) (content : string) (c : Z) :
  literatureContent s = Some content ->
  literatureFoundLine s = Some (c + 1) ->
  0 <= c ->
  let lines := linesOf content in
  let newStart := c + numLines s in
  cursor s = Some c /\
  (Z.of_nat (length lines) <= newStart ->
     nextLinesLiterature s = Return s (Some ReachedEndOfText) tt /\
     failureOf ReachedEndOfText = EndOfText) /\
  (newStart < Z.of_nat (length lines) ->
     nextLinesLiterature s =
       Return (setLiteratureDisplayContent
                 (Some (joinLines (window lines newStart (numLines s))))
                 (setLiteratureFoundLine (Some (newStart + 1)) s)) None tt /\
     cursor (positioned lines newStart s) = Some newStart).
Proof.
  intros Hc Hf Hpos lines newStart.
  pose proof (numLines_bounds s) as Hp.
  rewrite (nextLinesLiterature_at s content c Hc Hf Hpos).
  fold lines. fold newStart.
  split; [|split].
  - unfold cursor. rewrite (foundLineTruthy_index s c Hf Hpos). cbn. f_equal. lia.
  - intros Hend.
    destruct (Z.leb_spec (Z.of_nat (length lines)) newStart); [|lia].
    split; reflexivity.
  - intros Hlt.
    destruct (Z.leb_spec (Z.of_nat (length lines)) newStart); [lia|].
    split; [reflexivity|]. apply cursor_positioned. subst newStart. lia.
Qed.

(** ** Failures leave the state alone *)

Ltac same_state :=
  let H := fresh in
  intros H; inversion H; subst; unfold searchFailure, pageFailure; cbn; auto.

Lemma searchLiterature_alert (fromLine : Z) (s s' : State) (a : Alert) (r : Z) :
  searchLiterature fromLine s = Return s' (Some a) r ->
  s' = s /\ r = -1 /\ searchFailure a.
Proof.
  unfold searchLiterature.
  destruct (literatureContent s) as [content|]; [|same_state].
  destruct (negb _); [same_state|].
  destruct (forwardLoop _ _ _) as [i|]; [|discriminate].
  destruct (i =? -1); [|discriminate].
  destruct (fromLine =? 0); same_state.
Qed.

Lemma findNextLiterature_alert (s s' : State) (a : Alert) (r : unit) :
  findNextLiterature s = Return s' (Some a) r -> s' = s /\ searchFailure a.
Proof.
  unfold findNextLiterature.
  destruct (foundLineTruthy s) as [n|].
  - destruct (searchLiterature n s) as [s1 a1 r1|] eqn:E; [|discriminate].
    intros H; inversion H; subst.
    destruct (searchLiterature_alert _ _ _ _ _ E) as (? & _ & ?). auto.
  - destruct (searchLiterature 0 s) as [s1 a1 r1|] eqn:E; [|discriminate].
    intros H; inversion H; subst.
    destruct (searchLiterature_alert _ _ _ _ _ E) as (? & _ & ?). auto.
Qed.

Lemma findPrevLiterature_alert (s s' : State) (a : Alert) (r : unit) :
  findPrevLiterature s = Return s' (Some a) r -> s' = s /\ searchFailure a.
Proof.
  unfold findPrevLiterature.
  destruct (literatureContent s) as [content|]; [|same_state].
  destruct (negb _); [same_state|].
  destruct (backwardLoop _ _ _) as [i|]; [|discriminate].
  destruct (i =? -1); [|discriminate]. same_state.
Qed.

Lemma nextLinesLiterature_alert (s s' : State) (a : Alert) (r : unit) :
  nextLinesLiterature s = Return s' (Some a) r -> s' = s /\ pageFailure a.
Proof.
  unfold nextLinesLiterature.
  destruct (literatureContent s) as [content|]; [|same_state].
  destruct (foundLineTruthy s) as [n|]; [|same_state].
  destruct (_ <=? _); [|discriminate]. same_state.
Qed.

(** C4: a search or a page advance that fails, that is, one that
    raises an alert, hands back the very state it was given: found
    line, displayed content, reports, file, term and page size; the
    alert is one of the failure kinds of the operation. *)
Theorem failures_leave_state (s s' : State) (a : Alert) :
  (forall fromLine r,
     searchLiterature fromLine s = Return s' (Some a) r ->
     s' = s /\ r = -1 /\
     (failureOf a = NoDocument \/ failureOf a = EmptyTerm \/ failureOf a = NotFound)) /\
  (forall r,
     findNextLiterature s = Return s' (Some a) r ->
     s' = s /\
     (failureOf a = NoDocument \/ failureOf a = EmptyTerm \/ failureOf a = NotFound)) /\
  (forall r,
     findPrevLiterature s = Return s' (Some a) r ->
     s' = s /\
     (failureOf a = NoDocument \/ failureOf a = EmptyTerm \/ failureOf a = NotFound)) /\
  (forall r,
     nextLinesLiterature s = Return s' (Some a) r ->
     s' = s /\
     (failureOf a = NoDocument \/ failureOf a = NoCursor \/ failureOf a = EndOfText)).
Proof.
  split; [|split; [|split]]; intros.
  - eapply searchLiterature_alert; eassumption.
  - eapply findNextLiterature_alert; eassumption.
  - eapply findPrevLiterature_alert; eassumption.
  - eapply nextLinesLiterature_alert; eassumption.
Qed.

(** ** The cursor invariant *)

Lemma positioned_inRange (s : State) (content : string) (r : Z) :
  literatureContent s = Some content ->
  0 <= r < Z.of_nat (length (linesOf content)) ->
  cursorInRange (positioned (linesOf content) r s).
Proof.
  intros Hc Hr. unfold cursorInRange. cbn.
  exists content. split; [exact Hc | lia].
Qed.

(** A successful forward search, taken apart. *)
Lemma searchLiterature_success (start : Z) (s s' : State) (r : Z) :
  searchLiterature start s = Return s' None r ->
  exists content,
    literatureContent s = Some content /\
    JS.trim (literatureSearchTerm s) <> EmptyString /\
    0 <= start <= r /\ r < Z.of_nat (length (linesOf content)) /\
    lineMatches (linesOf content) (needleOf (literatureSearchTerm s)) r = true /\
    (forall j, start <= j < r ->
       lineMatches (linesOf content) (needleOf (literatureSearchTerm s)) j = false) /\
    s' = positioned (linesOf content) r s.
Proof.
  intros H.
  destruct (literatureContent s) as [content|] eqn:Hc;
    [|unfold searchLiterature in H; rewrite Hc in H; discriminate].
  destruct (JS.truthy (JS.trim (literatureSearchTerm s))) eqn:Ht;
    [|unfold searchLiterature in H; rewrite Hc, Ht in H; discriminate].
  apply JSFacts.truthy_true in Ht.
  destruct (Z_lt_le_dec start 0) as [Hneg|Hpos].
  - rewrite (searchLiterature_scan start s content Hc Ht) in H.
    rewrite forwardLoop_negative in H by exact Hneg. discriminate.
  - destruct (searchLiterature_outcome start s content Hc Ht Hpos)
      as (r0 & Hr & Hrun).
    rewrite Hrun in H. destruct (Z.eqb_spec r0 (-1)); [discriminate|].
    inversion H; subst. exists content.
    destruct Hr as [[? _]|(Hin & Hm & Hmin)]; [lia|].
    repeat split; try assumption; lia.
Qed.

(** A successful backward search, taken apart. *)
Lemma findPrevLiterature_success (s s' : State) (u : unit) :
  cursorInRange s ->
  findPrevLiterature s = Return s' None u ->
  exists content r,
    literatureContent s = Some content /\
    0 <= r <= backwardStart (linesOf content) s /\
    r < Z.of_nat (length (linesOf content)) /\
    lineMatches (linesOf content) (needleOf (literatureSearchTerm s)) r = true /\
    s' = positioned (linesOf content) r s.
Proof.
  intros Hin H.
  destruct (literatureContent s) as [content|] eqn:Hc;
    [|unfold findPrevLiterature in H; rewrite Hc in H; discriminate].
  destruct (JS.truthy (JS.trim (literatureSearchTerm s))) eqn:Ht;
    [|unfold findPrevLiterature in H; rewrite Hc, Ht in H; discriminate].
  apply JSFacts.truthy_true in Ht.
  destruct (findPrevLiterature_outcome s content Hc Ht Hin) as (r0 & Hr & Hrun).
  rewrite Hrun in H. destruct (Z.eqb_spec r0 (-1)); [discriminate|].
  inversion H; subst. exists content, r0.
  pose proof (backwardStart_in_range s content Hc Hin).
  destruct Hr as [[? _]|(Hr & Hm & _)]; [lia|].
  repeat split; try assumption; lia.
Qed.

(** A successful page advance, taken apart. *)
Lemma nextLinesLiterature_success (s s' : State) (u : unit) :
  cursorInRange s ->
  nextLinesLiterature s = Return s' None u ->
  exists content c,
    literatureContent s = Some content /\
    cursor s = Some c /\ 0 <= c /\
    c + numLines s < Z.of_nat (length (linesOf content)) /\
    s' = positioned (linesOf content) (c + numLines s) s.
Proof.
  intros Hin H. unfold nextLinesLiterature in H.
  destruct (literatureContent s) as [content|] eqn:Hc; [|discriminate].
  unfold cursor. unfold foundLineTruthy in *. unfold cursorInRange in Hin.
  destruct (literatureFoundLine s) as [n|]; [|discriminate].
  destruct Hin as (content' & Hc' & Hn). rewrite Hc in Hc'.
  inversion Hc'; subst content'.
  destruct (Z.eqb_spec n 0); [discriminate|].
  fold (linesOf content) in H.
  destruct (Z.leb_spec (Z.of_nat (length (linesOf content))) (n - 1 + numLines s));
    [discriminate|].
  pose proof (numLines_bounds s).
  rewrite showFrom_positioned in H by lia. inversion H; subst.
  exists content, (n - 1). cbn. repeat split; try reflexivity; lia.
Qed.

Lemma searchLiterature_inRange (start : Z) (s : State) :
  cursorInRange s -> cursorInRange (stateAfter (searchLiterature start s) s).
Proof.
  intros Hin. destruct (searchLiterature start s) as [s' [a|] r|] eqn:E; cbn.
  - destruct (searchLiterature_alert _ _ _ _ _ E) as (-> & _). exact Hin.
  - destruct (searchLiterature_success _ _ _ _ E)
      as (content & Hc & _ & Hr & Hlt & _ & _ & ->).
    apply positioned_inRange; [exact Hc | lia].
  - exact Hin.
Qed.

Lemma findNextLiterature_inRange (s : State) :
  cursorInRange s -> cursorInRange (stateAfter (findNextLiterature s) s).
Proof.
  intros Hin. unfold findNextLiterature.
  destruct (foundLineTruthy s) as [n|].
  - pose proof (searchLiterature_inRange n s Hin) as H.
    destruct (searchLiterature n s); exact H.
  - pose proof (searchLiterature_inRange 0 s Hin) as H.
    destruct (searchLiterature 0 s); exact H.
Qed.

Lemma findPrevLiterature_inRange (s : State) :
  cursorInRange s -> cursorInRange (stateAfter (findPrevLiterature s) s).
Proof.
  intros Hin. destruct (findPrevLiterature s) as [s' [a|] r|] eqn:E; cbn.
  - destruct (findPrevLiterature_alert _ _ _ _ E) as (-> & _). exact Hin.
  - destruct (findPrevLiterature_success _ _ _ Hin E)
      as (content & r0 & Hc & Hr & Hlt & _ & ->).
    apply positioned_inRange; [exact Hc | lia].
  - exact Hin.
Qed.

Lemma nextLinesLiterature_inRange (s : State) :
  cursorInRange s -> cursorInRange (stateAfter (nextLinesLiterature s) s).
Proof.
  intros Hin. destruct (nextLinesLiterature s) as [s' [a|] r|] eqn:E; cbn.
  - destruct (nextLinesLiterature_alert _ _ _ _ E) as (-> & _). exact Hin.
  - destruct (nextLinesLiterature_success _ _ _ Hin E)
      as (content & c & Hc & _ & Hc0 & Hlt & ->).
    pose proof (numLines_bounds s).
    apply positioned_inRange; [exact Hc | lia].
  - exact Hin.
Qed.

Lemma removeReport_inRange (filename : string) (s : State) :
  cursorInRange s -> cursorInRange (removeReport filename s).
Proof.
  intros Hin. unfold removeReport.
  destruct (decide (Some filename = literatureFile s)) as [E|N]; [exact I|].
  unfold cursorInRange in *. cbn.
  destruct (literatureFoundLine s) as [n|]; [|exact I].
  destruct Hin as (content & Hc & Hn). exists content. split; [|exact Hn].
  unfold literatureContent in *. cbn.
  destruct (literatureFile s) as [f|]; [|discriminate].
  destruct (JS.truthy f); [|discriminate].
  rewrite lookup_delete_ne by congruence. exact Hc.
Qed.

Lemma perform_inRange (a : Action) (s : State) :
  cursorInRange s -> cursorInRange (perform a s).
Proof.
  intros Hin. destruct a; cbn [perform].
  - unfold toggleLiterature. destruct (decide _); exact I.
  - apply removeReport_inRange, Hin.
  - exact I.
  - exact Hin.
  - exact Hin.
  - apply searchLiterature_inRange, Hin.
  - apply findNextLiterature_inRange, Hin.
  - apply findPrevLiterature_inRange, Hin.
  - apply nextLinesLiterature_inRange, Hin.
Qed.

Lemma performAll_inRange (actions : list Action) (s : State) :
  cursorInRange s -> cursorInRange (performAll actions s).
Proof.
  revert s. induction actions as [|a actions IH]; intros s Hin; [exact Hin|].
  cbn. apply IH, perform_inRange, Hin.
Qed.

Lemma cursorInRange_cursor (s : State) (c : Z) :
  cursorInRange s -> cursor s = Some c ->
  exists content, literatureContent s = Some content /\
    0 <= c < Z.of_nat (length (linesOf content)).
Proof.
  unfold cursorInRange, cursor, foundLineTruthy.
  destruct (literatureFoundLine s) as [n|]; [|discriminate].
  intros (content & Hc & Hn). destruct (n =? 0); [discriminate|].
  cbn. intros E. inversion E; subst. eauto.
Qed.

(** X17: The handlers other than the two folder loaders keep the cursor
    in range.  From a state in which the cursor, if set, is an index of
    the loaded text, every sequence of picking or removing a file,
    clearing the reports, typing the term or the number of lines, a
    search from any line, find next, find previous and next lines
    leads to a state in which the cursor, if set, satisfies
    [0 <= cursor < len(lines)]; each of the four handlers that set the
    cursor keeps the bound. *)
Theorem cursor_invariant (s : State) (actions : list Action) :
  cursorInRange s ->
  (forall c, cursor (performAll actions s) = Some c ->
     exists content,
       literatureContent (performAll actions s) = Some content /\
       0 <= c < Z.of_nat (length (linesOf content))) /\
  (forall fromLine, cursorInRange (stateAfter (searchLiterature fromLine s) s)) /\
  cursorInRange (stateAfter (findNextLiterature s) s) /\
  cursorInRange (stateAfter (findPrevLiterature s) s) /\
  cursorInRange (stateAfter (nextLinesLiterature s) s).
Proof.
  intros Hin. split; [|split; [|split; [|split]]].
  - intros c Hc. apply cursorInRange_cursor; [|exact Hc].
    apply performAll_inRange, Hin.
  - intros fromLine. apply searchLiterature_inRange, Hin.
  - apply findNextLiterature_inRange, Hin.
  - apply findPrevLiterature_inRange, Hin.
  - apply nextLinesLiterature_inRange, Hin.
Qed.

(** C5: the bound [0 <= cursor < len(lines)] does not survive
    [handleFolderSelect].  A folder with the four-line text [t.txt] is
    chosen, the file is picked as the literature file, [beta] is
    searched for and found again with find next: the cursor is 3, the
    last line.  The folder is chosen again, [t.txt] now holding one
    line: the handler merges the new text into the reports and leaves
    the found line as it was, so the cursor is still 3 on a text of
    one line, and find previous reads a line that does not exist and
    throws.  [toggleLiterature], [removeReport], [clearAllReports] and
    [handlePreloadedFolderSelect] reset the found line when they change
    the text; this handler does not. *)
Theorem cursor_invariant_broken_by_folder_select
    (localeSort : list File -> list File) :
  (forall l, localeSort l ≡ₚ l) ->
  let s0 := (handleFolderSelect localeSort [mkFile "t.txt" (Some greek)] initialState).1 in
  let s1 := performAll [Toggle "t.txt"; TypeTerm "beta"; SearchFrom 0; Next] s0 in
  let s2 := (handleFolderSelect localeSort
               [mkFile "t.txt" (Some "one line"%string)] s1).1 in
  cursorInRange s0 /\ cursorInRange s1 /\
  literatureContent s1 = Some greek /\ cursor s1 = Some 3 /\
  literatureContent s2 = Some "one line"%string /\
  length (linesOf "one line") = 1%nat /\
  literatureFoundLine s2 = literatureFoundLine s1 /\
  cursor s2 = Some 3 /\
  ~ cursorInRange s2 /\
  findPrevLiterature s2 = Uncaught.
Proof.
  intros Hperm.
  assert (Hone : forall f, localeSort [f] = [f])
    by (intros f; apply Permutation_singleton_r, Hperm).
  assert (E : forall text s,
             handleFolderSelect localeSort [mkFile "t.txt" (Some text)] s =
             handleFolderSelect (fun l => l) [mkFile "t.txt" (Some text)] s).
  { intros text s. unfold handleFolderSelect.
    change (List.filter isTextFile [mkFile "t.txt" (Some text)])
      with [mkFile "t.txt" (Some text)].
    cbv beta iota. rewrite Hone. reflexivity. }
  intros s0 s1 s2. subst s0 s1 s2. rewrite !E.
  split; [exact I|]. split.
  { exists greek. split; [vm_compute; reflexivity|].
    vm_compute. split; [discriminate | reflexivity]. }
  split; [vm_compute; reflexivity|]. split; [vm_compute; reflexivity|].
  split; [vm_compute; reflexivity|]. split; [vm_compute; reflexivity|].
  split; [vm_compute; reflexivity|]. split; [vm_compute; reflexivity|].
  split; [|vm_compute; reflexivity].
  assert (Hout : forall s, literatureFoundLine s = Some 4 ->
                   literatureContent s = Some "one line"%string ->
                   ~ cursorInRange s).
  { intros s Hf Hc Hin. unfold cursorInRange in Hin. rewrite Hf in Hin.
    destruct Hin as (content & Hc' & _ & Hr).
    rewrite Hc in Hc'. inversion Hc'; subst content.
    vm_compute in Hr. discriminate Hr. }
  apply Hout; vm_compute; reflexivity.
Qed.

(** C5 with the files sorted as they come. *)
Lemma cursor_invariant_broken_by_folder_select_witness :
  let sortAsIs := fun l : list File => l in
  let s0 := (handleFolderSelect sortAsIs [mkFile "t.txt" (Some greek)] initialState).1 in
  let s1 := performAll [Toggle "t.txt"; TypeTerm "beta"; SearchFrom 0; Next] s0 in
  let s2 := (handleFolderSelect sortAsIs
               [mkFile "t.txt" (Some "one line"%string)] s1).1 in
  (forall l, sortAsIs l ≡ₚ l) /\
  cursorInRange s1 /\ cursor s2 = Some 3 /\ ~ cursorInRange s2 /\
  findPrevLiterature s2 = Uncaught.
Proof.
  intros sortAsIs s0 s1 s2.
  assert (Hp : forall l, sortAsIs l ≡ₚ l) by (intros l; reflexivity).
  split; [exact Hp|].
  destruct (cursor_invariant_broken_by_folder_select sortAsIs Hp)
    as (_ & H1 & _ & _ & _ & _ & _ & H2 & H3 & H4).
  split; [exact H1|]. split; [exact H2|]. split; [exact H3 | exact H4].
Defined.

(** ** An empty text *)

Lemma literatureContent_empty (s : State) (f : string) :
  literatureFile s = Some f -> loadedReports s !! f = Some EmptyString ->
  literatureContent s = None.
Proof.
  intros Hf Hr. unfold literatureContent. rewrite Hf.
  destruct (JS.truthy f); [|reflexivity]. rewrite Hr. reflexivity.
Qed.

(** C6, as amended: when the text stored for the literature file is
    the empty string, a forward search, whatever the term and the start
    line, alerts 'No literature file selected', the [NoDocument]
    failure, and leaves the state as it was: the guard of the handler
    takes an empty text for no text.  The [NotFound] failure is that of
    a text that is not empty and in which no line from the start line
    on matches. *)
Theorem empty_text_is_no_document (s : State) (f : string) (fromLine : Z) :
  literatureFile s = Some f ->
  (loadedReports s !! f = Some EmptyString ->
     searchLiterature fromLine s = Return s (Some NoLiteratureFileSelected) (-1) /\
     failureOf NoLiteratureFileSelected = NoDocument) /\
  (forall content,
     literatureContent s = Some content ->
     JS.trim (literatureSearchTerm s) <> EmptyString ->
     0 <= fromLine ->
     (forall i, fromLine <= i ->
        lineMatches (linesOf content)
          (JS.trim (JS.toLowerCase (literatureSearchTerm s))) i = false) ->
     content <> EmptyString /\
     exists a, searchLiterature fromLine s = Return s (Some a) (-1) /\
               failureOf a = NotFound).
Proof.
  intros Hf. split.
  - intros Hr. unfold searchLiterature.
    rewrite (literatureContent_empty s f Hf Hr). split; reflexivity.
  - intros content Hc Ht Hs Hnone. split.
    + unfold literatureContent in Hc. rewrite Hf in Hc.
      destruct (JS.truthy f); [|discriminate].
      destruct (loadedReports s !! f) as [c|]; [|discriminate].
      destruct (JS.truthy c) eqn:E; [|discriminate].
      inversion Hc; subst. apply JSFacts.truthy_true, E.
    + destruct (searchLiterature_outcome fromLine s content Hc Ht Hs)
        as (r & Hr & Hrun).
      destruct Hr as [[-> _]|(Hin & Hm & _)].
      * rewrite Hrun. cbn. destruct (fromLine =? 0); eexists; split; reflexivity.
      * unfold needleOf in Hm. rewrite Hnone in Hm by lia. discriminate.
Qed.

(** ** The page size *)

Lemma showFrom_lineCount (content : string) (r : Z) (s : State) :
  exists text,
    literatureDisplayContent (showFrom (linesOf content) r s) = Some text /\
    1 <= Z.of_nat (length (linesOf text)) <= numLines s.
Proof.
  eexists. split; [reflexivity|].
  unfold linesOf at 1 3. rewrite JSFacts.split_join_length.
  - pose proof (JSFacts.slice_length (linesOf content) r (numLines s)).
    pose proof (numLines_bounds s). lia.
  - apply JSFacts.slice_sublist, JSFacts.split_free.
Qed.

Lemma searchLiterature_shows (k : Z) (s s' : State) (r : Z) :
  searchLiterature k s = Return s' None r ->
  exists content i, s' = showFrom (linesOf content) i s.
Proof.
  unfold searchLiterature.
  destruct (literatureContent s) as [content|]; [|discriminate].
  destruct (negb _); [discriminate|].
  destruct (forwardLoop _ _ _) as [i|]; [|discriminate].
  destruct (i =? -1); [destruct (k =? 0); discriminate|].
  intros H; inversion H; subst. exists content, r. reflexivity.
Qed.

Lemma findPrevLiterature_shows (s s' : State) (u : unit) :
  findPrevLiterature s = Return s' None u ->
  exists content i, s' = showFrom (linesOf content) i s.
Proof.
  unfold findPrevLiterature.
  destruct (literatureContent s) as [content|]; [|discriminate].
  destruct (negb _); [discriminate|].
  destruct (backwardLoop _ _ _) as [i|]; [|discriminate].
  destruct (i =? -1); [discriminate|].
  intros H; inversion H; subst. exists content, i. reflexivity.
Qed.

Lemma nextLinesLiterature_shows (s s' : State) (u : unit) :
  nextLinesLiterature s = Return s' None u ->
  exists content i, s' = showFrom (linesOf content) i s.
Proof.
  unfold nextLinesLiterature.
  destruct (literatureContent s) as [content|]; [|discriminate].
  destruct (foundLineTruthy s) as [n|]; [|discriminate].
  destruct (_ <=? _); [discriminate|].
  intros H; inversion H; subst. exists content, (n - 1 + numLines s). reflexivity.
Qed.

Lemma displays_lineCount (s s' : State) :
  displays s s' ->
  exists text,
    literatureDisplayContent s' = Some text /\
    1 <= Z.of_nat (length (linesOf text)) <= numLines s.
Proof.
  intros [(k & r & H)|[H|H]].
  - destruct (searchLiterature_shows _ _ _ _ H) as (content & i & ->).
    apply showFrom_lineCount.
  - destruct (findPrevLiterature_shows _ _ _ H) as (content & i & ->).
    apply showFrom_lineCount.
  - destruct (nextLinesLiterature_shows _ _ _ H) as (content & i & ->).
    apply showFrom_lineCount.
Qed.

(** C7, as amended: the handler of the lines box stores the number it
    parsed as it is, and 500 in place of [0] or of an entry that does
    not parse; the clamp into [[1, 5000]] is taken each time a window
    is built.  So the page size in force is the stored number clamped:
    5000 after [99999], 500 after [0], and every display built from a
    state has at least one and at most that many lines. *)
Theorem pageSize_clamped_at_use (value : string) (s : State) :
  let s' := onChangeNumLines value s in
  (forall n, JS.parseInt value = Some n -> n <> 0 ->
     literatureNumLines s' = n /\ numLines s' = Z.max 1 (Z.min 5000 n)) /\
  (JS.parseInt value = Some 0 \/ JS.parseInt value = None ->
     literatureNumLines s' = 500 /\ numLines s' = 500) /\
  1 <= numLines s' <= 5000 /\
  numLines (onChangeNumLines "99999" s) = 5000 /\
  numLines (onChangeNumLines "0" s) = 500 /\
  (forall s1 s2,
     literatureNumLines s1 = literatureNumLines s' -> displays s1 s2 ->
     exists text,
       literatureDisplayContent s2 = Some text /\
       1 <= Z.of_nat (length (linesOf text)) <= numLines s').
Proof.
  intros s'. split; [|split; [|split; [|split; [|split]]]].
  - intros n Hn Hz. unfold s', onChangeNumLines, numLines, parseIntOr500.
    cbn. rewrite Hn. destruct (Z.eqb_spec n 0); [contradiction|]. auto.
  - intros H. unfold s', onChangeNumLines, numLines, parseIntOr500. cbn.
    destruct H as [-> | ->]; auto.
  - apply numLines_bounds.
  - reflexivity.
  - reflexivity.
  - intros s1 s2 Hn Hd.
    destruct (displays_lineCount s1 s2 Hd) as (text & Ht & Hl).
    exists text. split; [exact Ht|].
    unfold numLines in *. rewrite <- Hn. exact Hl.
Qed.

(** ** Paging to the end *)

Lemma cursorsFrom_last (p : Z) (k : nat) (c : Z) :
  last (c :: cursorsFrom c p k) = Some (c + Z.of_nat k * p).
Proof.
  revert c. induction k as [|k IH]; intros c.
  - cbn. f_equal. lia.
  - cbn [cursorsFrom]. rewrite last_cons_cons, IH. f_equal. lia.
Qed.

Lemma cursorsFrom_consecutive (p : Z) (k : nat) (c : Z) (i : nat) (a b : Z) :
  (c :: cursorsFrom c p k) !! i = Some a ->
  (c :: cursorsFrom c p k) !! S i = Some b ->
  b = a + p.
Proof.
  revert c i. induction k as [|k IH]; intros c i Ha Hb.
  - destruct i; discriminate.
  - cbn [cursorsFrom] in *. destruct i as [|i].
    + cbn in Ha, Hb. congruence.
    + apply (IH (c + p) i); assumption.
Qed.

Lemma pressNextLines_end (fuel : nat) (s : State) (content : string) (c : Z) :
  literatureContent s = Some content ->
  literatureFoundLine s = Some (c + 1) -> 0 <= c ->
  Z.of_nat (length (linesOf content)) <= c + numLines s ->
  pressNextLines (S fuel) s = Some ([], ReachedEndOfText).
Proof.
  intros Hc Hf Hpos Hend. cbn [pressNextLines].
  rewrite (nextLinesLiterature_at s content c Hc Hf Hpos).
  destruct (Z.leb_spec (Z.of_nat (length (linesOf content))) (c + numLines s));
    [reflexivity | lia].
Qed.

Lemma pressNextLines_run (content : string) (n : nat) :
  forall (s : State) (c : Z),
  literatureContent s = Some content ->
  literatureFoundLine s = Some (c + 1) -> 0 <= c ->
  Z.of_nat (length (linesOf content)) - c <= Z.of_nat n ->
  exists (k : nat) (visited : list State),
    (forall fuel, (k < fuel)%nat ->
       pressNextLines fuel s = Some (visited, ReachedEndOfText)) /\
    map cursor visited = map Some (cursorsFrom c (numLines s) k) /\
    ((1 <= k)%nat ->
       c + Z.of_nat k * numLines s < Z.of_nat (length (linesOf content))) /\
    Z.of_nat (length (linesOf content)) <= c + Z.of_nat k * numLines s + numLines s.
Proof.
  induction n as [|n IH]; intros s c Hc Hf Hpos Hn;
    pose proof (numLines_bounds s) as Hp.
  - exists O, []. split; [|split; [reflexivity | split; [lia | lia]]].
    intros [|fuel] Hfuel; [lia|].
    apply (pressNextLines_end fuel s content c); [assumption..|lia].
  - destruct (Z_le_gt_dec (Z.of_nat (length (linesOf content))) (c + numLines s))
      as [Hend|Hmore].
    + exists O, []. split; [|split; [reflexivity | split; [lia | lia]]].
      intros [|fuel] Hfuel; [lia|].
      apply (pressNextLines_end fuel s content c); assumption.
    + set (s1 := positioned (linesOf content) (c + numLines s) s).
      destruct (IH s1 (c + numLines s)) as (k & visited & Hrun & Hcur & Hlt & Hge);
        [exact Hc | reflexivity | lia | lia |].
      change (numLines s1) with (numLines s) in *.
      exists (S k), (s1 :: visited). split; [|split; [|split]].
      * intros [|fuel] Hfuel; [lia|]. cbn [pressNextLines].
        rewrite (nextLinesLiterature_at s content c Hc Hf Hpos).
        destruct (Z.leb_spec (Z.of_nat (length (linesOf content))) (c + numLines s));
          [lia|].
        fold s1. rewrite Hrun by lia. reflexivity.
      * cbn [map cursorsFrom]. rewrite Hcur. f_equal.
        apply cursor_positioned. lia.
      * intros _. destruct k as [|k]; [lia|].
        specialize (Hlt ltac:(lia)). lia.
      * lia.
Qed.

(** C8, as amended: from a cursor [c] set on a loaded text, pressing
    next lines until it alerts ends, after some [k] successful presses,
    with the [EndOfText] alert; the cursors visited are [c + pageSize],
    [c + 2 pageSize], ..., each exactly [pageSize >= 1] above the one
    before and so strictly increasing; the last cursor reached, [final],
    is an index of the text when a press succeeded, and it is the
    first of them with [final + pageSize >= len(lines)]. *)
Theorem nextPage_until_end (s : State) (content : string) (c : Z) :
  literatureContent s = Some content ->
  literatureFoundLine s = Some (c + 1) -> 0 <= c ->
  let p := numLines s in
  let len := Z.of_nat (length (linesOf content)) in
  exists (k : nat) (visited : list State) (final : Z),
    (forall fuel, (k < fuel)%nat ->
       pressNextLines fuel s = Some (visited, ReachedEndOfText)) /\
    map cursor visited = map Some (cursorsFrom c p k) /\
    length visited = k /\
    (forall i a b, (c :: cursorsFrom c p k) !! i = Some a ->
                   (c :: cursorsFrom c p k) !! S i = Some b ->
                   b = a + p /\ a < b /\ a + p < len) /\
    last (c :: cursorsFrom c p k) = Some final /\
    (visited <> [] -> final < len) /\
    len <= final + p.
Proof.
  intros Hc Hf Hpos p len.
  destruct (pressNextLines_run content
              (Z.to_nat (Z.of_nat (length (linesOf content)) - c)) s c Hc Hf Hpos)
    as (k & visited & Hrun & Hcur & Hlt & Hge); [lia|].
  fold p in Hcur, Hlt, Hge. fold len in Hlt, Hge.
  assert (Hk : length visited = k).
  { apply (f_equal length) in Hcur. rewrite !length_map in Hcur.
    rewrite Hcur. clear. generalize c. induction k; intros; cbn; auto. }
  pose proof (numLines_bounds s) as Hp. fold p in Hp.
  exists k, visited, (c + Z.of_nat k * p).
  split; [exact Hrun|]. split; [exact Hcur|]. split; [exact Hk|].
  split; [|split; [apply cursorsFrom_last | split; [|exact Hge]]].
  - intros i a b Ha Hb.
    pose proof (cursorsFrom_consecutive p k c i a b Ha Hb) as ->.
    split; [reflexivity|]. split; [lia|].
    (* [a + p] is one of the cursors reached, all of which are at most [final] *)
    assert (Hle : forall k' c' j x, (c' :: cursorsFrom c' p k') !! j = Some x ->
                    x <= c' + Z.of_nat k' * p).
    { clear - Hp. induction k' as [|k' IH]; intros c' j x Hx.
      - destruct j; [|discriminate]. cbn in Hx. inversion Hx. lia.
      - destruct j as [|j].
        + cbn in Hx. inversion Hx. nia.
        + cbn [cursorsFrom] in Hx.
          pose proof (IH (c' + p) j x Hx). nia. }
    pose proof (Hle k c (S i) (a + p) Hb).
    assert (1 <= k)%nat.
    { destruct k; [destruct i; discriminate | lia]. }
    specialize (Hlt ltac:(assumption)). lia.
  - intros Hne. apply Hlt. destruct visited; [congruence|]. cbn in Hk. lia.
Qed.

(** ** Forward, then backward *)

(** C9: when a forward search from line 0 succeeds, the line it found
    is the first occurrence of the term in the text, and a backward
    search run next, from the cursor just set, finds no line before it:
    it alerts with [NotFound] and leaves the state as it is. *)
Theorem forward_then_backward_not_found (s s' : State) (r : Z) :
  searchLiterature 0 s = Return s' None r ->
  cursor s' = Some r /\
  findPrevLiterature s' = Return s' (Some NoPreviousOccurrences) tt /\
  failureOf NoPreviousOccurrences = NotFound.
Proof.
  intros H.
  destruct (searchLiterature_success _ _ _ _ H)
    as (content & Hc & Ht & Hr & Hlt & Hm & Hmin & ->).
  assert (Hcur : cursor (positioned (linesOf content) r s) = Some r)
    by (apply cursor_positioned; lia).
  split; [exact Hcur|]. split; [|reflexivity].
  assert (Hin : cursorInRange (positioned (linesOf content) r s))
    by (apply positioned_inRange; [exact Hc | lia]).
  destruct (findPrevLiterature_outcome (positioned (linesOf content) r s)
              content Hc Ht Hin) as (r0 & Hr0 & Hrun).
  rewrite Hrun. unfold backwardStart in Hr0. rewrite Hcur in Hr0.
  destruct Hr0 as [[-> _]|(Hr0 & Hm0 & _)]; [reflexivity|].
  change (literatureSearchTerm (positioned (linesOf content) r s))
    with (literatureSearchTerm s) in Hm0.
  rewrite Hmin in Hm0 by lia. discriminate.
Qed.

(** ** The term is trimmed *)

Lemma needleOf_trim (t : string) : needleOf (JS.trim t) = needleOf t.
Proof.
  unfold needleOf.
  rewrite !JSFacts.trim_toLowerCase, JSFacts.trim_idem. reflexivity.
Qed.

Ltac same_behaviour := cbn; repeat split; reflexivity.

Lemma searchLiterature_trim (fromLine : Z) (t : string) (s : State) :
  sameBehaviour (searchLiterature fromLine (setLiteratureSearchTerm t s))
                (searchLiterature fromLine (setLiteratureSearchTerm (JS.trim t) s)).
Proof.
  unfold searchLiterature.
  change (literatureContent (setLiteratureSearchTerm t s)) with (literatureContent s).
  change (literatureContent (setLiteratureSearchTerm (JS.trim t) s))
    with (literatureContent s).
  change (literatureSearchTerm (setLiteratureSearchTerm t s)) with t.
  change (literatureSearchTerm (setLiteratureSearchTerm (JS.trim t) s))
    with (JS.trim t).
  fold (needleOf t). fold (needleOf (JS.trim t)).
  rewrite needleOf_trim, JSFacts.trim_idem.
  destruct (literatureContent s) as [content|]; [|same_behaviour].
  destruct (negb _); [same_behaviour|].
  destruct (forwardLoop _ _ _) as [i|]; [|exact I].
  destruct (i =? -1); [|same_behaviour].
  destruct (fromLine =? 0); same_behaviour.
Qed.

Lemma findPrevLiterature_trim (t : string) (s : State) :
  sameBehaviour (findPrevLiterature (setLiteratureSearchTerm t s))
                (findPrevLiterature (setLiteratureSearchTerm (JS.trim t) s)).
Proof.
  unfold findPrevLiterature.
  change (literatureContent (setLiteratureSearchTerm t s)) with (literatureContent s).
  change (literatureContent (setLiteratureSearchTerm (JS.trim t) s))
    with (literatureContent s).
  change (literatureSearchTerm (setLiteratureSearchTerm t s)) with t.
  change (literatureSearchTerm (setLiteratureSearchTerm (JS.trim t) s))
    with (JS.trim t).
  change (foundLineTruthy (setLiteratureSearchTerm t s)) with (foundLineTruthy s).
  change (foundLineTruthy (setLiteratureSearchTerm (JS.trim t) s))
    with (foundLineTruthy s).
  fold (needleOf t). fold (needleOf (JS.trim t)).
  rewrite needleOf_trim, JSFacts.trim_idem.
  destruct (literatureContent s) as [content|]; [|same_behaviour].
  destruct (negb _); [same_behaviour|].
  destruct (backwardLoop _ _ _) as [i|]; [|exact I].
  destruct (i =? -1); same_behaviour.
Qed.

(** C10: both searches trim the term before they test it for
    emptiness and before they match: run with a term [t] or with
    [trim t] they return the same value, fail with the same kind of
    failure and leave the same found line, display, page size, file
    and reports (the alert for a term not found quotes the term as
    typed); and on a loaded text a term of white space only is turned
    down with [EmptyTerm], the state left as it was. *)
Theorem term_is_trimmed (t : string) (s : State) :
  (forall fromLine,
     sameBehaviour (searchLiterature fromLine (setLiteratureSearchTerm t s))
                   (searchLiterature fromLine (setLiteratureSearchTerm (JS.trim t) s))) /\
  sameBehaviour (findPrevLiterature (setLiteratureSearchTerm t s))
                (findPrevLiterature (setLiteratureSearchTerm (JS.trim t) s)) /\
  (forall content fromLine,
     literatureContent s = Some content -> JS.blank t = true ->
     searchLiterature fromLine (setLiteratureSearchTerm t s) =
       Return (setLiteratureSearchTerm t s) (Some PleaseEnterSearchTerm) (-1) /\
     findPrevLiterature (setLiteratureSearchTerm t s) =
       Return (setLiteratureSearchTerm t s) (Some PleaseEnterSearchTerm) tt /\
     failureOf PleaseEnterSearchTerm = EmptyTerm).
Proof.
  split; [|split].
  - intros fromLine. apply searchLiterature_trim.
  - apply findPrevLiterature_trim.
  - intros content fromLine Hc Hb. apply JSFacts.trim_blank in Hb.
    unfold searchLiterature, findPrevLiterature.
    change (literatureContent (setLiteratureSearchTerm t s)) with (literatureContent s).
    change (literatureSearchTerm (setLiteratureSearchTerm t s)) with t.
    rewrite Hc, Hb. repeat split; reflexivity.
Qed.

(** ** The theorems at concrete inputs *)

(** C1 on the four-line text: the term [" Beta "] is found first at
    line 1, ahead of the match at line 3. *)
Lemma searchForward_first_match_witness :
  let s := withLiterature "t.txt" greek " Beta " 2 None in
  literatureContent s = Some greek /\
  JS.trim (literatureSearchTerm s) <> EmptyString /\
  0 <= 0 /\
  (exists m, 0 <= m <= 3 /\
     searchLiterature 0 s =
       Return (setLiteratureDisplayContent
                 (Some (joinLines (window (linesOf greek) m (numLines s))))
                 (setLiteratureFoundLine (Some (m + 1)) s)) None m) /\
  (exists a, searchLiterature 4 s = Return s (Some a) (-1) /\
             failureOf a = NotFound).
Proof.
  intros s.
  assert (Hc : literatureContent s = Some greek) by (vm_compute; reflexivity).
  assert (Ht : JS.trim (literatureSearchTerm s) <> EmptyString)
    by (vm_compute; discriminate).
  assert (H0 : 0 <= 0) by lia.
  split; [exact Hc|]. split; [exact Ht|]. split; [exact H0|]. split.
  - destruct (searchForward_first_match s greek 0 Hc Ht H0) as [Hfound _].
    destruct (Hfound 3) as (m & Hm & _ & _ & Hrun & _);
      [lia | vm_compute; reflexivity |].
    exists m. split; [exact Hm | exact Hrun].
  - assert (H4 : 0 <= 4) by lia.
    apply (proj2 (searchForward_first_match s greek 4 Hc Ht H4)).
    intros i Hi. apply lineMatches_out. right.
    change (length (linesOf greek)) with 4%nat. lia.
Defined.

(** C2 on the four-line text, the cursor on line 3: the scan starts at
    line 2 and stops at line 1. *)
Lemma searchBackward_last_match_witness :
  let s := withLiterature "t.txt" greek "beta" 2 (Some 4) in
  literatureContent s = Some greek /\
  JS.trim (literatureSearchTerm s) <> EmptyString /\
  cursorInRange s /\
  (exists m, 1 <= m <= 2 /\
     findPrevLiterature s =
       Return (setLiteratureDisplayContent
                 (Some (joinLines (window (linesOf greek) m (numLines s))))
                 (setLiteratureFoundLine (Some (m + 1)) s)) None tt) /\
  (let s0 := withLiterature "t.txt" greek "alpha" 2 (Some 1) in
   findPrevLiterature s0 = Return s0 (Some NoPreviousOccurrences) tt).
Proof.
  intros s.
  assert (Hc : literatureContent s = Some greek) by (vm_compute; reflexivity).
  assert (Ht : JS.trim (literatureSearchTerm s) <> EmptyString)
    by (vm_compute; discriminate).
  assert (Hin : cursorInRange s).
  { exists greek. split; [exact Hc|]. vm_compute. split; [discriminate | reflexivity]. }
  split; [exact Hc|]. split; [exact Ht|]. split; [exact Hin|]. split.
  - destruct (searchBackward_last_match s greek Hc Ht Hin) as [Hfound _].
    destruct (Hfound 1) as (m & Hm & _ & _ & Hrun & _);
      [vm_compute; split; discriminate | vm_compute; reflexivity |].
    exists m. split; [exact Hm | exact Hrun].
  - intros s0.
    assert (Hc0 : literatureContent s0 = Some greek) by (vm_compute; reflexivity).
    assert (Ht0 : JS.trim (literatureSearchTerm s0) <> EmptyString)
      by (vm_compute; discriminate).
    assert (Hin0 : cursorInRange s0).
    { exists greek. split; [exact Hc0|]. vm_compute. split; [discriminate | reflexivity]. }
    apply (proj2 (proj2 (searchBackward_last_match s0 greek Hc0 Ht0 Hin0))).
    vm_compute. reflexivity.
Defined.

(** C3 on the four-line text, the cursor on line 1 and a page of two. *)
Lemma nextPage_advances_witness :
  let s := withLiterature "t.txt" greek "beta" 2 (Some 2) in
  literatureContent s = Some greek /\
  literatureFoundLine s = Some (1 + 1) /\
  0 <= 1 /\
  1 + numLines s < Z.of_nat (length (linesOf greek)) /\
  cursor s = Some 1 /\
  nextLinesLiterature s =
    Return (setLiteratureDisplayContent
              (Some (joinLines (window (linesOf greek) (1 + numLines s) (numLines s))))
              (setLiteratureFoundLine (Some (1 + numLines s + 1)) s)) None tt /\
  (let s0 := withLiterature "t.txt" greek "beta" 10 (Some 2) in
   nextLinesLiterature s0 = Return s0 (Some ReachedEndOfText) tt).
Proof.
  intros s.
  assert (Hc : literatureContent s = Some greek) by (vm_compute; reflexivity).
  assert (Hf : literatureFoundLine s = Some (1 + 1)) by reflexivity.
  assert (H1 : 0 <= 1) by lia.
  assert (Hlt : 1 + numLines s < Z.of_nat (length (linesOf greek)))
    by (vm_compute; reflexivity).
  split; [exact Hc|]. split; [exact Hf|]. split; [exact H1|]. split; [exact Hlt|].
  destruct (nextPage_advances s greek 1 Hc Hf H1) as (Hcur & _ & Hnext).
  split; [exact Hcur|]. split; [exact (proj1 (Hnext Hlt))|].
  intros s0.
  assert (Hc0 : literatureContent s0 = Some greek) by (vm_compute; reflexivity).
  assert (Hf0 : literatureFoundLine s0 = Some (1 + 1)) by reflexivity.
  assert (Hend : Z.of_nat (length (linesOf greek)) <= 1 + numLines s0)
    by (vm_compute; discriminate).
  exact (proj1 (proj1 (proj2 (nextPage_advances s0 greek 1 Hc0 Hf0 H1)) Hend)).
Defined.

(** C4 on a term that is not in the text, the cursor on line 1 and a
    page of ten: each of the four handlers fails. *)
Lemma failures_leave_state_witness :
  let s := withLiterature "t.txt" greek "zeta" 10 (Some 2) in
  searchLiterature 0 s = Return s (Some (NotFoundInText "zeta")) (-1) /\
  findNextLiterature s = Return s (Some NoMoreOccurrences) tt /\
  findPrevLiterature s = Return s (Some NoPreviousOccurrences) tt /\
  nextLinesLiterature s = Return s (Some ReachedEndOfText) tt /\
  (s = s /\ -1 = -1 /\
   (failureOf (NotFoundInText "zeta") = NoDocument \/
    failureOf (NotFoundInText "zeta") = EmptyTerm \/
    failureOf (NotFoundInText "zeta") = NotFound)) /\
  (s = s /\
   (failureOf NoMoreOccurrences = NoDocument \/
    failureOf NoMoreOccurrences = EmptyTerm \/
    failureOf NoMoreOccurrences = NotFound)) /\
  (s = s /\
   (failureOf NoPreviousOccurrences = NoDocument \/
    failureOf NoPreviousOccurrences = EmptyTerm \/
    failureOf NoPreviousOccurrences = NotFound)) /\
  (s = s /\
   (failureOf ReachedEndOfText = NoDocument \/
    failureOf ReachedEndOfText = NoCursor \/
    failureOf ReachedEndOfText = EndOfText)).
Proof.
  intros s.
  assert (H1 : searchLiterature 0 s = Return s (Some (NotFoundInText "zeta")) (-1))
    by (vm_compute; reflexivity).
  assert (H2 : findNextLiterature s = Return s (Some NoMoreOccurrences) tt)
    by (vm_compute; reflexivity).
  assert (H3 : findPrevLiterature s = Return s (Some NoPreviousOccurrences) tt)
    by (vm_compute; reflexivity).
  assert (H4 : nextLinesLiterature s = Return s (Some ReachedEndOfText) tt)
    by (vm_compute; reflexivity).
  split; [exact H1|]. split; [exact H2|]. split; [exact H3|]. split; [exact H4|].
  split; [|split; [|split]].
  - exact (proj1 (failures_leave_state s s (NotFoundInText "zeta")) 0 (-1) H1).
  - exact (proj1 (proj2 (failures_leave_state s s NoMoreOccurrences)) tt H2).
  - exact (proj1 (proj2 (proj2 (failures_leave_state s s NoPreviousOccurrences))) tt H3).
  - exact (proj2 (proj2 (proj2 (failures_leave_state s s ReachedEndOfText))) tt H4).
Defined.

(** The four-line text: Go, Next, Next Lines (which fails), Prev. *)
Lemma cursor_invariant_witness :
  let s := withLiterature "t.txt" greek "beta" 2 None in
  let s' := performAll [SearchFrom 0; Next; NextLines; Prev] s in
  cursorInRange s /\
  cursor s' = Some 1 /\
  exists content,
    literatureContent s' = Some content /\
    0 <= 1 < Z.of_nat (length (linesOf content)).
Proof.
  intros s s'.
  assert (Hin : cursorInRange s) by exact I.
  assert (Hcur : cursor s' = Some 1) by (vm_compute; reflexivity).
  split; [exact Hin|]. split; [exact Hcur|].
  exact (proj1 (cursor_invariant s [SearchFrom 0; Next; NextLines; Prev] Hin) 1 Hcur).
Defined.

(** C6 on an empty file picked as the literature file, and on the
    four-line text with a term it does not hold. *)
Lemma empty_text_is_no_document_witness :
  let s := onChangeSearchTerm "x"
             (toggleLiterature "empty.txt"
                (setLoadedReports {[ "empty.txt"%string := EmptyString ]} initialState)) in
  let s2 := withLiterature "t.txt" greek "zeta" 2 None in
  literatureFile s = Some "empty.txt"%string /\
  loadedReports s !! "empty.txt"%string = Some EmptyString /\
  (searchLiterature 0 s = Return s (Some NoLiteratureFileSelected) (-1) /\
   failureOf NoLiteratureFileSelected = NoDocument) /\
  (greek <> EmptyString /\
   exists a, searchLiterature 0 s2 = Return s2 (Some a) (-1) /\
             failureOf a = NotFound).
Proof.
  intros s s2.
  assert (Hf : literatureFile s = Some "empty.txt"%string) by reflexivity.
  assert (Hr : loadedReports s !! "empty.txt"%string = Some EmptyString)
    by (vm_compute; reflexivity).
  split; [exact Hf|]. split; [exact Hr|]. split.
  - exact (proj1 (empty_text_is_no_document s "empty.txt" 0 Hf) Hr).
  - assert (Hf2 : literatureFile s2 = Some "t.txt"%string) by reflexivity.
    apply (proj2 (empty_text_is_no_document s2 "t.txt" 0 Hf2) greek).
    + vm_compute; reflexivity.
    + vm_compute; discriminate.
    + lia.
    + intros i Hi. destruct (Z_le_gt_dec 4 i).
      * apply lineMatches_out. right. exact l.
      * assert (Hcases : i = 0 \/ i = 1 \/ i = 2 \/ i = 3) by lia.
        destruct Hcases as [->|[->|[->| ->]]]; vm_compute; reflexivity.
Defined.

(** C7 on the entry [99999], with a search on the four-line text. *)
Lemma pageSize_clamped_at_use_witness :
  let s := withLiterature "t.txt" greek "beta" 2 None in
  let s' := onChangeNumLines "99999" s in
  JS.parseInt "99999" = Some 99999 /\ 99999 <> 0 /\
  (literatureNumLines s' = 99999 /\ numLines s' = Z.max 1 (Z.min 5000 99999)) /\
  (exists s2 text,
     displays s' s2 /\
     literatureDisplayContent s2 = Some text /\
     1 <= Z.of_nat (length (linesOf text)) <= numLines s') /\
  JS.parseInt "0" = Some 0 /\
  (literatureNumLines (onChangeNumLines "0" s) = 500 /\
   numLines (onChangeNumLines "0" s) = 500).
Proof.
  intros s s'.
  assert (Hp : JS.parseInt "99999" = Some 99999) by (vm_compute; reflexivity).
  assert (Hz : 99999 <> 0) by discriminate.
  split; [exact Hp|]. split; [exact Hz|].
  destruct (pageSize_clamped_at_use "99999" s) as (Hstore & _ & _ & _ & _ & Hwin).
  split; [exact (Hstore 99999 Hp Hz)|].
  assert (Hd : displays s' (positioned (linesOf greek) 1 s')).
  { left. exists 0, 1. vm_compute. reflexivity. }
  destruct (Hwin s' (positioned (linesOf greek) 1 s') eq_refl Hd) as (text & Ht & Hl).
  split.
  { exists (positioned (linesOf greek) 1 s'), text.
    split; [exact Hd|]. split; [exact Ht | exact Hl]. }
  assert (Hp0 : JS.parseInt "0" = Some 0) by (vm_compute; reflexivity).
  split; [exact Hp0|].
  exact (proj1 (proj2 (pageSize_clamped_at_use "0" s)) (or_introl Hp0)).
Defined.

(** C8 on a text of three lines, the cursor on line 0 and a page of one. *)
Lemma nextPage_until_end_witness :
  let abc := joinLines ["a"; "b"; "c"]%string in
  let s := withLiterature "t.txt" abc "a" 1 (Some 1) in
  literatureContent s = Some abc /\
  literatureFoundLine s = Some (0 + 1) /\
  0 <= 0 /\
  exists (k : nat) (visited : list State) (final : Z),
    (forall fuel, (k < fuel)%nat ->
       pressNextLines fuel s = Some (visited, ReachedEndOfText)) /\
    map cursor visited = map Some (cursorsFrom 0 (numLines s) k) /\
    last (0 :: cursorsFrom 0 (numLines s) k) = Some final /\
    Z.of_nat (length (linesOf abc)) <= final + numLines s.
Proof.
  intros abc s.
  assert (Hc : literatureContent s = Some abc) by (vm_compute; reflexivity).
  assert (Hf : literatureFoundLine s = Some (0 + 1)) by reflexivity.
  assert (H0 : 0 <= 0) by lia.
  split; [exact Hc|]. split; [exact Hf|]. split; [exact H0|].
  destruct (nextPage_until_end s abc 0 Hc Hf H0)
    as (k & visited & final & Hrun & Hcur & _ & _ & Hlast & _ & Hge).
  exists k, visited, final.
  split; [exact Hrun|]. split; [exact Hcur|]. split; [exact Hlast | exact Hge].
Defined.

(** C9 on the four-line text. *)
Lemma forward_then_backward_not_found_witness :
  let s := withLiterature "t.txt" greek "beta" 2 None in
  let s' := positioned (linesOf greek) 1 s in
  searchLiterature 0 s = Return s' None 1 /\
  cursor s' = Some 1 /\
  findPrevLiterature s' = Return s' (Some NoPreviousOccurrences) tt.
Proof.
  intros s s'.
  assert (H : searchLiterature 0 s = Return s' None 1) by (vm_compute; reflexivity).
  split; [exact H|].
  destruct (forward_then_backward_not_found s s' 1 H) as (Hcur & Hprev & _).
  split; [exact Hcur | exact Hprev].
Defined.

(** C10 on a term of two spaces and a tab. *)
Lemma term_is_trimmed_witness :
  let t := String " " (String " " (String (ascii_of_N 9) EmptyString)) in
  let s := withLiterature "t.txt" greek "beta" 2 None in
  literatureContent s = Some greek /\ JS.blank t = true /\
  searchLiterature 0 (setLiteratureSearchTerm t s) =
    Return (setLiteratureSearchTerm t s) (Some PleaseEnterSearchTerm) (-1) /\
  findPrevLiterature (setLiteratureSearchTerm t s) =
    Return (setLiteratureSearchTerm t s) (Some PleaseEnterSearchTerm) tt.
Proof.
  intros t s.
  assert (Hc : literatureContent s = Some greek) by (vm_compute; reflexivity).
  assert (Hb : JS.blank t = true) by (vm_compute; reflexivity).
  split; [exact Hc|]. split; [exact Hb|].
  destruct (proj2 (proj2 (term_is_trimmed t s)) greek 0 Hc Hb) as (H1 & H2 & _).
  split; [exact H1 | exact H2].
Defined.

(** ** Where the specification and the handlers part *)

(** C1 as first stated: the term [" beta"] occurs, lower-cased, in no
    line of the one-line text ["alphabeta"], and is not empty; the
    search does not fail: it trims the term and succeeds at line 0. *)
Lemma searchForward_untrimmed_counterexample :
  let s := withLiterature "t.txt" "alphabeta" " beta" 2 None in
  literatureSearchTerm s <> EmptyString /\
  (forall i, lineMatches (linesOf "alphabeta")
               (JS.toLowerCase (literatureSearchTerm s)) i = false) /\
  searchLiterature 0 s = Return (positioned (linesOf "alphabeta") 0 s) None 0.
Proof.
  intros s. split; [discriminate|]. split; [|vm_compute; reflexivity].
  intros i. destruct (Z.eq_dec i 0) as [->|Hi]; [vm_compute; reflexivity|].
  apply lineMatches_out. change (length (linesOf "alphabeta")) with 1%nat. lia.
Qed.

(** C2 as first stated: a term of two spaces is not empty, and with
    the cursor on line 0 the start is negative; find previous does not
    fail with [NotFound]: it takes the blank term for no term.  And
    the term [" beta"] occurs, lower-cased, in no line of the text
    ["alphabeta"], yet find previous, the cursor unset, trims it and
    succeeds at line 0. *)
Lemma searchBackward_blank_term_counterexample :
  let s := withLiterature "t.txt" greek "  " 2 (Some 1) in
  let s' := withLiterature "t.txt" "alphabeta" " beta" 2 None in
  (literatureContent s = Some greek /\
   literatureSearchTerm s <> EmptyString /\
   cursor s = Some 0 /\
   findPrevLiterature s = Return s (Some PleaseEnterSearchTerm) tt /\
   failureOf PleaseEnterSearchTerm <> NotFound) /\
  (literatureSearchTerm s' <> EmptyString /\
   cursor s' = None /\
   (forall i, lineMatches (linesOf "alphabeta")
                (JS.toLowerCase (literatureSearchTerm s')) i = false) /\
   findPrevLiterature s' = Return (positioned (linesOf "alphabeta") 0 s') None tt).
Proof.
  intros s s'. split.
  - split; [vm_compute; reflexivity|]. split; [discriminate|].
    split; [vm_compute; reflexivity|]. split; [vm_compute; reflexivity|].
    discriminate.
  - split; [discriminate|]. split; [vm_compute; reflexivity|].
    split; [|vm_compute; reflexivity].
    intros i. destruct (Z.eq_dec i 0) as [->|Hi]; [vm_compute; reflexivity|].
    apply lineMatches_out. change (length (linesOf "alphabeta")) with 1%nat. lia.
Qed.

(** C6 as first stated: an empty file is put among the reports and
    picked as the literature file, ["x"] is typed and Go pressed; the
    alert is 'No literature file selected', not a [NotFound] one. *)
Lemma empty_document_counterexample :
  let s := onChangeSearchTerm "x"
             (toggleLiterature "empty.txt"
                (setLoadedReports {[ "empty.txt"%string := EmptyString ]} initialState)) in
  searchLiterature 0 s = Return s (Some NoLiteratureFileSelected) (-1) /\
  failureOf NoLiteratureFileSelected = NoDocument /\
  failureOf NoLiteratureFileSelected <> NotFound.
Proof.
  intros s. split; [vm_compute; reflexivity|]. split; [reflexivity | discriminate].
Qed.

(** C7 as first stated: after [0] is entered the page size in force
    is 500, not 1, and after [99999] the number stored is 99999, not
    its clamped value. *)
Lemma setPageSize_counterexample :
  numLines (onChangeNumLines "0" initialState) = 500 /\
  numLines (onChangeNumLines "0" initialState) <> 1 /\
  literatureNumLines (onChangeNumLines "99999" initialState) = 99999 /\
  literatureNumLines (onChangeNumLines "99999" initialState) <> 5000.
Proof. repeat split; try reflexivity; vm_compute; discriminate. Qed.

(** C8 as first stated: on three lines with a page of one, from
    cursor 0, the presses reach the cursors 1 and 2 and then fail; the
    last cursor reached, 2, has [2 + pageSize = 3], which is not below
    the three lines of the text. *)
Lemma nextPage_final_cursor_counterexample :
  let abc := joinLines ["a"; "b"; "c"]%string in
  let s := withLiterature "t.txt" abc "a" 1 (Some 1) in
  exists s1 s2,
    pressNextLines 3 s = Some ([s1; s2], ReachedEndOfText) /\
    cursor s1 = Some 1 /\ cursor s2 = Some 2 /\
    ~ (2 + numLines s2 < Z.of_nat (length (linesOf abc))).
Proof.
  intros abc s.
  exists (positioned (linesOf abc) 1 s),
         (positioned (linesOf abc) 2 (positioned (linesOf abc) 1 s)).
  split; [vm_compute; reflexivity|].
  split; [reflexivity|]. split; [reflexivity|]. vm_compute. discriminate.
Qed.

(** * Further properties of the handlers *)

(** ** Find next *)

Lemma firstFrom_first (lines : list string) (needle : string) (i r m : Z) :
  firstFrom lines needle i r -> i <= m -> lineMatches lines needle m = true ->
  i <= r <= m.
Proof.
  intros [[-> Hr]|(Hin & Hm & Hr)] Him Mm.
  - rewrite Hr in Mm by lia. discriminate.
  - split; [lia|]. destruct (Z_le_gt_dec r m); [assumption|].
    rewrite Hr in Mm by lia. discriminate.
Qed.

Lemma findNextLiterature_nextStart (s : State) :
  findNextLiterature s =
  match searchLiterature (nextStart s) s with
  | Return s' a _ => Return s' a tt
  | Uncaught => Uncaught
  end.
Proof. unfold findNextLiterature, nextStart. destruct (foundLineTruthy s); reflexivity. Qed.

Lemma findNextLiterature_outcome (s : State) (content : string) :
  literatureContent s = Some content ->
  JS.trim (literatureSearchTerm s) <> EmptyString ->
  0 <= nextStart s ->
  exists r,
    firstFrom (linesOf content) (needleOf (literatureSearchTerm s)) (nextStart s) r /\
    findNextLiterature s =
    if r =? -1 then
      Return s (Some (if nextStart s =? 0
                      then NotFoundInText (literatureSearchTerm s)
                      else NoMoreOccurrences)) tt
    else Return (positioned (linesOf content) r s) None tt.
Proof.
  intros Hc Ht Hs. rewrite findNextLiterature_nextStart.
  destruct (searchLiterature_outcome (nextStart s) s content Hc Ht Hs)
    as (r & Hr & ->).
  exists r. split; [exact Hr|]. destruct (r =? -1); reflexivity.
Qed.

Lemma nextStart_index (s : State) (c : Z) :
  literatureFoundLine s = Some (c + 1) -> 0 <= c -> nextStart s = c + 1.
Proof.
  intros Hf Hc. unfold nextStart. rewrite (foundLineTruthy_index s c Hf Hc).
  reflexivity.
Qed.

(** X1: With the cursor on line [c], find next looks at the lines after
    [c] only: it moves to the first of them that matches, and when
    none does it alerts 'No more occurrences found', a [NotFound], and
    leaves the state as it was. *)
Theorem findNext_after_cursor (s : State) (content : string) (c : Z) :
  literatureContent s = Some content ->
  JS.trim (literatureSearchTerm s) <> EmptyString ->
  literatureFoundLine s = Some (c + 1) ->
  0 <= c ->
  let lines := linesOf content in
  let needle := JS.trim (JS.toLowerCase (literatureSearchTerm s)) in
  (forall i, c < i -> lineMatches lines needle i = true ->
     exists m,
       c < m <= i /\ lineMatches lines needle m = true /\
       (forall j, c < j < m -> lineMatches lines needle j = false) /\
       findNextLiterature s = Return (positioned lines m s) None tt /\
       cursor (positioned lines m s) = Some m) /\
  ((forall i, c < i -> lineMatches lines needle i = false) ->
     findNextLiterature s = Return s (Some NoMoreOccurrences) tt).
Proof.
  intros Hc Ht Hf Hpos lines needle.
  pose proof (nextStart_index s c Hf Hpos) as Hs.
  destruct (findNextLiterature_outcome s content Hc Ht) as (r & Hr & Hrun);
    [lia|].
  rewrite Hs in Hr, Hrun. fold lines in Hr, Hrun.
  change (needleOf (literatureSearchTerm s)) with needle in Hr.
  split.
  - intros i Hi Mi.
    pose proof (firstFrom_first lines needle (c + 1) r i Hr ltac:(lia) Mi) as Hri.
    destruct Hr as [[-> _]|(Hin & Hm & Hmin)]; [lia|].
    exists r. destruct (Z.eqb_spec r (-1)); [lia|].
    split; [lia|]. split; [exact Hm|]. split.
    + intros j Hj. apply Hmin. lia.
    + split; [exact Hrun | apply cursor_positioned; lia].
  - intros Hnone. destruct Hr as [[-> _]|(Hin & Hm & _)].
    + rewrite Hrun. cbn. destruct (Z.eqb_spec (c + 1) 0); [lia | reflexivity].
    + rewrite Hnone in Hm by lia. discriminate.
Qed.

Lemma findNext_after_cursor_witness :
  let s := withLiterature "t.txt" greek "beta" 2 (Some 2) in
  literatureContent s = Some greek /\
  JS.trim (literatureSearchTerm s) <> EmptyString /\
  literatureFoundLine s = Some (1 + 1) /\ 0 <= 1 /\
  (exists m, 1 < m <= 3 /\
     findNextLiterature s = Return (positioned (linesOf greek) m s) None tt) /\
  (let s3 := withLiterature "t.txt" greek "beta" 2 (Some 4) in
   findNextLiterature s3 = Return s3 (Some NoMoreOccurrences) tt).
Proof.
  intros s.
  assert (Hc : literatureContent s = Some greek) by (vm_compute; reflexivity).
  assert (Ht : JS.trim (literatureSearchTerm s) <> EmptyString)
    by (vm_compute; discriminate).
  assert (Hf : literatureFoundLine s = Some (1 + 1)) by reflexivity.
  assert (H1 : 0 <= 1) by lia.
  split; [exact Hc|]. split; [exact Ht|]. split; [exact Hf|]. split; [exact H1|].
  split.
  - destruct (proj1 (findNext_after_cursor s greek 1 Hc Ht Hf H1) 3)
      as (m & Hm & _ & _ & Hrun & _); [lia | vm_compute; reflexivity |].
    exists m. split; [exact Hm | exact Hrun].
  - intros s3.
    assert (Hc3 : literatureContent s3 = Some greek) by (vm_compute; reflexivity).
    assert (Ht3 : JS.trim (literatureSearchTerm s3) <> EmptyString)
      by (vm_compute; discriminate).
    assert (Hf3 : literatureFoundLine s3 = Some (3 + 1)) by reflexivity.
    assert (H3 : 0 <= 3) by lia.
    apply (proj2 (findNext_after_cursor s3 greek 3 Hc3 Ht3 Hf3 H3)).
    intros i Hi. apply lineMatches_out. right.
    change (length (linesOf greek)) with 4%nat. lia.
Defined.

(** ** Next and Prev undo each other *)

Lemma lastUpTo_last (lines : list string) (needle : string) (i r m : Z) :
  lastUpTo lines needle i r -> 0 <= m <= i -> lineMatches lines needle m = true ->
  m <= r <= i.
Proof.
  intros [[-> Hr]|(Hin & Hm & Hr)] Hmi Mm.
  - rewrite Hr in Mm by lia. discriminate.
  - split; [|lia]. destruct (Z_le_gt_dec m r); [assumption|].
    rewrite Hr in Mm by lia. discriminate.
Qed.

(** X2: When the cursor is on a line that matches the term, a successful
    find next followed by find previous, and a successful find
    previous followed by find next, both come back to that line: the
    cursor is [c] again and the display is the window at [c]. *)
Theorem next_prev_round_trip (s s1 : State) (content : string) (c : Z) :
  literatureContent s = Some content ->
  literatureFoundLine s = Some (c + 1) ->
  0 <= c < Z.of_nat (length (linesOf content)) ->
  lineMatches (linesOf content)
    (JS.trim (JS.toLowerCase (literatureSearchTerm s))) c = true ->
  (findNextLiterature s = Return s1 None tt ->
   findPrevLiterature s1 = Return (positioned (linesOf content) c s) None tt) /\
  (findPrevLiterature s = Return s1 None tt ->
   findNextLiterature s1 = Return (positioned (linesOf content) c s) None tt).
Proof.
  intros Hc Hf Hin Mc. fold (needleOf (literatureSearchTerm s)) in Mc.
  assert (Hrange : cursorInRange s).
  { unfold cursorInRange. rewrite Hf. exists content. split; [exact Hc | lia]. }
  split.
  - intros Hnext.
    assert (Ht : JS.trim (literatureSearchTerm s) <> EmptyString).
    { rewrite findNextLiterature_nextStart in Hnext.
      destruct (searchLiterature (nextStart s) s) as [s' a r|] eqn:E; [|discriminate].
      inversion Hnext; subst.
      destruct (searchLiterature_success _ _ _ _ E) as (content' & _ & Ht & _).
      exact Ht. }
    pose proof (nextStart_index s c Hf ltac:(lia)) as Hs.
    destruct (findNextLiterature_outcome s content Hc Ht) as (r & Hr & Hrun); [lia|].
    rewrite Hs in Hr. rewrite Hrun in Hnext.
    destruct (Z.eqb_spec r (-1)); [discriminate|].
    inversion Hnext; subst s1.
    destruct Hr as [[? _]|(Hr & Hm & Hmin)]; [lia|].
    assert (Hin1 : cursorInRange (positioned (linesOf content) r s))
      by (apply positioned_inRange; [exact Hc | lia]).
    destruct (findPrevLiterature_outcome (positioned (linesOf content) r s)
                content Hc Ht Hin1) as (r0 & Hr0 & Hrun0).
    rewrite Hrun0. unfold backwardStart in Hr0.
    rewrite cursor_positioned in Hr0 by lia.
    change (literatureSearchTerm (positioned (linesOf content) r s))
      with (literatureSearchTerm s) in Hr0.
    pose proof (lastUpTo_last _ _ _ _ c Hr0 ltac:(lia) Mc) as Hcr0.
    destruct Hr0 as [[? _]|(Hr0 & Hm0 & _)]; [lia|].
    assert (r0 = c).
    { destruct (Z.eq_dec r0 c); [assumption|].
      rewrite Hmin in Hm0 by lia. discriminate. }
    subst r0. destruct (Z.eqb_spec c (-1)); [lia | reflexivity].
  - intros Hprev.
    destruct (findPrevLiterature_success s s1 tt Hrange Hprev)
      as (content' & r0 & Hc' & Hr0 & Hlt0 & Hm0 & ->).
    rewrite Hc in Hc'. inversion Hc'; subst content'.
    assert (Ht : JS.trim (literatureSearchTerm s) <> EmptyString).
    { unfold findPrevLiterature in Hprev. rewrite Hc in Hprev.
      destruct (JS.truthy (JS.trim (literatureSearchTerm s))) eqn:E;
        [apply JSFacts.truthy_true, E | discriminate]. }
    destruct (findPrevLiterature_outcome s content Hc Ht Hrange) as (r1 & Hr1 & Hrun1).
    rewrite Hrun1 in Hprev. destruct (Z.eqb_spec r1 (-1)); [discriminate|].
    assert (r1 = r0).
    { assert (Heq : positioned (linesOf content) r1 s =
                    positioned (linesOf content) r0 s) by congruence.
      apply (f_equal literatureFoundLine) in Heq. cbn in Heq.
      assert (r1 + 1 = r0 + 1) by congruence. lia. }
    subst r1. unfold backwardStart, cursor in Hr1.
    rewrite (foundLineTruthy_index s c Hf ltac:(lia)) in Hr1. cbn in Hr1.
    destruct Hr1 as [[? _]|(Hr1 & _ & Hmax)]; [lia|].
    set (s1 := positioned (linesOf content) r0 s).
    assert (Hs1 : nextStart s1 = r0 + 1)
      by (apply nextStart_index; [reflexivity | lia]).
    destruct (findNextLiterature_outcome s1 content Hc Ht) as (r & Hr & Hrun); [lia|].
    rewrite Hs1 in Hr. rewrite Hrun.
    change (literatureSearchTerm s1) with (literatureSearchTerm s) in Hr.
    pose proof (firstFrom_first _ _ _ _ c Hr ltac:(lia) Mc) as Hrc.
    destruct Hr as [[? _]|(Hr & Hm & _)]; [lia|].
    assert (r = c).
    { destruct (Z.eq_dec r c); [assumption|].
      rewrite Hmax in Hm by lia. discriminate. }
    subst r. destruct (Z.eqb_spec c (-1)); [lia | reflexivity].
Qed.

Lemma next_prev_round_trip_witness :
  let s := withLiterature "t.txt" greek "beta" 2 (Some 2) in
  let s3 := withLiterature "t.txt" greek "beta" 2 (Some 4) in
  findNextLiterature s = Return (positioned (linesOf greek) 3 s) None tt /\
  findPrevLiterature (positioned (linesOf greek) 3 s) =
    Return (positioned (linesOf greek) 1 s) None tt /\
  findPrevLiterature s3 = Return (positioned (linesOf greek) 1 s3) None tt /\
  findNextLiterature (positioned (linesOf greek) 1 s3) =
    Return (positioned (linesOf greek) 3 s3) None tt.
Proof.
  intros s s3.
  assert (Hc : literatureContent s = Some greek) by (vm_compute; reflexivity).
  assert (Hf : literatureFoundLine s = Some (1 + 1)) by reflexivity.
  assert (Hin : 0 <= 1 < Z.of_nat (length (linesOf greek)))
    by (vm_compute; split; [discriminate | reflexivity]).
  assert (Hm : lineMatches (linesOf greek)
                 (JS.trim (JS.toLowerCase (literatureSearchTerm s))) 1 = true)
    by (vm_compute; reflexivity).
  assert (Hn : findNextLiterature s = Return (positioned (linesOf greek) 3 s) None tt)
    by (vm_compute; reflexivity).
  assert (Hc3 : literatureContent s3 = Some greek) by (vm_compute; reflexivity).
  assert (Hf3 : literatureFoundLine s3 = Some (3 + 1)) by reflexivity.
  assert (Hin3 : 0 <= 3 < Z.of_nat (length (linesOf greek)))
    by (vm_compute; split; [discriminate | reflexivity]).
  assert (Hm3 : lineMatches (linesOf greek)
                  (JS.trim (JS.toLowerCase (literatureSearchTerm s3))) 3 = true)
    by (vm_compute; reflexivity).
  assert (Hp : findPrevLiterature s3 = Return (positioned (linesOf greek) 1 s3) None tt)
    by (vm_compute; reflexivity).
  split; [exact Hn|]. split.
  - exact (proj1 (next_prev_round_trip s _ greek 1 Hc Hf Hin Hm) Hn).
  - split; [exact Hp|].
    exact (proj2 (next_prev_round_trip s3 _ greek 3 Hc3 Hf3 Hin3 Hm3) Hp).
Defined.

(** ** Find next visits every occurrence *)

Lemma filter_none {A} (f : A -> bool) (l : list A) :
  Forall (fun x => f x = false) l -> List.filter f l = [].
Proof.
  induction 1 as [|x l Hx _ IH]; [reflexivity|].
  cbn [List.filter]. rewrite Hx. exact IH.
Qed.

Lemma matchingFrom_none (lines : list string) (needle : string) (start : Z) :
  (forall j, start <= j -> lineMatches lines needle j = false) ->
  matchingFrom lines needle start = [].
Proof.
  intros H. apply filter_none, Forall_seqZ. intros j Hj. apply H. lia.
Qed.

Lemma matchingFrom_first (lines : list string) (needle : string) (start r : Z) :
  start <= r < Z.of_nat (length lines) ->
  lineMatches lines needle r = true ->
  (forall j, start <= j < r -> lineMatches lines needle j = false) ->
  matchingFrom lines needle start = r :: matchingFrom lines needle (r + 1).
Proof.
  intros Hr Hm Hmin. unfold matchingFrom.
  replace (Z.of_nat (length lines) - start)
    with ((r - start) + (Z.of_nat (length lines) - r)) by lia.
  rewrite seqZ_app by lia. rewrite List.filter_app.
  rewrite (filter_none _ (seqZ start (r - start)))
    by (apply Forall_seqZ; intros j Hj; apply Hmin; lia).
  replace (start + (r - start)) with r by lia.
  rewrite (seqZ_cons r) by lia. cbn [List.filter app]. rewrite Hm.
  f_equal. f_equal. f_equal; lia.
Qed.

Lemma pressNext_run (content : string) (n : nat) :
  forall s : State,
  literatureContent s = Some content ->
  JS.trim (literatureSearchTerm s) <> EmptyString ->
  0 <= nextStart s ->
  Z.of_nat (length (linesOf content)) - nextStart s <= Z.of_nat n ->
  exists (visited : list State) (a : Alert),
    (forall fuel, (length visited < fuel)%nat ->
       pressNext fuel s = Some (visited, a)) /\
    failureOf a = NotFound /\
    map cursor visited =
    map Some (matchingFrom (linesOf content) (needleOf (literatureSearchTerm s))
                (nextStart s)).
Proof.
  induction n as [|n IH]; intros s Hc Ht Hs Hn;
    destruct (findNextLiterature_outcome s content Hc Ht Hs) as (r & Hr & Hrun);
    destruct Hr as [[-> Hnone]|(Hr & Hm & Hmin)]; try lia.
  1, 2: eexists [], _; split; [|split];
    [ intros [|fuel] Hfuel; [cbn in Hfuel; lia|];
      cbn [pressNext]; rewrite Hrun; reflexivity
    | cbn; destruct (nextStart s =? 0); reflexivity
    | rewrite matchingFrom_none by exact Hnone; reflexivity ].
  set (s1 := positioned (linesOf content) r s).
  assert (Hs1 : nextStart s1 = r + 1)
    by (apply nextStart_index; [reflexivity | lia]).
  destruct (IH s1 Hc Ht) as (visited & a & Hfuel & Ha & Hcur); [lia | lia |].
  rewrite Hs1 in Hcur.
  change (literatureSearchTerm s1) with (literatureSearchTerm s) in Hcur.
  exists (s1 :: visited), a. split; [|split; [exact Ha|]].
  - intros [|fuel] Hlt; [cbn in Hlt; lia|]. cbn [pressNext]. rewrite Hrun.
    destruct (Z.eqb_spec r (-1)); [lia|]. fold s1.
    rewrite Hfuel by (cbn in Hlt; lia). reflexivity.
  - rewrite (matchingFrom_first _ _ (nextStart s) r) by (assumption || lia).
    cbn [map]. rewrite Hcur. f_equal. apply cursor_positioned. lia.
Qed.

(** X3: On a loaded text with a term that is not blank, pressing find next
    until it alerts stops with a [NotFound] alert after visiting, in
    ascending order and once each, exactly the lines that match from
    the start line on: all of them when no line was found yet, those
    after the cursor otherwise. *)
Theorem findNext_visits_every_match (s : State) (content : string) :
  literatureContent s = Some content ->
  JS.trim (literatureSearchTerm s) <> EmptyString ->
  0 <= nextStart s ->
  exists (visited : list State) (a : Alert),
    (forall fuel, (length visited < fuel)%nat ->
       pressNext fuel s = Some (visited, a)) /\
    failureOf a = NotFound /\
    map cursor visited =
    map Some (matchingFrom (linesOf content)
                (JS.trim (JS.toLowerCase (literatureSearchTerm s))) (nextStart s)) /\
    (literatureFoundLine s = None -> nextStart s = 0) /\
    (forall c, literatureFoundLine s = Some (c + 1) -> 0 <= c -> nextStart s = c + 1).
Proof.
  intros Hc Ht Hs.
  destruct (pressNext_run content
              (Z.to_nat (Z.of_nat (length (linesOf content)) - nextStart s))
              s Hc Ht Hs) as (visited & a & Hrun & Ha & Hcur); [lia|].
  exists visited, a. split; [exact Hrun|]. split; [exact Ha|].
  split; [exact Hcur|]. split.
  - intros Hf. unfold nextStart, foundLineTruthy. rewrite Hf. reflexivity.
  - intros c Hf Hpos. apply nextStart_index; assumption.
Qed.

Lemma findNext_visits_every_match_witness :
  let s := withLiterature "t.txt" greek "beta" 2 None in
  literatureContent s = Some greek /\
  JS.trim (literatureSearchTerm s) <> EmptyString /\
  0 <= nextStart s /\
  matchingFrom (linesOf greek)
    (JS.trim (JS.toLowerCase (literatureSearchTerm s))) (nextStart s) = [1; 3] /\
  exists (visited : list State) (a : Alert),
    pressNext 3 s = Some (visited, a) /\
    failureOf a = NotFound /\
    map cursor visited = [Some 1; Some 3].
Proof.
  intros s.
  assert (Hc : literatureContent s = Some greek) by (vm_compute; reflexivity).
  assert (Ht : JS.trim (literatureSearchTerm s) <> EmptyString)
    by (vm_compute; discriminate).
  assert (Hs : 0 <= nextStart s) by (vm_compute; discriminate).
  assert (Hm : matchingFrom (linesOf greek)
                 (JS.trim (JS.toLowerCase (literatureSearchTerm s))) (nextStart s)
               = [1; 3]) by (vm_compute; reflexivity).
  split; [exact Hc|]. split; [exact Ht|]. split; [exact Hs|]. split; [exact Hm|].
  destruct (findNext_visits_every_match s greek Hc Ht Hs)
    as (visited & a & Hrun & Ha & Hcur & _).
  rewrite Hm in Hcur.
  assert (Hlen : length visited = 2%nat).
  { apply (f_equal length) in Hcur. rewrite length_map in Hcur. exact Hcur. }
  exists visited, a. split; [apply Hrun; rewrite Hlen; lia|].
  split; [exact Ha | exact Hcur].
Defined.

(** ** The display follows the cursor *)

Lemma window_nonempty (lines : list string) (start width : Z) :
  0 <= start < Z.of_nat (length lines) -> 1 <= width ->
  window lines start width <> [].
Proof.
  intros Hs Hw E. apply (f_equal length) in E. unfold window in E.
  rewrite length_take, length_drop in E. cbn in E. lia.
Qed.

Lemma shownLines_positioned (content : string) (r : Z) (s : State) :
  0 <= r < Z.of_nat (length (linesOf content)) ->
  shownLines (positioned (linesOf content) r s) =
  window (linesOf content) r (numLines s).
Proof.
  intros Hr. unfold shownLines, positioned. cbn. unfold linesOf at 1, joinLines.
  apply JSFacts.split_join.
  - apply window_nonempty; [exact Hr | apply numLines_bounds].
  - unfold window. apply Forall_take, Forall_drop, JSFacts.split_free.
Qed.

(** X4: A handler that builds a display from a state whose cursor, if
    set, is in range leaves the display in step with the cursor: the
    text on display, split at its line feeds, is exactly the lines of
    the literature text from the new cursor [r] on, [pageSize] of them
    or as many as are left; its first line is line [r]. *)
Theorem display_follows_cursor (s s' : State) :
  cursorInRange s -> displays s s' ->
  exists content r,
    literatureContent s' = Some content /\
    cursor s' = Some r /\
    0 <= r < Z.of_nat (length (linesOf content)) /\
    shownLines s' = take (Z.to_nat (numLines s)) (drop (Z.to_nat r) (linesOf content)) /\
    Z.of_nat (length (shownLines s')) =
      Z.min (numLines s) (Z.of_nat (length (linesOf content)) - r) /\
    shownLines s' !! 0%nat = linesOf content !! Z.to_nat r.
Proof.
  intros Hin Hd.
  assert (H : exists content r,
             literatureContent s = Some content /\
             0 <= r < Z.of_nat (length (linesOf content)) /\
             s' = positioned (linesOf content) r s).
  { destruct Hd as [(k & r & H)|[H|H]].
    - destruct (searchLiterature_success _ _ _ _ H)
        as (content & Hc & _ & Hr & Hlt & _ & _ & ->).
      exists content, r. split; [exact Hc|]. split; [lia | reflexivity].
    - destruct (findPrevLiterature_success _ _ _ Hin H)
        as (content & r & Hc & Hr & Hlt & _ & ->).
      exists content, r. split; [exact Hc|]. split; [lia | reflexivity].
    - destruct (nextLinesLiterature_success _ _ _ Hin H)
        as (content & c & Hc & _ & Hc0 & Hlt & ->).
      pose proof (numLines_bounds s).
      exists content, (c + numLines s). split; [exact Hc|]. split; [lia | reflexivity]. }
  destruct H as (content & r & Hc & Hr & ->).
  pose proof (numLines_bounds s) as Hp.
  exists content, r. split; [exact Hc|].
  split; [apply cursor_positioned; lia|]. split; [exact Hr|].
  rewrite (shownLines_positioned content r s Hr). unfold window.
  split; [reflexivity|]. split.
  - rewrite length_take, length_drop. lia.
  - rewrite lookup_take_lt by lia. rewrite lookup_drop. f_equal. lia.
Qed.

Lemma display_follows_cursor_witness :
  let s := withLiterature "t.txt" greek "beta" 2 None in
  let s' := positioned (linesOf greek) 1 s in
  cursorInRange s /\ displays s s' /\
  exists content r,
    literatureContent s' = Some content /\ cursor s' = Some r /\
    shownLines s' = take (Z.to_nat (numLines s)) (drop (Z.to_nat r) (linesOf content)).
Proof.
  intros s s'.
  assert (Hin : cursorInRange s) by exact I.
  assert (Hd : displays s s') by (left; exists 0, 1; vm_compute; reflexivity).
  split; [exact Hin|]. split; [exact Hd|].
  destruct (display_follows_cursor s s' Hin Hd)
    as (content & r & Hc & Hcur & _ & Hshown & _).
  exists content, r. split; [exact Hc|]. split; [exact Hcur | exact Hshown].
Defined.

(** ** Reading on to the end *)

Lemma pressNextLines_shown (content : string) (fuel : nat) :
  forall (s : State) (c : Z) (visited : list State) (a : Alert),
  literatureContent s = Some content ->
  literatureFoundLine s = Some (c + 1) -> 0 <= c ->
  pressNextLines fuel s = Some (visited, a) ->
  concat (map shownLines visited) =
  drop (Z.to_nat (c + numLines s)) (linesOf content).
Proof.
  induction fuel as [|fuel IH]; intros s c visited a Hc Hf Hpos Hrun;
    [discriminate|].
  pose proof (numLines_bounds s) as Hp.
  cbn [pressNextLines] in Hrun.
  rewrite (nextLinesLiterature_at s content c Hc Hf Hpos) in Hrun.
  destruct (Z.leb_spec (Z.of_nat (length (linesOf content))) (c + numLines s)).
  - inversion Hrun; subst. cbn. rewrite drop_ge by lia. reflexivity.
  - set (s1 := positioned (linesOf content) (c + numLines s) s) in *.
    destruct (pressNextLines fuel s1) as [[visited' a']|] eqn:E; [|discriminate].
    inversion Hrun; subst. cbn [map concat].
    rewrite (IH s1 (c + numLines s) visited' a Hc eq_refl ltac:(lia) E).
    change (numLines s1) with (numLines s).
    unfold s1. rewrite shownLines_positioned by lia. unfold window.
    replace (Z.to_nat (c + numLines s + numLines s))
      with (Z.to_nat (c + numLines s) + Z.to_nat (numLines s))%nat by lia.
    rewrite <- drop_drop. apply take_drop.
Qed.

(** X5: Next lines reads straight on: when the display holds the window at
    the cursor [c], the display together with the displays of the
    presses of next lines up to the [EndOfText] alert, one after the
    other, are the lines of the text from [c] to its end, each line
    once and in order. *)
Theorem nextLines_reads_to_the_end
    (s : State) (content : string) (c : Z) (fuel : nat)
    (visited : list State) (a : Alert) :
  literatureContent s = Some content ->
  literatureFoundLine s = Some (c + 1) ->
  0 <= c < Z.of_nat (length (linesOf content)) ->
  literatureDisplayContent s =
    Some (joinLines (window (linesOf content) c (numLines s))) ->
  pressNextLines fuel s = Some (visited, a) ->
  concat (map shownLines (s :: visited)) = drop (Z.to_nat c) (linesOf content) /\
  a = ReachedEndOfText.
Proof.
  intros Hc Hf Hin Hd Hrun. split.
  - cbn [map concat].
    rewrite (pressNextLines_shown content fuel s c visited a Hc Hf ltac:(lia) Hrun).
    assert (Hs : shownLines s = window (linesOf content) c (numLines s)).
    { rewrite <- (shownLines_positioned content c s Hin).
      unfold shownLines, positioned. rewrite Hd. reflexivity. }
    rewrite Hs. unfold window. pose proof (numLines_bounds s).
    replace (Z.to_nat (c + numLines s))
      with (Z.to_nat c + Z.to_nat (numLines s))%nat by lia.
    rewrite <- drop_drop. apply take_drop.
  - destruct (pressNextLines_run content
                (Z.to_nat (Z.of_nat (length (linesOf content)) - c)) s c Hc Hf)
      as (k & visited' & Hrun' & _); [lia | lia |].
    specialize (Hrun' (S (k + fuel)) ltac:(lia)).
    (* more fuel does not change a run that ended *)
    assert (Hmono : forall f s0 v b, pressNextLines f s0 = Some (v, b) ->
                      forall g, (f <= g)%nat -> pressNextLines g s0 = Some (v, b)).
    { clear. induction f as [|f IH]; intros s0 v b H g Hg; [discriminate|].
      destruct g as [|g]; [lia|]. cbn [pressNextLines] in *.
      destruct (nextLinesLiterature s0) as [s1 [a1|] r1|]; try exact H.
      destruct (pressNextLines f s1) as [[v1 b1]|] eqn:E; [|discriminate].
      rewrite (IH s1 v1 b1 E g) by lia. exact H. }
    rewrite (Hmono fuel s visited a Hrun (S (k + fuel))) in Hrun' by lia.
    congruence.
Qed.

Lemma nextLines_reads_to_the_end_witness :
  let s := positioned (linesOf greek) 1 (withLiterature "t.txt" greek "beta" 2 None) in
  let s3 := positioned (linesOf greek) 3 s in
  literatureContent s = Some greek /\
  literatureFoundLine s = Some (1 + 1) /\
  0 <= 1 < Z.of_nat (length (linesOf greek)) /\
  pressNextLines 2 s = Some ([s3], ReachedEndOfText) /\
  concat (map shownLines [s; s3]) = drop (Z.to_nat 1) (linesOf greek).
Proof.
  intros s s3.
  assert (Hc : literatureContent s = Some greek) by (vm_compute; reflexivity).
  assert (Hf : literatureFoundLine s = Some (1 + 1)) by reflexivity.
  assert (Hin : 0 <= 1 < Z.of_nat (length (linesOf greek)))
    by (vm_compute; split; [discriminate | reflexivity]).
  assert (Hd : literatureDisplayContent s =
               Some (joinLines (window (linesOf greek) 1 (numLines s))))
    by reflexivity.
  assert (Hrun : pressNextLines 2 s = Some ([s3], ReachedEndOfText))
    by (vm_compute; reflexivity).
  split; [exact Hc|]. split; [exact Hf|]. split; [exact Hin|]. split; [exact Hrun|].
  exact (proj1 (nextLines_reads_to_the_end s greek 1 2 [s3] ReachedEndOfText
                  Hc Hf Hin Hd Hrun)).
Defined.

(** ** The term's case does not matter *)

Lemma truthy_toLowerCase (s : string) : JS.truthy (JS.toLowerCase s) = JS.truthy s.
Proof. destruct s; reflexivity. Qed.

Lemma termGuard_lower (t : string) :
  JS.truthy (JS.trim t) = JS.truthy (needleOf t).
Proof.
  unfold needleOf. rewrite JSFacts.trim_toLowerCase, truthy_toLowerCase.
  reflexivity.
Qed.

(** X6: Two terms with the same lower-case form, such as ["Beta"] and
    ["BETA"], are searched alike: forward from any line and backward,
    the two runs return the same value, fail with the same kind of
    failure and leave the same found line and display. *)
Theorem search_ignores_case (t1 t2 : string) (s : State) :
  JS.toLowerCase t1 = JS.toLowerCase t2 ->
  (forall fromLine,
     sameBehaviour (searchLiterature fromLine (setLiteratureSearchTerm t1 s))
                   (searchLiterature fromLine (setLiteratureSearchTerm t2 s))) /\
  sameBehaviour (findPrevLiterature (setLiteratureSearchTerm t1 s))
                (findPrevLiterature (setLiteratureSearchTerm t2 s)).
Proof.
  intros Hl.
  assert (Hn : needleOf t1 = needleOf t2) by (unfold needleOf; rewrite Hl; reflexivity).
  assert (Hg : JS.truthy (JS.trim t1) = JS.truthy (JS.trim t2))
    by (rewrite !termGuard_lower, Hn; reflexivity).
  split.
  - intros fromLine. unfold searchLiterature.
    change (literatureContent (setLiteratureSearchTerm t1 s)) with (literatureContent s).
    change (literatureContent (setLiteratureSearchTerm t2 s)) with (literatureContent s).
    change (literatureSearchTerm (setLiteratureSearchTerm t1 s)) with t1.
    change (literatureSearchTerm (setLiteratureSearchTerm t2 s)) with t2.
    fold (needleOf t1). fold (needleOf t2). rewrite Hn, Hg.
    destruct (literatureContent s) as [content|]; [|same_behaviour].
    destruct (negb _); [same_behaviour|].
    destruct (forwardLoop _ _ _) as [i|]; [|exact I].
    destruct (i =? -1); [|same_behaviour].
    destruct (fromLine =? 0); same_behaviour.
  - unfold findPrevLiterature.
    change (literatureContent (setLiteratureSearchTerm t1 s)) with (literatureContent s).
    change (literatureContent (setLiteratureSearchTerm t2 s)) with (literatureContent s).
    change (literatureSearchTerm (setLiteratureSearchTerm t1 s)) with t1.
    change (literatureSearchTerm (setLiteratureSearchTerm t2 s)) with t2.
    change (foundLineTruthy (setLiteratureSearchTerm t1 s)) with (foundLineTruthy s).
    change (foundLineTruthy (setLiteratureSearchTerm t2 s)) with (foundLineTruthy s).
    fold (needleOf t1). fold (needleOf t2). rewrite Hn, Hg.
    destruct (literatureContent s) as [content|]; [|same_behaviour].
    destruct (negb _); [same_behaviour|].
    destruct (backwardLoop _ _ _) as [i|]; [|exact I].
    destruct (i =? -1); same_behaviour.
Qed.

Lemma search_ignores_case_witness :
  let s := withLiterature "t.txt" greek EmptyString 2 None in
  JS.toLowerCase "Beta" = JS.toLowerCase "BETA" /\
  sameBehaviour (searchLiterature 0 (setLiteratureSearchTerm "Beta" s))
                (searchLiterature 0 (setLiteratureSearchTerm "BETA" s)).
Proof.
  intros s.
  assert (Hl : JS.toLowerCase "Beta" = JS.toLowerCase "BETA") by reflexivity.
  split; [exact Hl|].
  exact (proj1 (search_ignores_case "Beta" "BETA" s Hl) 0).
Defined.

(** ** Go, pressed twice *)

(** X7: A forward search from line 0 that succeeded changes nothing when
    run again: the same line is found and the state stays as the first
    run left it. *)
Theorem search_from_top_idempotent (s s' : State) (r : Z) :
  searchLiterature 0 s = Return s' None r ->
  searchLiterature 0 s' = Return s' None r.
Proof.
  intros H.
  destruct (searchLiterature_success _ _ _ _ H)
    as (content & Hc & Ht & Hr & Hlt & Hm & Hmin & ->).
  destruct (searchLiterature_outcome 0 (positioned (linesOf content) r s)
              content Hc Ht ltac:(lia)) as (r0 & Hr0 & Hrun).
  change (literatureSearchTerm (positioned (linesOf content) r s))
    with (literatureSearchTerm s) in Hr0.
  pose proof (firstFrom_first _ _ _ _ r Hr0 ltac:(lia) Hm) as Hle.
  destruct Hr0 as [[? _]|(_ & Hm0 & _)]; [lia|].
  assert (r0 = r).
  { destruct (Z.eq_dec r0 r); [assumption|].
    rewrite Hmin in Hm0 by lia. discriminate. }
  subst r0. rewrite Hrun. destruct (Z.eqb_spec r (-1)); [lia | reflexivity].
Qed.

Lemma search_from_top_idempotent_witness :
  let s := withLiterature "t.txt" greek "beta" 2 (Some 4) in
  let s' := positioned (linesOf greek) 1 s in
  searchLiterature 0 s = Return s' None 1 /\
  searchLiterature 0 s' = Return s' None 1.
Proof.
  intros s s'.
  assert (H : searchLiterature 0 s = Return s' None 1) by (vm_compute; reflexivity).
  split; [exact H | exact (search_from_top_idempotent s s' 1 H)].
Defined.

(** ** The literature file is one of the reports *)

Lemma showFrom_reports (lines : list string) (r : Z) (s : State) :
  loadedReports (showFrom lines r s) = loadedReports s /\
  literatureFile (showFrom lines r s) = literatureFile s.
Proof. split; reflexivity. Qed.

Lemma searchLiterature_reports (k : Z) (s : State) :
  loadedReports (stateAfter (searchLiterature k s) s) = loadedReports s /\
  literatureFile (stateAfter (searchLiterature k s) s) = literatureFile s.
Proof.
  destruct (searchLiterature k s) as [s' [a|] r|] eqn:E; cbn.
  - destruct (searchLiterature_alert _ _ _ _ _ E) as (-> & _). auto.
  - destruct (searchLiterature_shows _ _ _ _ E) as (content & i & ->).
    apply showFrom_reports.
  - auto.
Qed.

Lemma findNextLiterature_reports (s : State) :
  loadedReports (stateAfter (findNextLiterature s) s) = loadedReports s /\
  literatureFile (stateAfter (findNextLiterature s) s) = literatureFile s.
Proof.
  rewrite findNextLiterature_nextStart.
  pose proof (searchLiterature_reports (nextStart s) s) as H.
  destruct (searchLiterature (nextStart s) s); exact H.
Qed.

Lemma findPrevLiterature_reports (s : State) :
  loadedReports (stateAfter (findPrevLiterature s) s) = loadedReports s /\
  literatureFile (stateAfter (findPrevLiterature s) s) = literatureFile s.
Proof.
  destruct (findPrevLiterature s) as [s' [a|] r|] eqn:E; cbn.
  - destruct (findPrevLiterature_alert _ _ _ _ E) as (-> & _). auto.
  - destruct (findPrevLiterature_shows _ _ _ E) as (content & i & ->).
    apply showFrom_reports.
  - auto.
Qed.

Lemma nextLinesLiterature_reports (s : State) :
  loadedReports (stateAfter (nextLinesLiterature s) s) = loadedReports s /\
  literatureFile (stateAfter (nextLinesLiterature s) s) = literatureFile s.
Proof.
  destruct (nextLinesLiterature s) as [s' [a|] r|] eqn:E; cbn.
  - destruct (nextLinesLiterature_alert _ _ _ _ E) as (-> & _). auto.
  - destruct (nextLinesLiterature_shows _ _ _ E) as (content & i & ->).
    apply showFrom_reports.
  - auto.
Qed.

Lemma literatureListed_same (s s' : State) :
  loadedReports s' = loadedReports s /\ literatureFile s' = literatureFile s ->
  literatureListed s -> literatureListed s'.
Proof. intros [Hr Hf] H f. rewrite Hr, Hf. apply H. Qed.

(** X8: No operation of the viewer leaves the literature file pointing at
    a report that is not loaded: if the literature file is one of the
    reports, it still is after any operation, provided the file a
    toggle names is one of the reports (the button exists for those
    only); and a removed report is neither loaded nor the literature
    file afterwards. *)
Theorem literature_file_stays_listed (a : Action) (s : State) :
  literatureListed s ->
  (forall f, a = Toggle f -> is_Some (loadedReports s !! f)) ->
  literatureListed (perform a s) /\
  (forall f, a = Remove f ->
     loadedReports (perform a s) !! f = None /\
     literatureFile (perform a s) <> Some f).
Proof.
  intros Hl Ht. split.
  - destruct a as [f|f| | | |k| | |]; cbn [perform].
    + unfold toggleLiterature. destruct (decide _) as [E|N].
      * intros g Hg. discriminate.
      * intros g Hg. cbn in Hg. inversion Hg; subst. cbn. apply Ht. reflexivity.
    + unfold removeReport. destruct (decide _) as [E|N].
      * intros g Hg. discriminate.
      * intros g Hg. cbn in *. rewrite lookup_delete_ne by congruence.
        apply Hl, Hg.
    + intros g Hg. discriminate.
    + exact Hl.
    + exact Hl.
    + apply (literatureListed_same s _ (searchLiterature_reports k s) Hl).
    + apply (literatureListed_same s _ (findNextLiterature_reports s) Hl).
    + apply (literatureListed_same s _ (findPrevLiterature_reports s) Hl).
    + apply (literatureListed_same s _ (nextLinesLiterature_reports s) Hl).
  - intros f ->. cbn [perform]. unfold removeReport. split.
    + cbn. apply lookup_delete_eq.
    + destruct (decide _) as [E|N]; cbn; congruence.
Qed.

Lemma literature_file_stays_listed_witness :
  let s := withLiterature "t.txt" greek "beta" 2 None in
  literatureListed s /\
  literatureListed (perform (Toggle "t.txt") s) /\
  loadedReports (perform (Remove "t.txt") s) !! "t.txt"%string = None /\
  literatureFile (perform (Remove "t.txt") s) <> Some "t.txt"%string.
Proof.
  intros s.
  assert (Hl : literatureListed s).
  { intros f Hf. inversion Hf; subst. exists greek. apply lookup_singleton_eq. }
  split; [exact Hl|]. split.
  - apply (literature_file_stays_listed (Toggle "t.txt") s Hl).
    intros f Hf. inversion Hf; subst. exists greek. apply lookup_singleton_eq.
  - apply (proj2 (literature_file_stays_listed (Remove "t.txt") s Hl
                    ltac:(intros f Hf; discriminate)) "t.txt" eq_refl).
Defined.

(** ** What goes to the chat *)

Lemma excludedFromChat_negb (s : State) (e : string * string) :
  excludedFromChat s e = negb (sentToChat s e).
Proof.
  unfold excludedFromChat, sentToChat. rewrite negb_andb, negb_involutive.
  f_equal. rewrite <- Z.ltb_antisym. reflexivity.
Qed.

Lemma filter_split_length {A} (f g : A -> bool) (l : list A) :
  (forall x, g x = negb (f x)) ->
  (length (List.filter f l) + length (List.filter g l) = length l)%nat.
Proof.
  intros H. induction l as [|x l IH]; [reflexivity|].
  cbn [List.filter]. rewrite H. destruct (f x); cbn [negb length]; lia.
Qed.

(** X9: Of the loaded reports, whichever order they are listed in, each is
    either sent to the chat or counted as excluded, never both: the two
    numbers add up to the number of reports.  A report is sent exactly
    when it is not the literature file and its text has at most
    [MAX_CHARS_FOR_CHAT] code units; so the literature file never is. *)
Theorem chat_reports_partition (entries : list (string * string)) (s : State) :
  entries ≡ₚ map_to_list (loadedReports s) ->
  Z.of_nat (length (getReportsForChat entries s)) + getExcludedFilesCount entries s =
    Z.of_nat (size (loadedReports s)) /\
  (forall f c,
     (f, c) ∈ getReportsForChat entries s <->
     loadedReports s !! f = Some c /\ literatureFile s <> Some f /\
     JSArray.strLength c <= MAX_CHARS_FOR_CHAT) /\
  (forall f c, literatureFile s = Some f -> (f, c) ∉ getReportsForChat entries s).
Proof.
  intros Hp.
  assert (Hiff : forall f c,
     (f, c) ∈ getReportsForChat entries s <->
     loadedReports s !! f = Some c /\ literatureFile s <> Some f /\
     JSArray.strLength c <= MAX_CHARS_FOR_CHAT).
  { intros f c. unfold getReportsForChat.
    rewrite list_elem_of_In, List.filter_In, <- list_elem_of_In, Hp.
    rewrite elem_of_map_to_list. unfold sentToChat. cbn [fst snd].
    rewrite andb_true_iff, negb_true_iff, bool_decide_eq_false, Z.leb_le.
    split; intros (H1 & H2 & H3); repeat split; try assumption; congruence. }
  split; [|split; [exact Hiff|]].
  - unfold getExcludedFilesCount, getReportsForChat.
    rewrite <- Nat2Z.inj_add.
    rewrite (filter_split_length _ _ entries (excludedFromChat_negb s)).
    rewrite Hp, length_map_to_list. reflexivity.
  - intros f c Hf Hin. apply Hiff in Hin. destruct Hin as (_ & Hne & _).
    contradiction.
Qed.

Lemma chat_reports_partition_witness :
  let s := mkState (<["notes.md"%string := "short"%string]> {[ "t.txt"%string := greek ]})
             (Some "t.txt"%string) EmptyString 500 None None in
  let entries := map_to_list (loadedReports s) in
  entries ≡ₚ map_to_list (loadedReports s) /\
  Z.of_nat (length (getReportsForChat entries s)) + getExcludedFilesCount entries s = 2 /\
  ("t.txt"%string, greek) ∉ getReportsForChat entries s.
Proof.
  intros s entries.
  assert (Hp : entries ≡ₚ map_to_list (loadedReports s)) by reflexivity.
  split; [exact Hp|].
  destruct (chat_reports_partition entries s Hp) as (Hsum & _ & Hlit).
  split.
  - rewrite Hsum. vm_compute. reflexivity.
  - apply Hlit. reflexivity.
Defined.

(** ** Objects as entry lists, and the sort *)

Module JSArrayFacts.
Import JSArray.

Lemma objSet_fresh (o : list (string * string)) (k v : string) :
  k ∉ o.*1 -> objSet o k v = o ++ [(k, v)].
Proof.
  induction o as [|[k' v'] o IH]; intros Hk; [reflexivity|].
  cbn [objSet]. cbn in Hk. apply not_elem_of_cons in Hk as [Hne Hk].
  destruct (String.eqb_spec k' k); [congruence|].
  rewrite (IH Hk). reflexivity.
Qed.

Lemma objSet_elem (o : list (string * string)) (k v k' v' : string) :
  (k', v') ∈ objSet o k v -> (k', v') ∈ o \/ (k', v') = (k, v).
Proof.
  induction o as [|[k0 v0] o IH]; cbn [objSet].
  - intros H. apply list_elem_of_singleton in H. auto.
  - destruct (String.eqb_spec k0 k) as [->|Hne]; intros H.
    + apply elem_of_cons in H as [H|H]; [auto|].
      left. apply elem_of_cons. auto.
    + apply elem_of_cons in H as [H|H].
      * left. apply elem_of_cons. auto.
      * destruct (IH H) as [H'|H']; [|auto]. left. apply elem_of_cons. auto.
Qed.

Lemma objSet_keys (o : list (string * string)) (k v k' : string) :
  k' ∈ (objSet o k v).*1 <-> k' ∈ o.*1 \/ k' = k.
Proof.
  induction o as [|[k0 v0] o IH]; cbn [objSet].
  - cbn. rewrite list_elem_of_singleton, elem_of_nil. tauto.
  - destruct (String.eqb_spec k0 k) as [->|Hne]; cbn.
    + rewrite !elem_of_cons. tauto.
    + rewrite !elem_of_cons, IH. tauto.
Qed.

Lemma objSet_lookup (o : list (string * string)) (k v : string) :
  (k, v) ∈ objSet o k v.
Proof.
  induction o as [|[k0 v0] o IH]; cbn [objSet].
  - apply list_elem_of_singleton. reflexivity.
  - destruct (String.eqb_spec k0 k) as [->|Hne]; apply elem_of_cons; auto.
Qed.

Lemma objSet_NoDup (o : list (string * string)) (k v : string) :
  NoDup o.*1 -> NoDup (objSet o k v).*1.
Proof.
  induction o as [|[k0 v0] o IH]; cbn [objSet]; intros Hnd.
  - cbn. apply NoDup_singleton.
  - cbn in Hnd. apply NoDup_cons in Hnd as [Hk0 Hnd].
    destruct (String.eqb_spec k0 k) as [->|Hne]; cbn.
    + apply NoDup_cons. auto.
    + apply NoDup_cons. split; [|apply IH, Hnd].
      rewrite objSet_keys. intros [H| ->]; [contradiction | congruence].
Qed.

Lemma insertBy_perm {A} (compareFn : A -> A -> Z) (x : A) (l : list A) :
  insertBy compareFn x l ≡ₚ x :: l.
Proof.
  induction l as [|y l IH]; [reflexivity|].
  cbn [insertBy]. destruct (_ <=? _); [reflexivity|].
  rewrite IH. apply Permutation_swap.
Qed.

(** The sort rearranges, it neither drops nor adds. *)
Lemma sort_perm {A} (compareFn : A -> A -> Z) (l : list A) :
  sort compareFn l ≡ₚ l.
Proof.
  induction l as [|x l IH]; [reflexivity|].
  cbn [sort]. rewrite insertBy_perm, IH. reflexivity.
Qed.

(** Sorted by a key, largest first, the head has the largest key. *)
Lemma sort_head_max {A} (key : A -> Z) (l : list A) (e : A) (rest : list A) :
  sort (fun a b => key b - key a) l = e :: rest ->
  forall x, x ∈ l -> key x <= key e.
Proof.
  revert e rest. induction l as [|y l IH]; intros e rest Hs x Hx.
  - apply elem_of_nil in Hx. contradiction.
  - cbn [sort] in Hs.
    destruct (sort (fun a b => key b - key a) l) as [|z zs] eqn:E.
    + assert (l = []).
      { pose proof (sort_perm (fun a b => key b - key a) l) as Hp.
        rewrite E in Hp. symmetry. apply Permutation_nil_l, Hp. }
      subst l. cbn in Hs. inversion Hs; subst.
      apply list_elem_of_singleton in Hx. subst. lia.
    + specialize (IH z zs eq_refl). cbn [insertBy] in Hs.
      destruct (Z.leb_spec (key z - key y) 0); inversion Hs; subst.
      * apply elem_of_cons in Hx as [->|Hx]; [lia|]. specialize (IH x Hx). lia.
      * apply elem_of_cons in Hx as [->|Hx]; [lia|]. apply IH, Hx.
Qed.

End JSArrayFacts.

Lemma collectReports_acc (entries acc : list (string * string)) :
  NoDup (acc ++ entries).*1 ->
  foldl (fun o e => JSArray.objAssign o e.1 e.2) acc entries = acc ++ copied entries.
Proof.
  revert acc. induction entries as [|[k v] entries IH]; intros acc Hnd.
  - cbn. rewrite app_nil_r. reflexivity.
  - cbn [foldl fst snd]. unfold JSArray.objAssign at 2.
    unfold copied. cbn [List.filter fst].
    destruct (String.eqb k "__proto__") eqn:Ek; cbn [negb].
    + apply IH. rewrite fmap_app in *. rewrite fmap_cons in Hnd.
      apply NoDup_app in Hnd as (Ha & Hd & He).
      apply NoDup_app. split; [exact Ha|]. split.
      * intros x Hx Hin. apply (Hd x Hx). apply elem_of_cons. auto.
      * apply NoDup_cons in He as [_ He]. exact He.
    + rewrite fmap_app in Hnd.
      rewrite JSArrayFacts.objSet_fresh.
      * rewrite IH; rewrite <- app_assoc; [reflexivity|].
        rewrite fmap_app. exact Hnd.
      * apply NoDup_app in Hnd as (_ & Hd & _). intros Hk.
        apply (Hd k Hk). cbn. apply elem_of_cons. auto.
Qed.

(** Copying a parsed object key by key gives its entries back, in
    order, but for the one of [__proto__]. *)
Lemma collectReports_NoDup (entries : list (string * string)) :
  NoDup entries.*1 -> collectReports entries = copied entries.
Proof. intros H. unfold collectReports. rewrite collectReports_acc; auto. Qed.

Lemma copied_elem (entries : list (string * string)) (f c : string) :
  (f, c) ∈ copied entries <-> (f, c) ∈ entries /\ f <> "__proto__"%string.
Proof.
  unfold copied. rewrite list_elem_of_In, List.filter_In, <- list_elem_of_In.
  cbn [fst]. destruct (String.eqb_spec f "__proto__"); cbn [negb]; intuition congruence.
Qed.

Lemma copied_NoDup (entries : list (string * string)) :
  NoDup entries.*1 -> NoDup (copied entries).*1.
Proof.
  unfold copied. induction entries as [|[k v] entries IH]; cbn [List.filter fst].
  - auto.
  - rewrite fmap_cons. intros Hnd. apply NoDup_cons in Hnd as [Hk Hnd].
    destruct (String.eqb k "__proto__"); cbn [negb]; [apply IH, Hnd|].
    rewrite fmap_cons. apply NoDup_cons. split; [|apply IH, Hnd].
    cbn [fst]. intros Hin. apply Hk.
    apply list_elem_of_fmap in Hin as ([k' v'] & -> & Hin).
    apply list_elem_of_In, List.filter_In in Hin as [Hin _].
    apply list_elem_of_fmap. exists (k', v'). split; [reflexivity|].
    apply list_elem_of_In, Hin.
Qed.

Lemma largeFiles_head (newReports : list (string * string))
    (e : string * string) (rest : list (string * string)) :
  largeFiles newReports = e :: rest ->
  e ∈ newReports /\ MAX_CHARS_FOR_CHAT < JSArray.strLength e.2 /\
  forall x, x ∈ newReports -> JSArray.strLength x.2 <= JSArray.strLength e.2.
Proof.
  intros H. unfold largeFiles in H.
  assert (He : e ∈ List.filter
                 (fun e => MAX_CHARS_FOR_CHAT <? JSArray.strLength e.2) newReports).
  { rewrite <- (JSArrayFacts.sort_perm
                  (fun a b => JSArray.strLength b.2 - JSArray.strLength a.2)), H.
    apply elem_of_cons. auto. }
  apply list_elem_of_In, List.filter_In in He as [He Hlarge].
  apply list_elem_of_In in He. apply Z.ltb_lt in Hlarge.
  split; [exact He|]. split; [exact Hlarge|].
  intros x Hx.
  destruct (Z_lt_le_dec MAX_CHARS_FOR_CHAT (JSArray.strLength x.2)) as [Hbig|]; [|lia].
  apply (JSArrayFacts.sort_head_max (fun e => JSArray.strLength e.2) _ e rest H).
  apply list_elem_of_In, List.filter_In. split; [apply list_elem_of_In, Hx|].
  apply Z.ltb_lt, Hbig.
Qed.

Lemma largeFiles_nil (newReports : list (string * string)) :
  largeFiles newReports = [] <->
  forall x, x ∈ newReports -> JSArray.strLength x.2 <= MAX_CHARS_FOR_CHAT.
Proof.
  unfold largeFiles. split.
  - intros H x Hx.
    destruct (Z_lt_le_dec MAX_CHARS_FOR_CHAT (JSArray.strLength x.2)) as [Hbig|]; [|lia].
    assert (Hin : x ∈ List.filter
                    (fun e => MAX_CHARS_FOR_CHAT <? JSArray.strLength e.2) newReports).
    { apply list_elem_of_In, List.filter_In. split; [apply list_elem_of_In, Hx|].
      apply Z.ltb_lt, Hbig. }
    rewrite <- (JSArrayFacts.sort_perm
                  (fun a b => JSArray.strLength b.2 - JSArray.strLength a.2)), H in Hin.
    apply elem_of_nil in Hin. contradiction.
  - intros H. rewrite filter_none; [reflexivity|].
    apply Forall_forall. intros x Hx. apply Z.ltb_ge, H, Hx.
Qed.

(** ** A preloaded folder *)

(** X10: Loading a preloaded folder whose JSON was fetched replaces the
    reports by the files of the folder, the entry named [__proto__]
    apart, which the copy into the new object drops.  It unsets the
    cursor and the display, and picks the literature file by size
    among the files it loaded: none when none of them has more than
    [MAX_CHARS_FOR_CHAT] code units, else a longest of them, which is
    over that limit.  The cursor invariant holds afterwards, whatever
    the state was. *)
Theorem preloaded_folder_picks_longest
    (folderName : string) (filesData : list (string * string)) (s : State) :
  folderName <> EmptyString ->
  NoDup filesData.*1 ->
  let s' := (handlePreloadedFolderSelect folderName (Some filesData) s).1 in
  (handlePreloadedFolderSelect folderName (Some filesData) s).2 = None /\
  loadedReports s' = list_to_map (copied filesData) /\
  (forall f c, loadedReports s' !! f = Some c <->
               (f, c) ∈ filesData /\ f <> "__proto__"%string) /\
  literatureFoundLine s' = None /\ literatureDisplayContent s' = None /\
  cursorInRange s' /\
  (literatureFile s' = None <->
   forall f c, (f, c) ∈ filesData -> f <> "__proto__"%string ->
     JSArray.strLength c <= MAX_CHARS_FOR_CHAT) /\
  (forall f, literatureFile s' = Some f ->
     f <> "__proto__"%string /\
     exists c, (f, c) ∈ filesData /\ loadedReports s' !! f = Some c /\
       MAX_CHARS_FOR_CHAT < JSArray.strLength c /\
       forall f' c', (f', c') ∈ filesData -> f' <> "__proto__"%string ->
         JSArray.strLength c' <= JSArray.strLength c).
Proof.
  intros Hname Hnd s'.
  assert (Hs' : s' = setLiteratureFoundLine None
                  (setLiteratureDisplayContent None
                     (setLiteratureFile
                        (match largeFiles (copied filesData) with
                         | e :: _ => Some e.1
                         | [] => None
                         end)
                        (setLoadedReports (list_to_map (copied filesData)) s)))).
  { unfold s', handlePreloadedFolderSelect.
    apply JSFacts.truthy_true in Hname. rewrite Hname. cbn [negb fst].
    rewrite (collectReports_NoDup filesData Hnd). reflexivity. }
  assert (Hlook : forall f c, loadedReports s' !! f = Some c <->
                              (f, c) ∈ filesData /\ f <> "__proto__"%string).
  { intros f c. rewrite Hs'. cbn. rewrite <- copied_elem. symmetry.
    apply elem_of_list_to_map, copied_NoDup, Hnd. }
  split.
  { unfold handlePreloadedFolderSelect.
    apply JSFacts.truthy_true in Hname. rewrite Hname. reflexivity. }
  split; [rewrite Hs'; reflexivity|]. split; [exact Hlook|].
  split; [rewrite Hs'; reflexivity|]. split; [rewrite Hs'; reflexivity|].
  split; [rewrite Hs'; exact I|]. split.
  - rewrite Hs'. cbn. destruct (largeFiles (copied filesData)) as [|e rest] eqn:E.
    + split; [|reflexivity]. intros _ f c Hin Hne.
      apply (proj1 (largeFiles_nil (copied filesData)) E (f, c)).
      apply copied_elem. auto.
    + split; [discriminate|]. intros Hall.
      destruct (largeFiles_head (copied filesData) e rest E) as (He & Hbig & _).
      destruct e as [f c]. apply copied_elem in He as [He Hne].
      specialize (Hall f c He Hne). cbn in Hbig. lia.
  - intros f Hf. rewrite Hs' in Hf. cbn in Hf.
    destruct (largeFiles (copied filesData)) as [|[f0 c0] rest] eqn:E; [discriminate|].
    inversion Hf; subst f0.
    destruct (largeFiles_head (copied filesData) (f, c0) rest E) as (He & Hbig & Hmax).
    apply copied_elem in He as [He Hne].
    split; [exact Hne|].
    exists c0. split; [exact He|]. split; [apply Hlook; auto|].
    split; [exact Hbig|]. intros f' c' Hin Hne'.
    apply (Hmax (f', c')). apply copied_elem. auto.
Qed.

(** A folder with a file named [__proto__], the longest of the three:
    it is not loaded, and the literature file is the longest of the
    other two. *)
Lemma preloaded_folder_picks_longest_witness :
  let filesData := [("notes.md", "short"); ("__proto__", String "a" longText);
                    ("quixote.txt", longText)]%string in
  let s := withLiterature "t.txt" greek "beta" 2 (Some 2) in
  let s' := (handlePreloadedFolderSelect "classics" (Some filesData) s).1 in
  "classics"%string <> EmptyString /\
  NoDup filesData.*1 /\
  literatureFile s' = Some "quixote.txt"%string /\
  loadedReports s' !! "__proto__"%string = None /\
  cursorInRange s' /\
  exists c, ("quixote.txt"%string, c) ∈ filesData /\
            MAX_CHARS_FOR_CHAT < JSArray.strLength c.
Proof.
  intros filesData s s'.
  assert (Hn : "classics"%string <> EmptyString) by discriminate.
  assert (Hnd : NoDup filesData.*1)
    by (apply (bool_decide_unpack (NoDup filesData.*1)); vm_compute; exact I).
  assert (Hf : literatureFile s' = Some "quixote.txt"%string)
    by (vm_compute; reflexivity).
  split; [exact Hn|]. split; [exact Hnd|]. split; [exact Hf|].
  destruct (preloaded_folder_picks_longest "classics" filesData s Hn Hnd)
    as (_ & _ & Hlook & _ & _ & Hin & _ & Hlit).
  split.
  { destruct (loadedReports s' !! "__proto__"%string) as [c|] eqn:E; [|reflexivity].
    apply Hlook in E as [_ E]. contradiction. }
  split; [exact Hin|].
  destruct (Hlit _ Hf) as (_ & c & Hc & _ & Hbig & _).
  exists c. auto.
Defined.

(** ** A folder chosen from disk *)

Lemma readReports_acc_elem (fs : list File) (acc : list (string * string))
    (k c : string) :
  (k, c) ∈ foldl (fun o f =>
                    match fileText f with
                    | Some content => JSArray.objSet o (fileName f) content
                    | None => o
                    end) acc fs ->
  (k, c) ∈ acc \/ exists file, file ∈ fs /\ fileName file = k /\ fileText file = Some c.
Proof.
  revert acc. induction fs as [|f fs IH]; intros acc H; [auto|].
  cbn [foldl] in H. apply IH in H as [H|(file & Hin & Hn & Ht)].
  - destruct (fileText f) as [content|] eqn:E; [|auto].
    apply JSArrayFacts.objSet_elem in H as [H|H]; [auto|].
    inversion H; subst. right. exists f. split; [apply elem_of_cons; auto | auto].
  - right. exists file. split; [apply elem_of_cons; auto | auto].
Qed.

Lemma readReports_elem (fs : list File) (k c : string) :
  (k, c) ∈ readReports fs ->
  exists file, file ∈ fs /\ fileName file = k /\ fileText file = Some c.
Proof.
  intros H. apply readReports_acc_elem in H as [H|H]; [|exact H].
  apply elem_of_nil in H. contradiction.
Qed.

Lemma readReports_acc_keys (fs : list File) (acc : list (string * string)) (k : string) :
  k ∈ acc.*1 \/ (exists file, file ∈ fs /\ fileName file = k /\ is_Some (fileText file)) ->
  k ∈ (foldl (fun o f =>
                match fileText f with
                | Some content => JSArray.objSet o (fileName f) content
                | None => o
                end) acc fs).*1.
Proof.
  revert acc. induction fs as [|f fs IH]; intros acc H.
  - destruct H as [H|(file & Hin & _)]; [exact H|].
    apply elem_of_nil in Hin. contradiction.
  - cbn [foldl]. apply IH. destruct H as [H|(file & Hin & Hn & Ht)].
    + left. destruct (fileText f); [|exact H].
      apply JSArrayFacts.objSet_keys. auto.
    + apply elem_of_cons in Hin as [->|Hin].
      * left. destruct Ht as [c ->]. apply JSArrayFacts.objSet_keys. auto.
      * right. exists file. auto.
Qed.

Lemma readReports_acc_NoDup (fs : list File) (acc : list (string * string)) :
  NoDup acc.*1 ->
  NoDup (foldl (fun o f =>
                  match fileText f with
                  | Some content => JSArray.objSet o (fileName f) content
                  | None => o
                  end) acc fs).*1.
Proof.
  revert acc. induction fs as [|f fs IH]; intros acc H; [exact H|].
  cbn [foldl]. apply IH. destruct (fileText f); [|exact H].
  apply JSArrayFacts.objSet_NoDup, H.
Qed.

Lemma readReports_NoDup (fs : list File) : NoDup (readReports fs).*1.
Proof. apply readReports_acc_NoDup. cbn. apply NoDup_nil_2. Qed.

Lemma mergeReports_cons (prev : gmap string string) (e : string * string)
    (l : list (string * string)) :
  mergeReports prev (e :: l) = mergeReports (<[e.1 := e.2]> prev) l.
Proof. reflexivity. Qed.

Lemma mergeReports_other (l : list (string * string)) (prev : gmap string string)
    (k : string) :
  k ∉ l.*1 -> mergeReports prev l !! k = prev !! k.
Proof.
  revert prev. induction l as [|e l IH]; intros prev Hk; [reflexivity|].
  cbn in Hk. apply not_elem_of_cons in Hk as [Hne Hk].
  rewrite mergeReports_cons, (IH _ Hk). apply lookup_insert_ne. congruence.
Qed.

Lemma mergeReports_from (l : list (string * string)) (prev : gmap string string)
    (k c : string) :
  mergeReports prev l !! k = Some c -> prev !! k = Some c \/ (k, c) ∈ l.
Proof.
  revert prev. induction l as [|e l IH]; intros prev H; [auto|].
  rewrite mergeReports_cons in H. apply IH in H as [H|H].
  - destruct (decide (e.1 = k)) as [E|N].
    + rewrite <- E, lookup_insert_eq in H. inversion H. right.
      apply elem_of_cons. left. destruct e; cbn in *; congruence.
    + rewrite lookup_insert_ne in H by exact N. auto.
  - right. apply elem_of_cons. auto.
Qed.

Lemma mergeReports_stored (l : list (string * string)) (prev : gmap string string)
    (k c : string) :
  NoDup l.*1 -> (k, c) ∈ l -> mergeReports prev l !! k = Some c.
Proof.
  revert prev. induction l as [|e l IH]; intros prev Hnd Hin.
  - apply elem_of_nil in Hin. contradiction.
  - cbn in Hnd. apply NoDup_cons in Hnd as [Hnot Hnd].
    rewrite mergeReports_cons. apply elem_of_cons in Hin as [<-|Hin].
    + rewrite mergeReports_other by exact Hnot. cbn. apply lookup_insert_eq.
    + apply IH; assumption.
Qed.

Section FolderSelect.
Variable localeSort : list File -> list File.
Hypothesis localeSort_perm : forall l, localeSort l ≡ₚ l.

Lemma sorted_textFiles (files : list File) (file : File) :
  file ∈ localeSort (List.filter isTextFile files) <->
  file ∈ files /\ isTextFile file = true.
Proof.
  rewrite localeSort_perm, list_elem_of_In, List.filter_In, <- list_elem_of_In.
  reflexivity.
Qed.

(** The state after [handleFolderSelect], case by case. *)
Lemma handleFolderSelect_state (files : list File) (s : State) :
  let newReports := readReports (localeSort (List.filter isTextFile files)) in
  let s1 := setLoadedReports (mergeReports (loadedReports s) newReports) s in
  (List.filter isTextFile files = [] /\
   handleFolderSelect localeSort files s = (s, Some NoTextFilesFound)) \/
  (List.filter isTextFile files <> [] /\
   ((exists e rest, largeFiles newReports = e :: rest /\
       literatureFileTruthy s = false /\
       handleFolderSelect localeSort files s = (setLiteratureFile (Some e.1) s1, None)) \/
    ((largeFiles newReports = [] \/ literatureFileTruthy s = true) /\
     handleFolderSelect localeSort files s = (s1, None)))).
Proof.
  intros newReports s1. unfold handleFolderSelect.
  destruct (List.filter isTextFile files) as [|f fs] eqn:E; [left; auto|].
  right. split; [discriminate|]. fold newReports. fold s1.
  destruct (largeFiles newReports) as [|e rest] eqn:El; [right; auto|].
  destruct (literatureFileTruthy s) eqn:Et; [right; auto|].
  left. exists e, rest. auto.
Qed.

(** X11: Choosing a folder merges its readable text files into the
    reports: a report whose name no such file bears keeps its text,
    every such file's name is loaded afterwards with the text of a
    file of that name, and no other report appears; the alert for a
    folder without text files leaves the state as it was.  The search
    term, the page size, the found line and the display are never
    touched. *)
Theorem folder_select_merges_reports (files : list File) (s : State) :
  let s' := (handleFolderSelect localeSort files s).1 in
  (forall k, (forall file, readable files file -> fileName file <> k) ->
     loadedReports s' !! k = loadedReports s !! k) /\
  (forall file, readable files file ->
     exists file', readable files file' /\ fileName file' = fileName file /\
       loadedReports s' !! fileName file = fileText file') /\
  (forall k c, loadedReports s' !! k = Some c ->
     loadedReports s !! k = Some c \/
     exists file, readable files file /\ fileName file = k /\ fileText file = Some c) /\
  ((handleFolderSelect localeSort files s).2 = Some NoTextFilesFound <->
   forall file, file ∈ files -> isTextFile file = false) /\
  ((handleFolderSelect localeSort files s).2 = Some NoTextFilesFound -> s' = s) /\
  literatureSearchTerm s' = literatureSearchTerm s /\
  literatureNumLines s' = literatureNumLines s /\
  literatureFoundLine s' = literatureFoundLine s /\
  literatureDisplayContent s' = literatureDisplayContent s.
Proof.
  intros s'. set (newReports := readReports (localeSort (List.filter isTextFile files))).
  assert (Hnew : forall k c, (k, c) ∈ newReports ->
            exists file, readable files file /\ fileName file = k /\ fileText file = Some c).
  { intros k c H. apply readReports_elem in H as (file & Hin & Hn & Ht).
    apply sorted_textFiles in Hin as [Hin Htxt].
    exists file. split; [|auto]. split; [exact Hin|]. split; [exact Htxt|].
    rewrite Ht. eauto. }
  assert (Hkey : forall file, readable files file -> fileName file ∈ newReports.*1).
  { intros file (Hin & Htxt & Ht). apply readReports_acc_keys. right.
    exists file. split; [apply sorted_textFiles; auto | auto]. }
  assert (Hnone : List.filter isTextFile files = [] <->
                  forall file, file ∈ files -> isTextFile file = false).
  { split.
    - intros E file Hin. destruct (isTextFile file) eqn:Ht; [|reflexivity].
      assert (H : In file (List.filter isTextFile files))
        by (apply List.filter_In; split; [apply list_elem_of_In, Hin | exact Ht]).
      rewrite E in H. destruct H.
    - intros H. apply filter_none, Forall_forall. exact H. }
  assert (Hrep : s' = s /\ List.filter isTextFile files = [] \/
                 loadedReports s' = mergeReports (loadedReports s) newReports /\
                 List.filter isTextFile files <> []).
  { unfold s'.
    destruct (handleFolderSelect_state files s)
      as [[E ->]|[Hne [(e & rest & _ & _ & ->)|[_ ->]]]]; cbn; auto. }
  split; [|split; [|split; [|split; [|split]]]].
  - intros k Hk. destruct Hrep as [[-> _]|[-> _]]; [reflexivity|].
    apply mergeReports_other. intros Hin.
    apply list_elem_of_fmap in Hin as ([k' c] & -> & Hin).
    destruct (Hnew k' c Hin) as (file & Hr & Hn & _). apply (Hk file Hr Hn).
  - intros file Hr. destruct Hrep as [[_ E]|[-> _]].
    + destruct Hr as (Hin & Htxt & _).
      rewrite (proj1 Hnone E file Hin) in Htxt. discriminate.
    + pose proof (Hkey file Hr) as Hin.
      apply list_elem_of_fmap in Hin as ([k c] & Hk & Hin). cbn in Hk. subst k.
      destruct (Hnew _ c Hin) as (file' & Hr' & Hn' & Ht').
      exists file'. split; [exact Hr'|]. split; [exact Hn'|].
      rewrite Ht'. apply mergeReports_stored; [apply readReports_NoDup | exact Hin].
  - intros k c H. destruct Hrep as [[-> _]|[Hm _]]; [auto|].
    rewrite Hm in H. apply mergeReports_from in H as [H|H]; [auto|].
    right. apply Hnew, H.
  - rewrite <- Hnone.
    destruct (handleFolderSelect_state files s)
      as [[E ->]|[Hne [(e & rest & _ & _ & ->)|[_ ->]]]]; cbn;
      split; intros H; congruence.
  - intros H. unfold s'.
    destruct (handleFolderSelect_state files s)
      as [[E ->]|[Hne [(e & rest & _ & _ & Hh)|[_ Hh]]]];
      [reflexivity | rewrite Hh in H; discriminate..].
  - unfold s'.
    destruct (handleFolderSelect_state files s)
      as [[E ->]|[Hne [(e & rest & _ & _ & ->)|[_ ->]]]]; cbn; auto.
Qed.



(** X14: But the found line is not reset when a file read bears the name of
    the literature file and replaces its text: with the new text [text]
    of fewer lines than the found line [n], the cursor is out of range
    afterwards, next lines alerts 'Reached end of text', and, when
    [n] is two or more past the number of lines, find previous reads
    a line that does not exist and throws. *)
Theorem folder_select_can_strand_cursor
    (f text : string) (n : Z) (s : State) :
  literatureFile s = Some f ->
  isTextFile (mkFile f (Some text)) = true ->
  text <> EmptyString ->
  literatureFoundLine s = Some n ->
  Z.of_nat (length (linesOf text)) < n ->
  JS.trim (literatureSearchTerm s) <> EmptyString ->
  let s' := (handleFolderSelect localeSort [mkFile f (Some text)] s).1 in
  literatureContent s' = Some text /\
  literatureFoundLine s' = Some n /\
  ~ cursorInRange s' /\
  nextLinesLiterature s' = Return s' (Some ReachedEndOfText) tt /\
  (Z.of_nat (length (linesOf text)) + 2 <= n -> findPrevLiterature s' = Uncaught).
Proof.
  intros Hf Htxt Htext Hn Hlen Hterm s'.
  assert (Hft : JS.truthy f = true).
  { destruct f; [|reflexivity]. vm_compute in Htxt. discriminate. }
  assert (Hs' : s' = setLoadedReports (<[f := text]> (loadedReports s)) s).
  { unfold s', handleFolderSelect. cbn [List.filter]. rewrite Htxt.
    assert (Hsort : localeSort [mkFile f (Some text)] = [mkFile f (Some text)])
      by (apply Permutation_singleton_r, localeSort_perm).
    rewrite Hsort. cbn [readReports foldl fileText fileName JSArray.objSet].
    unfold literatureFileTruthy. rewrite Hf, Hft.
    destruct (largeFiles _); reflexivity. }
  assert (Hc : literatureContent s' = Some text).
  { rewrite Hs'. unfold literatureContent. cbn. rewrite Hf, Hft, lookup_insert_eq.
    apply JSFacts.truthy_true in Htext. rewrite Htext. reflexivity. }
  assert (Hn' : literatureFoundLine s' = Some n) by (rewrite Hs'; exact Hn).
  assert (Ht' : foundLineTruthy s' = Some n).
  { unfold foundLineTruthy. rewrite Hn'.
    destruct (Z.eqb_spec n 0); [lia | reflexivity]. }
  split; [exact Hc|]. split; [exact Hn'|]. split; [|split].
  - unfold cursorInRange. rewrite Hn'. intros (content & Hc' & Hr).
    rewrite Hc in Hc'. inversion Hc'; subst content. lia.
  - unfold nextLinesLiterature. rewrite Hc, Ht'. fold (linesOf text).
    pose proof (numLines_bounds s').
    destruct (Z.leb_spec (Z.of_nat (length (linesOf text))) (n - 1 + numLines s'));
      [reflexivity | lia].
  - intros Hfar.
    assert (Hterm' : JS.trim (literatureSearchTerm s') <> EmptyString)
      by (rewrite Hs'; exact Hterm).
    rewrite (findPrevLiterature_scan s' text Hc Hterm'), Ht'.
    rewrite backwardLoop_unfold.
    destruct (Z.leb_spec 0 (n - 2)); [|lia].
    rewrite lineIncludes_out by lia. reflexivity.
Qed.

End FolderSelect.

(** The folder handler on three files, sorted as they come: a text
    file, a picture, and a markdown file that cannot be read. *)
Lemma folder_select_merges_reports_witness :
  let sortAsIs := fun l : list File => l in
  let files := [mkFile "a.txt" (Some "hello"%string);
                mkFile "pic.png" (Some "x"%string);
                mkFile "b.md" None] in
  let s := withLiterature "t.txt" greek "beta" 2 (Some 2) in
  let s' := (handleFolderSelect sortAsIs files s).1 in
  (forall l, sortAsIs l ≡ₚ l) /\
  readable files (mkFile "a.txt" (Some "hello"%string)) /\
  loadedReports s' !! "t.txt"%string = loadedReports s !! "t.txt"%string /\
  (exists file', readable files file' /\ fileName file' = "a.txt"%string /\
     loadedReports s' !! "a.txt"%string = fileText file').
Proof.
  intros sortAsIs files s s'.
  assert (Hp : forall l, sortAsIs l ≡ₚ l) by (intros l; reflexivity).
  assert (Hr : readable files (mkFile "a.txt" (Some "hello"%string))).
  { split; [apply elem_of_cons; auto|]. split; [vm_compute; reflexivity | eauto]. }
  split; [exact Hp|]. split; [exact Hr|].
  destruct (folder_select_merges_reports sortAsIs Hp files s) as (Hkeep & Hload & _).
  split.
  - apply Hkeep. intros file (Hin & Htxt & Hsome).
    apply elem_of_cons in Hin as [->|Hin]; [discriminate|].
    apply elem_of_cons in Hin as [->|Hin]; [vm_compute in Htxt; discriminate|].
    apply elem_of_cons in Hin as [->|Hin]; [destruct Hsome; discriminate|].
    apply elem_of_nil in Hin. contradiction.
  - exact (Hload _ Hr).
Defined.



(** The literature file, found line 4, is read again with one line. *)
Lemma folder_select_can_strand_cursor_witness :
  let sortAsIs := fun l : list File => l in
  let s := withLiterature "t.txt" greek "beta" 2 (Some 4) in
  let s' := (handleFolderSelect sortAsIs [mkFile "t.txt" (Some "one line"%string)] s).1 in
  (forall l, sortAsIs l ≡ₚ l) /\
  literatureFile s = Some "t.txt"%string /\
  isTextFile (mkFile "t.txt" (Some "one line"%string)) = true /\
  "one line"%string <> EmptyString /\
  literatureFoundLine s = Some 4 /\
  Z.of_nat (length (linesOf "one line")) < 4 /\
  JS.trim (literatureSearchTerm s) <> EmptyString /\
  Z.of_nat (length (linesOf "one line")) + 2 <= 4 /\
  ~ cursorInRange s' /\
  findPrevLiterature s' = Uncaught.
Proof.
  intros sortAsIs s s'.
  assert (Hp : forall l, sortAsIs l ≡ₚ l) by (intros l; reflexivity).
  assert (Hf : literatureFile s = Some "t.txt"%string) by reflexivity.
  assert (Hx : isTextFile (mkFile "t.txt" (Some "one line"%string)) = true)
    by (vm_compute; reflexivity).
  assert (Ht : "one line"%string <> EmptyString) by discriminate.
  assert (Hn : literatureFoundLine s = Some 4) by reflexivity.
  assert (Hl : Z.of_nat (length (linesOf "one line")) < 4) by (vm_compute; reflexivity).
  assert (Hterm : JS.trim (literatureSearchTerm s) <> EmptyString)
    by (vm_compute; discriminate).
  assert (Hfar : Z.of_nat (length (linesOf "one line")) + 2 <= 4)
    by (vm_compute; discriminate).
  repeat (split; [assumption|]).
  destruct (folder_select_can_strand_cursor sortAsIs Hp "t.txt" "one line" 4 s
              Hf Hx Ht Hn Hl Hterm) as (_ & _ & Hout & _ & Hthrow).
  split; [exact Hout | exact (Hthrow Hfar)].
Defined.

(** ** The system prompt *)

Lemma chat_and_excluded_empty (entries : list (string * string)) (s : State) :
  getReportsForChat entries s = [] /\ List.filter (excludedFromChat s) entries = [] <->
  entries = [].
Proof.
  split; [|intros ->; split; reflexivity].
  intros [Hc He]. destruct entries as [|e entries]; [reflexivity|]. exfalso.
  unfold getReportsForChat in Hc. cbn [List.filter] in Hc, He.
  rewrite excludedFromChat_negb in He.
  destruct (sentToChat s e); cbn in He; discriminate.
Qed.

(** X15: The system prompt is [null] exactly when there is nothing to put
    in it: no role prompt (or an empty one) and no report loaded.  A
    loaded report always leaves a trace, be it only the note that a
    file is loaded for reading; and with a role prompt and no report
    the system prompt is the role prompt itself. *)
Theorem system_prompt_null_iff_nothing
    (rolePrompt : option string) (entries : list (string * string)) (s : State) :
  entries ≡ₚ map_to_list (loadedReports s) ->
  (buildSystemPrompt rolePrompt entries s = None <->
   (rolePrompt = None \/ rolePrompt = Some EmptyString) /\ loadedReports s = ∅) /\
  (loadedReports s = ∅ ->
   forall p, rolePrompt = Some p -> p <> EmptyString ->
     buildSystemPrompt rolePrompt entries s = Some p).
Proof.
  intros Hp.
  assert (Hempty : entries = [] <-> loadedReports s = ∅).
  { rewrite <- map_to_list_empty_iff. split.
    - intros ->. symmetry. apply Permutation_nil_l, Hp.
    - intros E. rewrite E in Hp. apply Permutation_nil_r in Hp. exact Hp. }
  assert (Hrole : forall A (x : A), (match rolePrompt with
                    | Some p => if JS.truthy p then [p] else []
                    | None => []
                    end = []) <-> rolePrompt = None \/ rolePrompt = Some EmptyString).
  { intros _ _. destruct rolePrompt as [[|c p]|]; cbn; split; intros H; auto;
      try discriminate; destruct H; discriminate. }
  specialize (Hrole unit tt).
  split.
  - unfold buildSystemPrompt.
    rewrite <- Hempty, <- (chat_and_excluded_empty entries s), <- Hrole.
    destruct (getReportsForChat entries s) as [|e1 r1];
      destruct (List.filter (excludedFromChat s) entries) as [|e2 r2];
      destruct (match rolePrompt with
                | Some p => if JS.truthy p then [p] else []
                | None => []
                end) as [|p0 ps]; cbn;
      split; intros H; try discriminate; try (destruct H as (? & ? & ?); discriminate);
      try (destruct H as (? & ?); discriminate); auto.
  - intros E p -> Hne. apply Hempty in E. subst entries.
    unfold buildSystemPrompt. cbn.
    apply JSFacts.truthy_true in Hne. rewrite Hne. reflexivity.
Qed.

Lemma system_prompt_null_iff_nothing_witness :
  let s := withLiterature "t.txt" greek "beta" 2 None in
  let entries := map_to_list (loadedReports s) in
  entries ≡ₚ map_to_list (loadedReports s) /\
  buildSystemPrompt None entries s =
    Some (readingOnlyNote "t.txt") /\
  buildSystemPrompt None entries s <> None /\
  buildSystemPrompt (Some "Be brief."%string) [] initialState = Some "Be brief."%string.
Proof.
  intros s entries.
  assert (Hp : entries ≡ₚ map_to_list (loadedReports s)) by reflexivity.
  split; [exact Hp|]. split; [vm_compute; reflexivity|]. split.
  - intros Hnone.
    apply (proj1 (system_prompt_null_iff_nothing None entries s Hp)) in Hnone.
    destruct Hnone as [_ Hempty].
    apply (f_equal (fun m => m !! "t.txt"%string)) in Hempty.
    vm_compute in Hempty. discriminate.
  - assert (Hp0 : [] ≡ₚ map_to_list (loadedReports initialState)) by reflexivity.
    apply (proj2 (system_prompt_null_iff_nothing (Some "Be brief."%string) []
                    initialState Hp0)); [reflexivity | reflexivity | discriminate].
Defined.
